(** * Open WebUI provider pipes: a shallow embedding

    The repository holds five adapter modules ("pipes") for Open WebUI:
    [cloudflare_pipe.py], [deepseek_pipe.py], [mistral_pipe.py],
    [perplexity_pipe.py] and [xai_pipe.py].  This development embeds their
    request translation, response extraction and server-sent-event decoding
    as Rocq functions and states the properties of the specification about
    them.

    Conventions of the embedding:
    - Python text ([str]) is a Rocq [string]; each character stands for a
      code point below 256.
    - Python objects that travel through the pipes (request bodies, parsed
      JSON) are values of [pyval]; a [dict] is an association list in
      insertion order whose keys are pairwise distinct.
    - An operation that can raise returns a [result]; the exception carries
      its class (which [except] clause catches it) and its [str(e)] text.
    - A generator is the list of values it yields together with the way it
      ends (exhausted, or an exception leaving the generator).
    - The interpreter services the pipes rely on ([json.loads], the text
      form of non-string objects) and the HTTP transport ([requests.post])
      are interfaces: [PyRuntime] and [Transport]. *)

From Stdlib Require Import String Ascii List ZArith Bool Lia.
From Stdlib Require Import SpecFloat DecimalString.
Import ListNotations.
Local Open Scope string_scope.
Local Open Scope list_scope.
Set Warnings "-register-all".

(** ** Text primitives *)

Module Text.

(** The double-quote character, as a one-character text. *)
Definition dq : string := String (ascii_of_nat 34) EmptyString.

(** A line feed. *)
Definition nl : string := String (ascii_of_nat 10) EmptyString.

(** [quoted s] is [s] between double quotes. *)
Definition quoted (s : string) : string := dq ++ s ++ dq.

(** [s.startswith(p)] *)
Definition startswith (s p : string) : bool := String.prefix p s.

(** [s[n:]] *)
Fixpoint drop (n : nat) (s : string) : string :=
  match n, s with
  | O, _ => s
  | S k, EmptyString => EmptyString
  | S k, String _ s' => drop k s'
  end.

(** [sub in s] on two texts: [sub] occurs in [s]. *)
Fixpoint contains (sub s : string) : bool :=
  String.prefix sub s ||
  match s with
  | EmptyString => false
  | String _ s' => contains sub s'
  end.

(** [s.split(sep, 1)[1]] for a one-character separator: the text after the
    first [sep]; [None] stands for the [IndexError] of a text without
    separator. *)
Fixpoint after_first (sep : ascii) (s : string) : option string :=
  match s with
  | EmptyString => None
  | String c s' => if Ascii.eqb c sep then Some s' else after_first sep s'
  end.

(** [s.replace(old, new)] for a non-empty [old]: every non-overlapping
    occurrence, leftmost first.  [skip] counts the characters of an
    occurrence that are still to be passed over. *)
Fixpoint replace_from (old new : string) (skip : nat) (s : string) : string :=
  match s with
  | EmptyString => EmptyString
  | String c s' =>
      match skip with
      | S k => replace_from old new k s'
      | O =>
          if String.prefix old s
          then new ++ replace_from old new (String.length old - 1) s'
          else String c (replace_from old new 0 s')
      end
  end.

Definition replace (old new s : string) : string := replace_from old new 0 s.

(** [c.isspace()] for a code point below 256. *)
Definition is_space (c : ascii) : bool :=
  let n := nat_of_ascii c in
  (Nat.leb 9 n && Nat.leb n 13) || (Nat.leb 28 n && Nat.leb n 32)
  || Nat.eqb n 133 || Nat.eqb n 160.

Fixpoint lstrip (s : string) : string :=
  match s with
  | EmptyString => EmptyString
  | String c s' => if is_space c then lstrip s' else s
  end.

Fixpoint rstrip (s : string) : string :=
  match s with
  | EmptyString => EmptyString
  | String c s' =>
      match rstrip s' with
      | EmptyString => if is_space c then EmptyString else String c EmptyString
      | r => String c r
      end
  end.

(** [s.strip()] *)
Definition strip (s : string) : string := rstrip (lstrip s).

(** [sep.join(parts)] *)
Definition join (sep : string) (parts : list string) : string :=
  String.concat sep parts.

(** The characters of a text, each as a one-character text. *)
Fixpoint chars (s : string) : list string :=
  match s with
  | EmptyString => []
  | String c s' => String c EmptyString :: chars s'
  end.

End Text.

(** ** Python values *)

Inductive pyval : Type :=
| PNone
| PBool (b : bool)
| PInt (z : Z)
| PFloat (f : spec_float)
| PStr (s : string)
| PList (l : list pyval)
| PDict (d : list (string * pyval)).

Definition dict : Type := list (string * pyval).

(** Exception classes, as far as the [except] clauses of the pipes tell them
    apart. *)
Inductive exn_class : Type :=
| Timeout                  (* requests.exceptions.Timeout *)
| ConnectionError          (* requests.exceptions.ConnectionError *)
| HTTPError                (* requests.exceptions.HTTPError *)
| RequestsJSONDecodeError  (* requests.exceptions.JSONDecodeError *)
| JSONDecodeError          (* json.JSONDecodeError *)
| UnicodeDecodeError
| TypeError
| AttributeError
| KeyError
| IndexError
| ValueError               (* a ValueError that is no JSONDecodeError *)
| RecursionError.

Record exn : Type := mkExn { exn_cls : exn_class; exn_msg : string }.

(** [isinstance(e, requests.exceptions.RequestException)] *)
Definition is_RequestException (e : exn) : bool :=
  match exn_cls e with
  | Timeout | ConnectionError | HTTPError | RequestsJSONDecodeError => true
  | _ => false
  end.

(** [isinstance(e, requests.exceptions.Timeout)] *)
Definition is_Timeout (e : exn) : bool :=
  match exn_cls e with
  | Timeout => true
  | _ => false
  end.

(** [isinstance(e, json.JSONDecodeError)]; the decode error of [requests]
    derives from it. *)
Definition is_JSONDecodeError (e : exn) : bool :=
  match exn_cls e with
  | JSONDecodeError | RequestsJSONDecodeError => true
  | _ => false
  end.

Inductive result (A : Type) : Type :=
| Ok (a : A)
| Raise (e : exn).

Arguments Ok {A} a.
Arguments Raise {A} e.

Definition bind {A B : Type} (r : result A) (k : A -> result B) : result B :=
  match r with
  | Ok a => k a
  | Raise e => Raise e
  end.

Declare Scope py_scope.
Delimit Scope py_scope with py.
Notation "x <- r ;; k" := (bind r (fun x => k))
  (at level 61, r at next level, right associativity) : py_scope.

(** ** Operations of the interpreter on values *)

Module Py.

Definition type_name (v : pyval) : string :=
  match v with
  | PNone => "NoneType"
  | PBool _ => "bool"
  | PInt _ => "int"
  | PFloat _ => "float"
  | PStr _ => "str"
  | PList _ => "list"
  | PDict _ => "dict"
  end.

Definition type_error (msg : string) : exn := mkExn TypeError msg.

Definition no_attribute (v : pyval) (attr : string) : exn :=
  mkExn AttributeError
    ("'" ++ type_name v ++ "' object has no attribute '" ++ attr ++ "'").

(** Lookup in a dict. *)
Fixpoint lookup (k : string) (d : dict) : option pyval :=
  match d with
  | [] => None
  | (k', v) :: d' => if String.eqb k k' then Some v else lookup k d'
  end.

Definition has_key (k : string) (d : dict) : bool :=
  match lookup k d with
  | Some _ => true
  | None => false
  end.

(** [d[k] = v] *)
Fixpoint set (k : string) (v : pyval) (d : dict) : dict :=
  match d with
  | [] => [(k, v)]
  | (k', v') :: d' =>
      if String.eqb k k' then (k, v) :: d' else (k', v') :: set k v d'
  end.

Definition keys (d : dict) : list string := map fst d.

(** [bool(v)] *)
Definition truthy (v : pyval) : bool :=
  match v with
  | PNone => false
  | PBool b => b
  | PInt z => negb (Z.eqb z 0)
  | PFloat f =>
      match f with
      | S754_zero _ => false
      | _ => true
      end
  | PStr s => negb (String.eqb s "")
  | PList l =>
      match l with
      | [] => false
      | _ => true
      end
  | PDict d =>
      match d with
      | [] => false
      | _ => true
      end
  end.

(** [v == "lit"] for a text literal. *)
Definition eq_str (v : pyval) (lit : string) : bool :=
  match v with
  | PStr s => String.eqb s lit
  | _ => false
  end.

(** ["lit" in v] *)
Definition contains (lit : string) (v : pyval) : result bool :=
  match v with
  | PDict d => Ok (has_key lit d)
  | PStr s => Ok (Text.contains lit s)
  | PList l => Ok (existsb (fun x => eq_str x lit) l)
  | _ =>
      Raise (type_error
        ("argument of type '" ++ type_name v ++ "' is not iterable"))
  end.

(** [v["lit"]] *)
Definition getitem (v : pyval) (lit : string) : result pyval :=
  match v with
  | PDict d =>
      match lookup lit d with
      | Some x => Ok x
      | None => Raise (mkExn KeyError ("'" ++ lit ++ "'"))
      end
  | PStr _ => Raise (type_error "string indices must be integers, not 'str'")
  | PList _ =>
      Raise (type_error "list indices must be integers or slices, not str")
  | _ =>
      Raise (type_error
        ("'" ++ type_name v ++ "' object is not subscriptable"))
  end.

(** [v[0]] *)
Definition getitem0 (v : pyval) : result pyval :=
  match v with
  | PList (x :: _) => Ok x
  | PList [] => Raise (mkExn IndexError "list index out of range")
  | PStr (String c _) => Ok (PStr (String c EmptyString))
  | PStr EmptyString => Raise (mkExn IndexError "string index out of range")
  | PDict _ => Raise (mkExn KeyError "0")
  | _ =>
      Raise (type_error
        ("'" ++ type_name v ++ "' object is not subscriptable"))
  end.

(** [v.get("lit", default)] *)
Definition get (v : pyval) (lit : string) (default : pyval) : result pyval :=
  match v with
  | PDict d =>
      match lookup lit d with
      | Some x => Ok x
      | None => Ok default
      end
  | _ => Raise (no_attribute v "get")
  end.

(** [d.get("lit", default)] on a value known to be a dict. *)
Definition dget (d : dict) (lit : string) (default : pyval) : pyval :=
  match lookup lit d with
  | Some x => x
  | None => default
  end.

(** [len(v)] *)
Definition len (v : pyval) : result nat :=
  match v with
  | PStr s => Ok (String.length s)
  | PList l => Ok (List.length l)
  | PDict d => Ok (List.length d)
  | _ =>
      Raise (type_error
        ("object of type '" ++ type_name v ++ "' has no len()"))
  end.

(** The items a [for] loop over [v] visits. *)
Definition iter (v : pyval) : result (list pyval) :=
  match v with
  | PList l => Ok l
  | PStr s => Ok (map PStr (Text.chars s))
  | PDict d => Ok (map PStr (keys d))
  | _ =>
      Raise (type_error
        ("'" ++ type_name v ++ "' object is not iterable"))
  end.

End Py.

(** ** The interpreter and the transport as interfaces *)

(** [json_loads s] is [json.loads(s)], [None] when the call raises;
    [json_loads_error s] is then the exception.  For a text that is no JSON
    it is a [json.JSONDecodeError], but the call can also fail with an
    exception that is none: a [ValueError] at an integer literal of more
    digits than the interpreter converts (4300 by default), a
    [RecursionError] at too deep a nesting.  [py_repr v] is the text Python
    prints for a value that is not a [str]. *)
Class PyRuntime : Type := {
  json_loads : string -> option pyval;
  json_loads_error : string -> exn;
  py_repr : pyval -> string
}.

(** [str(v)], also what an f-string substitutes for [{v}]. *)
Definition py_str {RT : PyRuntime} (v : pyval) : string :=
  match v with
  | PStr s => s
  | _ => py_repr v
  end.

(** The arguments of one [requests.post] call. *)
Record request : Type := mkRequest {
  req_url : string;
  req_headers : list (string * string);
  req_json : dict;
  req_stream : bool;
  req_timeout : option Z
}.

(** What one step of [response.iter_lines()] followed by
    [line.decode("utf-8")] can give: bytes that decode to a text (the empty
    text for an empty line), non-empty bytes that do not decode, or an
    exception of the transport while reading. *)
Inductive line_event : Type :=
| Line (s : string)
| Undecodable (msg : string)
| ReadError (e : exn).

(** The observations the pipes make of a [requests.Response]. *)
Record response : Type := mkResponse {
  status_code : Z;
  reason : string;
  text : string;
  json : result pyval;
  iter_lines : list line_event
}.

Class Transport : Type := {
  requests_post : request -> result response
}.

(** Computations that call the network keep the log of the calls made. *)
Definition net (A : Type) : Type := list request -> A * list request.

Definition net_ret {A : Type} (a : A) : net A := fun log => (a, log).

Definition net_bind {A B : Type} (m : net A) (k : A -> net B) : net B :=
  fun log => let (a, log') := m log in k a log'.

Definition post {TR : Transport} (r : request) : net (result response) :=
  fun log => (requests_post r, log ++ [r]).

(** [response.raise_for_status()] *)
Definition raise_for_status {RT : PyRuntime} (url : string) (r : response)
  : result unit :=
  let code := status_code r in
  if (400 <=? code)%Z && (code <? 500)%Z then
    Raise (mkExn HTTPError
      (py_str (PInt code) ++ " Client Error: " ++ reason r
       ++ " for url: " ++ url))
  else if (500 <=? code)%Z && (code <? 600)%Z then
    Raise (mkExn HTTPError
      (py_str (PInt code) ++ " Server Error: " ++ reason r
       ++ " for url: " ++ url))
  else Ok tt.

(** ** Generators *)

(** A finished run of a generator: the values it yielded, in order, and the
    exception that left it, if any. *)
Record run : Type := mkRun {
  yielded : list pyval;
  raised : option exn
}.

(** A piece of a generator body: what it yields, then its outcome. *)
Definition gen (A : Type) : Type := (list pyval * result A)%type.

Definition gret {A : Type} (a : A) : gen A := ([], Ok a).

Definition gyield (v : pyval) : gen unit := ([v], Ok tt).

Definition glift {A : Type} (r : result A) : gen A := ([], r).

Definition gbind {A B : Type} (g : gen A) (k : A -> gen B) : gen B :=
  match g with
  | (out, Ok a) => let (out', r) := k a in (out ++ out', r)
  | (out, Raise e) => (out, Raise e)
  end.

Declare Scope gen_scope.
Delimit Scope gen_scope with gen.
Notation "x <~ g ;; k" := (gbind g (fun x => k))
  (at level 61, g at next level, right associativity) : gen_scope.
Notation "'pass'" := (gret tt) : gen_scope.

(** [try: body  except <catches>: handler] inside a generator. *)
Definition try_except (body : gen unit) (catches : exn -> bool)
  (handler : gen unit) : gen unit :=
  match body with
  | (out, Raise e) =>
      if catches e then let (out', r) := handler in (out ++ out', r)
      else (out, Raise e)
  | done => done
  end.

(** [for x in items: body x] inside a generator, without [break]. *)
Fixpoint for_each (items : list pyval) (body : pyval -> gen unit) : gen unit :=
  match items with
  | [] => gret tt
  | x :: rest => gbind (body x) (fun _ => for_each rest body)
  end.

(** How the body of the loop over the lines leaves one iteration. *)
Inductive step : Type :=
| Next
| Break
| Abort (e : exn).

(** [for line in response.iter_lines(): ...] *)
Fixpoint for_lines (handle : line_event -> list pyval * step)
  (lines : list line_event) : run :=
  match lines with
  | [] => mkRun [] None
  | ev :: rest =>
      match handle ev with
      | (out, Next) =>
          let r := for_lines handle rest in
          mkRun (out ++ yielded r) (raised r)
      | (out, Break) => mkRun out None
      | (out, Abort e) => mkRun out (Some e)
      end
  end.

(** One iteration whose body neither breaks nor continues early. *)
Definition step_of (g : gen unit) : list pyval * step :=
  match g with
  | (out, Ok _) => (out, Next)
  | (out, Raise e) => (out, Abort e)
  end.

(** What a pipe hands back to the host: a value, a generator that has not
    started (running it may call the network), or an exception. *)
Inductive pipe_result : Type :=
| Returned (v : pyval)
| Generator (g : net run)
| Raised (e : exn).

(** The network calls on record once the host has called a pipe and, when it
    got a generator, has run it to its end. *)
Definition calls_made (outcome : pipe_result * list request) : list request :=
  match fst outcome with
  | Generator g => snd (g (snd outcome))
  | _ => snd outcome
  end.

(** One element of the list a [pipes] method returns:
    [{"id": ..., "name": ...}]. *)
Definition model_entry (id name : string) : dict :=
  [("id", PStr id); ("name", PStr name)].

(** The ["id"] of every element of such a list that has a text id. *)
Fixpoint entry_ids (entries : list dict) : list string :=
  match entries with
  | [] => []
  | entry :: rest =>
      match Py.lookup "id" entry with
      | Some (PStr id) => id :: entry_ids rest
      | _ => entry_ids rest
      end
  end.

(** ** The OpenAI-style pipes: DeepSeek, Mistral, Perplexity, x.AI

    The four modules differ in their constants only (names, default model,
    list of optional parameters); [provider] selects the module. *)

Module OpenAI.

Inductive provider : Type :=
| DeepSeek
| Mistral
| Perplexity
| XAI.

Definition providers : list provider := [DeepSeek; Mistral; Perplexity; XAI].

(** Name of the valve that holds the key. *)
Definition api_key_name (p : provider) : string :=
  match p with
  | DeepSeek => "DEEPSEEK_API_KEY"
  | Mistral => "MISTRAL_API_KEY"
  | Perplexity => "PERPLEXITY_API_KEY"
  | XAI => "XAI_API_KEY"
  end.

Definition default_base_url (p : provider) : string :=
  match p with
  | DeepSeek => "https://api.deepseek.com/v1"
  | Mistral => "https://api.mistral.ai/v1"
  | Perplexity => "https://api.perplexity.ai"
  | XAI => "https://api.x.ai/v1"
  end.

(** Name of the API in the error texts. *)
Definition api_name (p : provider) : string :=
  match p with
  | DeepSeek => "DeepSeek"
  | Mistral => "Mistral"
  | Perplexity => "Perplexity"
  | XAI => "x.AI"
  end.

(** Second argument of [body.get("model", ...)]. *)
Definition default_model (p : provider) : string :=
  match p with
  | DeepSeek => "deepseek-chat"
  | Mistral => "mistral-large-latest"
  | Perplexity => "sonar"
  | XAI => "grok-3"
  end.

(** The prefix tested by [model_id.startswith(...)]. *)
Definition pipe_prefix (p : provider) : string :=
  match p with
  | DeepSeek => "deepseek."
  | Mistral => "mistral."
  | Perplexity => "perplexity."
  | XAI => "xai."
  end.

(** The optional parameters copied into the payload, in source order. *)
Definition optional_params (p : provider) : list string :=
  match p with
  | DeepSeek | XAI =>
      ["temperature"; "max_tokens"; "top_p"; "frequency_penalty";
       "presence_penalty"; "stop"]
  | Mistral =>
      ["temperature"; "max_tokens"; "top_p"; "min_tokens"; "stop";
       "random_seed"; "safe_prompt"]
  | Perplexity =>
      ["temperature"; "max_tokens"; "top_p"; "top_k"; "frequency_penalty";
       "presence_penalty"]
  end.

Record Valves : Type := mkValves {
  API_KEY : string;
  API_BASE_URL : string
}.

(** [self.id], set by [__init__]. *)
Definition pipe_id (p : provider) : string :=
  match p with
  | DeepSeek => "deepseek"
  | Mistral => "mistral"
  | Perplexity => "perplexity"
  | XAI => "xai"
  end.

(** [pipes]: the models a pipe offers to the host. *)
Definition pipes (p : provider) : list dict :=
  match p with
  | DeepSeek =>
      [model_entry "deepseek-chat" "DeepSeek Chat (V3.2-Exp)";
       model_entry "deepseek-reasoner"
         "DeepSeek Reasoner (V3.2-Exp Thinking Mode)"]
  | Mistral =>
      [model_entry "mistral-large-latest"
         "Mistral Large (Latest) - 123B params";
       model_entry "mistral-large-2411"
         "Mistral Large 2.1 (2411) - 123B params";
       model_entry "mistral-small-latest"
         "Mistral Small (Latest) - Multimodal";
       model_entry "mistral-small-2506" "Mistral Small 3.2 (2506)";
       model_entry "mistral-small-2503" "Mistral Small 3.1 (2503)";
       model_entry "mistral-small-2501" "Mistral Small 3 (2501)";
       model_entry "mistral-medium-latest" "Mistral Medium (Latest)";
       model_entry "mistral-medium-2508" "Mistral Medium 3.1 (2508)";
       model_entry "codestral-latest"
         "Codestral (Latest) - Code Generation";
       model_entry "codestral-2501" "Codestral (2501)";
       model_entry "open-mistral-7b" "Mistral 7B - Open Source";
       model_entry "open-mixtral-8x7b" "Mixtral 8x7B - Open Source";
       model_entry "open-mixtral-8x22b" "Mixtral 8x22B - Open Source"]
  | Perplexity =>
      [model_entry "sonar-pro" "Sonar Pro";
       model_entry "sonar" "Sonar";
       model_entry "sonar-reasoning" "Sonar Reasoning";
       model_entry "sonar-reasoning-pro" "Sonar Reasoning Pro"]
  | XAI =>
      [model_entry "grok-4-fast-reasoning"
         "Grok 4 Fast (Reasoning) - 2M context";
       model_entry "grok-4-fast-non-reasoning"
         "Grok 4 Fast (Non-Reasoning) - 2M context";
       model_entry "grok-4-0709" "Grok 4 (0709) - 256K context";
       model_entry "grok-3" "Grok 3 - 131K context";
       model_entry "grok-3-mini" "Grok 3 Mini - 131K context";
       model_entry "grok-2-vision-1212" "Grok 2 Vision (1212) - 32K context";
       model_entry "grok-2-1212" "Grok 2 (1212) - 131K context";
       model_entry "grok-code-fast-1" "Grok Code Fast - 256K context";
       model_entry "grok-2-image-1212" "Grok 2 Image Generator (1212)"]
  end.

(** [if k in body: payload[k] = body[k]] *)
Definition copy_param (body payload : dict) (k : string) : dict :=
  match Py.lookup k body with
  | Some v => Py.set k v payload
  | None => payload
  end.

(** The model id of the payload: [body.get("model", default)], without the
    pipe's own prefix when the id starts with it. *)
Definition model_id_of (p : provider) (body : dict) : result pyval :=
  let model_id := Py.dget body "model" (PStr (default_model p)) in
  match model_id with
  | PStr s =>
      if Text.startswith s (pipe_prefix p)
      then Ok (PStr (Text.replace (pipe_prefix p) "" s))
      else Ok model_id
  | _ => Raise (Py.no_attribute model_id "startswith")
  end.

(** The outbound payload that [pipe] builds from the body. *)
Definition build_payload (p : provider) (body : dict) : result dict :=
  (model_id <- model_id_of p body ;;
   let payload :=
     [("model", model_id);
      ("messages", Py.dget body "messages" (PList []))] in
   let payload := fold_left (copy_param body) (optional_params p) payload in
   let stream := Py.dget body "stream" (PBool false) in
   Ok (Py.set "stream" stream payload))%py.

(** ["choices" in data and len(data["choices"]) > 0] *)
Definition has_choices (data : pyval) : result bool :=
  (present <- Py.contains "choices" data ;;
   if present : bool then
     choices <- Py.getitem data "choices" ;;
     n <- Py.len choices ;;
     Ok (Nat.ltb 0 n)
   else Ok false)%py.

Section WithRuntime.

Context {RT : PyRuntime} {TR : Transport}.

(** The part of [_handle_non_stream] after [response.json()]. *)
Definition message_content (p : provider) (data : pyval) : result pyval :=
  (some <- has_choices data ;;
   if some : bool then
     choices <- Py.getitem data "choices" ;;
     first <- Py.getitem0 choices ;;
     message <- Py.getitem first "message" ;;
     Py.getitem message "content"
   else Ok (PStr ("Error: No response from " ++ api_name p ++ " API")))%py.

Definition _handle_non_stream (p : provider) (url : string)
  (headers : list (string * string)) (payload : dict) : net (result pyval) :=
  net_bind (post (mkRequest url headers payload false None)) (fun posted =>
  net_ret
    (response <- posted ;;
     _ <- raise_for_status url response ;;
     data <- json response ;;
     message_content p data)%py).

(** The body of the [try] in the loop of [_handle_stream], after
    [json.loads] has succeeded. *)
Definition delta_content (data : pyval) : gen unit :=
  (some <~ glift (has_choices data) ;;
   if some : bool then
     choices <~ glift (Py.getitem data "choices") ;;
     first <~ glift (Py.getitem0 choices) ;;
     delta <~ glift (Py.get first "delta" (PDict [])) ;;
     present <~ glift (Py.contains "content" delta) ;;
     if present : bool then
       content <~ glift (Py.getitem delta "content") ;;
       gyield content
     else pass
   else pass)%gen.

(** One iteration of the loop over the lines in [_handle_stream]. *)
Definition handle_line (ev : line_event) : list pyval * step :=
  match ev with
  | ReadError e => ([], Abort e)
  | Undecodable msg => ([], Abort (mkExn UnicodeDecodeError msg))
  | Line line =>
      if String.eqb line "" then ([], Next)
      else if Text.startswith line "data: " then
        let data_str := Text.drop 6 line in
        if String.eqb (Text.strip data_str) "[DONE]" then ([], Break)
        else
          step_of
            (try_except
               match json_loads data_str with
               | Some data => delta_content data
               | None => glift (Raise (json_loads_error data_str))
               end
               is_JSONDecodeError
               (gret tt))
      else ([], Next)
  end.

Definition _handle_stream (url : string) (headers : list (string * string))
  (payload : dict) : net run :=
  net_bind (post (mkRequest url headers payload true None)) (fun posted =>
  net_ret
    match (response <- posted ;;
           _ <- raise_for_status url response ;;
           Ok response)%py with
    | Ok response => for_lines handle_line (iter_lines response)
    | Raise e => mkRun [] (Some e)
    end).

(** The two [except] clauses of [pipe]. *)
Definition on_exception (p : provider) (e : exn) : pyval :=
  if is_RequestException e
  then PStr ("Error: Failed to connect to " ++ api_name p ++ " API - "
             ++ exn_msg e)
  else PStr ("Error: " ++ exn_msg e).

Definition pipe (p : provider) (valves : Valves) (body : dict)
  : net pipe_result :=
  if String.eqb (API_KEY valves) "" then
    net_ret (Returned (PStr ("Error: " ++ api_key_name p
      ++ " is not set. Please configure it in the pipe settings.")))
  else
    let headers :=
      [("Authorization", ("Bearer " ++ API_KEY valves)%string);
       ("Content-Type", "application/json")] in
    match build_payload p body with
    | Raise e => net_ret (Raised e)
    | Ok payload =>
        let stream := Py.dget body "stream" (PBool false) in
        let url := (API_BASE_URL valves ++ "/chat/completions")%string in
        if Py.truthy stream then
          net_ret (Generator (_handle_stream url headers payload))
        else
          net_bind (_handle_non_stream p url headers payload) (fun r =>
          net_ret
            match r with
            | Ok v => Returned v
            | Raise e => Returned (on_exception p e)
            end)
    end.

End WithRuntime.

End OpenAI.

(** ** The Cloudflare Workers AI pipe *)

Module Cloudflare.

Record Valves : Type := mkValves {
  CLOUDFLARE_API_KEY : string;
  CLOUDFLARE_ACCOUNT_ID : string;
  BASE_URL : string
}.

Definition default_base_url : string :=
  "https://api.cloudflare.com/client/v4/accounts".

(** [pipes]: the models the pipe offers to the host. *)
Definition pipes : list dict :=
  [model_entry "cf-gpt-oss-120b" "gpt-oss-120b";
   model_entry "cf-llama-3.1-70b-instruct" "llama-3.1-70b-instruct";
   model_entry "cf-llama-3.3-70b-instruct-fp8-fast"
     "llama-3.3-70b-instruct-fp8-fast";
   model_entry "cf-mistral-small-3.1-24b-instruct"
     "mistral-small-3.1-24b-instruct";
   model_entry "cf-llama-3.1-8b-instruct" "llama-3.1-8b-instruct";
   model_entry "cf-mistral-7b-instruct-v0.2" "mistral-7b-instruct-v0.2";
   model_entry "cf-qwen2.5-coder-32b-instruct" "qwen2.5-coder-32b-instruct";
   model_entry "cf-gemma-3-12b-it" "gemma-3-12b-it";
   model_entry "cf-gpt-oss-20b" "gpt-oss-20b";
   model_entry "cf-llama-3.2-1b-instruct" "llama-3.2-1b-instruct";
   model_entry "cf-llama-3.2-3b-instruct" "llama-3.2-3b-instruct"].

(** The catalog of [get_cloudflare_model_name]. *)
Definition model_mapping : list (string * string) :=
  [("cf-gpt-oss-120b", "@cf/openai/gpt-oss-120b");
   ("cf-llama-3.1-70b-instruct", "@cf/meta/llama-3.1-70b-instruct");
   ("cf-llama-3.3-70b-instruct-fp8-fast",
    "@cf/meta/llama-3.3-70b-instruct-fp8-fast");
   ("cf-mistral-small-3.1-24b-instruct",
    "@cf/mistral/mistral-small-3.1-24b-instruct");
   ("cf-llama-3.1-8b-instruct", "@cf/meta/llama-3.1-8b-instruct");
   ("cf-mistral-7b-instruct-v0.2", "@cf/mistral/mistral-7b-instruct-v0.2");
   ("cf-qwen2.5-coder-32b-instruct", "@cf/qwen/qwen2.5-coder-32b-instruct");
   ("cf-gemma-3-12b-it", "@cf/google/gemma-3-12b-it");
   ("cf-gpt-oss-20b", "@cf/openai/gpt-oss-20b");
   ("cf-llama-3.2-1b-instruct", "@cf/meta/llama-3.2-1b-instruct");
   ("cf-llama-3.2-3b-instruct", "@cf/meta/llama-3.2-3b-instruct")].

Fixpoint mapping_get (k : string) (m : list (string * string))
  : option string :=
  match m with
  | [] => None
  | (k', v) :: m' => if String.eqb k k' then Some v else mapping_get k m'
  end.

(** [model_mapping.get(model_id, model_id)]: a text is looked up, a list or
    a dict cannot be hashed, any other object is no key of the catalog. *)
Definition get_cloudflare_model_name (model_id : pyval) : result pyval :=
  match model_id with
  | PStr s =>
      match mapping_get s model_mapping with
      | Some name => Ok (PStr name)
      | None => Ok model_id
      end
  | PList _ => Raise (Py.type_error "unhashable type: 'list'")
  | PDict _ => Raise (Py.type_error "unhashable type: 'dict'")
  | _ => Ok model_id
  end.

Definition uses_responses_endpoint (cf_model_name : pyval) : result bool :=
  Py.contains "openai/gpt-oss" cf_model_name.

(** [model_id.split(".", 1)[1]] *)
Definition split_suffix (model_id : pyval) : result pyval :=
  match model_id with
  | PStr s =>
      match Text.after_first "." s with
      | Some suffix => Ok (PStr suffix)
      | None => Raise (mkExn IndexError "list index out of range")
      end
  | _ => Raise (Py.no_attribute model_id "split")
  end.

(** Lines 131-133 of [pipe]: the pipe prefix is cut off at the first dot. *)
Definition strip_pipe_prefix (model_id : pyval) : result pyval :=
  (dotted <- Py.contains "." model_id ;;
   if dotted : bool then split_suffix model_id else Ok model_id)%py.

Fixpoint map_result {A B : Type} (f : A -> result B) (l : list A)
  : result (list B) :=
  match l with
  | [] => Ok []
  | x :: rest =>
      (y <- f x ;;
       ys <- map_result f rest ;;
       Ok (y :: ys))%py
  end.

(** The argument check of ["\n\n".join(input_parts)]. *)
Definition as_text (part : pyval) : result string :=
  match part with
  | PStr s => Ok s
  | _ =>
      Raise (Py.type_error
        ("sequence item: expected str instance, " ++ Py.type_name part
         ++ " found"))
  end.

(** [list(response_data.keys())] once [response_data] is known to be a
    dict. *)
Definition key_list (d : dict) : pyval := PList (map PStr (Py.keys d)).

(** The scan of one [content] array for the first [output_text] item. *)
Fixpoint find_output_text (content : list pyval) : option pyval :=
  match content with
  | [] => None
  | PDict item :: rest =>
      if Py.eq_str (Py.dget item "type" PNone) "output_text"
      then Some (Py.dget item "text" (PStr ""))
      else find_output_text rest
  | _ :: rest => find_output_text rest
  end.

(** The scan of the [output] array: the text of the first [message] item
    that holds an [output_text]. *)
Fixpoint find_message_text (output_array : list pyval) : option pyval :=
  match output_array with
  | [] => None
  | PDict item :: rest =>
      if Py.eq_str (Py.dget item "type" PNone) "message" then
        match Py.dget item "content" (PList []) with
        | PList content =>
            match find_output_text content with
            | Some t => Some t
            | None => find_message_text rest
            end
        | _ => find_message_text rest
        end
      else find_message_text rest
  | _ :: rest => find_message_text rest
  end.

Section WithRuntime.

Context {RT : PyRuntime} {TR : Transport}.

(** One iteration of the loop of [messages_to_input]. *)
Definition input_part (msg : pyval) : result pyval :=
  (role <- Py.get msg "role" (PStr "user") ;;
   content <- Py.get msg "content" (PStr "") ;;
   if Py.eq_str role "system" then
     Ok (PStr ("System: " ++ py_str content))
   else if Py.eq_str role "assistant" then
     Ok (PStr ("Assistant: " ++ py_str content))
   else if Py.eq_str role "user" then
     Ok (PStr ("User: " ++ py_str content))
   else Ok content)%py.

Definition messages_to_input (messages : pyval) : result pyval :=
  if negb (Py.truthy messages) then Ok (PStr "")
  else
    (n <- Py.len messages ;;
     if Nat.eqb n 1 then
       first <- Py.getitem0 messages ;;
       Py.get first "content" (PStr "")
     else
       items <- Py.iter messages ;;
       input_parts <- map_result input_part items ;;
       texts <- map_result as_text input_parts ;;
       Ok (PStr (Text.join (Text.nl ++ Text.nl) texts)))%py.

(** Lines 197-230 of [pipe]: the text of a complete response body. *)
Definition extract (result_ : pyval) : result pyval :=
  (response_data <- Py.get result_ "result" result_ ;;
   match response_data with
   | PStr _ => Ok response_data
   | PDict d =>
       if Py.has_key "response" d then Py.getitem response_data "response"
       else
         match
           (if Py.has_key "output" d then
              match Py.dget d "output" PNone with
              | PList output_array => find_message_text output_array
              | _ => None
              end
            else None)
         with
         | Some t => Ok t
         | None =>
             Ok (PStr
               ("Error: Could not extract text from response. Response keys: "
                ++ py_str (key_list d)))
         end
   | _ =>
       Ok (PStr
         ("Error: Could not extract text from response. Response keys: "
          ++ "not a dict"))
   end)%py.

(** The body of the [for choice in json_data["choices"]] loop. *)
Definition choice_content (choice : pyval) : gen unit :=
  (present <~ glift (Py.contains "delta" choice) ;;
   if present : bool then
     delta <~ glift (Py.getitem choice "delta") ;;
     content <~ glift (Py.get delta "content" (PStr "")) ;;
     if Py.truthy content then gyield content else pass
   else pass)%gen.

(** The body of the inner [try] of [stream_response], after [json.loads]
    has succeeded. *)
Definition event_content (json_data : pyval) : gen unit :=
  (has_response <~ glift (Py.contains "response" json_data) ;;
   if has_response : bool then
     v <~ glift (Py.getitem json_data "response") ;;
     gyield v
   else
     has_result <~ glift (Py.contains "result" json_data) ;;
     if has_result : bool then
       result_ <~ glift (Py.getitem json_data "result") ;;
       match result_ with
       | PStr _ => gyield result_
       | PDict d =>
           if Py.has_key "response" d then
             v <~ glift (Py.getitem result_ "response") ;;
             gyield v
           else pass
       | _ => pass
       end
     else
       has_choices <~ glift (Py.contains "choices" json_data) ;;
       if has_choices : bool then
         choices <~ glift (Py.getitem json_data "choices") ;;
         items <~ glift (Py.iter choices) ;;
         for_each items choice_content
       else
         has_content <~ glift (Py.contains "content" json_data) ;;
         if has_content : bool then
           v <~ glift (Py.getitem json_data "content") ;;
           gyield v
         else pass)%gen.

(** One iteration of the loop over the lines in [stream_response]. *)
Definition handle_line (ev : line_event) : list pyval * step :=
  match ev with
  | ReadError e => ([], Abort e)
  | Undecodable msg => ([], Abort (mkExn UnicodeDecodeError msg))
  | Line line =>
      if String.eqb line "" then ([], Next)
      else if Text.startswith line "data: " then
        let data := Text.drop 6 line in
        if String.eqb data "[DONE]" then ([], Break)
        else
          step_of
            (try_except
               match json_loads data with
               | Some json_data => event_content json_data
               | None => glift (Raise (json_loads_error data))
               end
               is_JSONDecodeError
               (if negb (String.eqb data "")
                   && negb (String.eqb data "[DONE]")
                then gyield (PStr data) else gret tt))
      else ([], Next)
  end.

(** [stream_response]: the loop, inside [try ... except Exception as e]. *)
Definition stream_response (response : response) : run :=
  let r := for_lines handle_line (iter_lines response) in
  match raised r with
  | None => r
  | Some e =>
      mkRun
        (yielded r
         ++ [PStr (Text.nl ++ Text.nl ++ "Error during streaming: "
                   ++ exn_msg e)])
        None
  end.

(** The three [except] clauses of [pipe]. *)
Definition on_exception (e : exn) : pyval :=
  if is_Timeout e then
    PStr "Error: Request to Cloudflare Workers AI timed out."
  else if is_RequestException e then
    PStr ("Error: Failed to connect to Cloudflare Workers AI: " ++ exn_msg e)
  else PStr ("Error: " ++ exn_msg e).

Definition bad_status (response : response) : pyval :=
  PStr ("Error: Cloudflare API returned status "
        ++ py_str (PInt (status_code response)) ++ ": " ++ text response).

(** Lines 138-166 of [pipe]: URL, headers and payload of the call, from
    the Cloudflare model name. *)
Definition call_for (valves : Valves) (body : dict) (cf_model_name : pyval)
  : result (string * list (string * string) * dict) :=
  let messages := Py.dget body "messages" (PList []) in
  let headers :=
    [("Authorization", ("Bearer " ++ CLOUDFLARE_API_KEY valves)%string);
     ("Content-Type", "application/json")] in
  (responses <- uses_responses_endpoint cf_model_name ;;
   target <-
     (if responses : bool then
        input_text <- messages_to_input messages ;;
        Ok ((BASE_URL valves ++ "/" ++ CLOUDFLARE_ACCOUNT_ID valves
             ++ "/ai/v1/responses")%string,
            [("model", cf_model_name); ("input", input_text)])
      else
        Ok ((BASE_URL valves ++ "/" ++ CLOUDFLARE_ACCOUNT_ID valves
             ++ "/ai/run/" ++ py_str cf_model_name)%string,
            [("messages", messages)])) ;;
   let payload :=
     fold_left (OpenAI.copy_param body)
       ["temperature"; "max_tokens"; "top_p"] (snd target) in
   Ok (fst target, headers, payload))%py.

(** Lines 127-166 of [pipe]. *)
Definition prepare (valves : Valves) (body : dict)
  : result (string * list (string * string) * dict) :=
  let model_id := Py.dget body "model" (PStr "") in
  (model_id <- strip_pipe_prefix model_id ;;
   cf_model_name <- get_cloudflare_model_name model_id ;;
   call_for valves body cf_model_name)%py.

(** The value of the local variable [stream] in [pipe]. *)
Definition stream : bool := false.

Definition pipe (valves : Valves) (body : dict) : net pipe_result :=
  if String.eqb (CLOUDFLARE_API_KEY valves) "" then
    net_ret (Returned (PStr
      "Error: Cloudflare API Key is not set. Please configure it in the valve settings."))
  else if String.eqb (CLOUDFLARE_ACCOUNT_ID valves) "" then
    net_ret (Returned (PStr
      "Error: Cloudflare Account ID is not set. Please configure it in the valve settings."))
  else
    match prepare valves body with
    | Raise e => net_ret (Raised e)
    | Ok (url, headers, payload) =>
        if stream then
          let payload := Py.set "stream" (PBool true) payload in
          net_bind (post (mkRequest url headers payload true (Some 120%Z)))
            (fun posted =>
          net_ret
            match posted with
            | Raise e => Returned (on_exception e)
            | Ok response =>
                if negb (Z.eqb (status_code response) 200)
                then Returned (bad_status response)
                else Generator (net_ret (stream_response response))
            end)
        else
          net_bind (post (mkRequest url headers payload false (Some 120%Z)))
            (fun posted =>
          net_ret
            match posted with
            | Raise e => Returned (on_exception e)
            | Ok response =>
                if negb (Z.eqb (status_code response) 200)
                then Returned (bad_status response)
                else
                  match (result_ <- json response ;; extract result_)%py with
                  | Ok v => Returned v
                  | Raise e => Returned (on_exception e)
                  end
            end)
    end.

End WithRuntime.

End Cloudflare.

(** ** A runtime to run the pipes on concrete inputs

    [Reference.loads] reads the JSON texts made of objects, arrays, strings
    (with the one-letter escapes), integers and the three literals; a number
    with a fraction or an exponent and a [\u] escape are outside its domain
    and are answered with [None].  An integer literal of more than 4300
    digits makes it fail as [json.loads] does, with a [ValueError] that is
    no [json.JSONDecodeError]; the text of a [JSONDecodeError], which no
    pipe reads, is abridged.  [Reference.repr] prints [None], booleans,
    integers, texts without quote or backslash, and lists and dicts of
    those.  The general statements below hold for every runtime; this one
    serves the concrete runs. *)

Module Reference.

Definition is_json_ws (c : ascii) : bool :=
  let n := nat_of_ascii c in
  Nat.eqb n 32 || Nat.eqb n 9 || Nat.eqb n 10 || Nat.eqb n 13.

Fixpoint skip_ws (s : string) : string :=
  match s with
  | EmptyString => EmptyString
  | String c s' => if is_json_ws c then skip_ws s' else s
  end.

Definition is_digit (c : ascii) : bool :=
  let n := nat_of_ascii c in
  Nat.leb 48 n && Nat.leb n 57.

(** The digits at the head of a text, and what follows them. *)
Fixpoint span_digits (s : string) : string * string :=
  match s with
  | EmptyString => (EmptyString, EmptyString)
  | String c s' =>
      if is_digit c
      then let (ds, rest) := span_digits s' in (String c ds, rest)
      else (EmptyString, s)
  end.

Fixpoint digits_value (acc : Z) (ds : string) : Z :=
  match ds with
  | EmptyString => acc
  | String c ds' =>
      digits_value (10 * acc + Z.of_nat (nat_of_ascii c - 48))%Z ds'
  end.

(** What reading a value at the head of a text gives: the value and the
    text after it, or the failure, [Invalid] where [json.loads] raises
    [json.JSONDecodeError] and [Overlong n] where it raises [ValueError] at
    an integer literal of [n] digits. *)
Inductive parsed (A : Type) : Type :=
| Parsed (a : A) (rest : string)
| Invalid
| Overlong (digits : nat).

Arguments Parsed {A} a rest.
Arguments Invalid {A}.
Arguments Overlong {A} digits.

Definition and_then {A B : Type} (p : parsed A)
  (k : A -> string -> parsed B) : parsed B :=
  match p with
  | Parsed a rest => k a rest
  | Invalid => Invalid
  | Overlong n => Overlong n
  end.

Definition of_option {A : Type} (o : option (A * string)) : parsed A :=
  match o with
  | Some (a, rest) => Parsed a rest
  | None => Invalid
  end.

(** [sys.get_int_max_str_digits()], by default. *)
Definition max_str_digits : nat := 4300.

(** [int(ds)] on the digits of an integer literal. *)
Definition to_int (ds rest : string) : parsed Z :=
  if Nat.ltb max_str_digits (String.length ds)
  then Overlong (String.length ds)
  else Parsed (digits_value 0 ds) rest.

(** An integer literal without sign. *)
Definition parse_natural (s : string) : parsed Z :=
  match span_digits s with
  | (EmptyString, _) => Invalid
  | (String d ds, rest) =>
      if Nat.eqb (nat_of_ascii d) 48 && negb (String.eqb ds "") then Invalid
      else
        match rest with
        | String c _ =>
            if Ascii.eqb c "." || Ascii.eqb c "e" || Ascii.eqb c "E"
            then Invalid
            else to_int (String d ds) rest
        | EmptyString => to_int (String d ds) rest
        end
  end.

Definition unescape (c : ascii) : option ascii :=
  let n := nat_of_ascii c in
  if Nat.eqb n 34 then Some c                    (* quote *)
  else if Nat.eqb n 92 then Some c               (* backslash *)
  else if Nat.eqb n 47 then Some c               (* slash *)
  else if Nat.eqb n 110 then Some (ascii_of_nat 10)   (* n *)
  else if Nat.eqb n 116 then Some (ascii_of_nat 9)    (* t *)
  else if Nat.eqb n 114 then Some (ascii_of_nat 13)   (* r *)
  else if Nat.eqb n 98 then Some (ascii_of_nat 8)     (* b *)
  else if Nat.eqb n 102 then Some (ascii_of_nat 12)   (* f *)
  else None.

Definition consed (c : ascii) (r : option (string * string))
  : option (string * string) :=
  match r with
  | Some (s, rest) => Some (String c s, rest)
  | None => None
  end.

(** A string literal after its opening quote. *)
Fixpoint parse_string (s : string) : option (string * string) :=
  match s with
  | EmptyString => None
  | String c r =>
      let n := nat_of_ascii c in
      if Nat.eqb n 34 then Some (EmptyString, r)
      else if Nat.eqb n 92 then
        match r with
        | String e r' =>
            match unescape e with
            | Some c' => consed c' (parse_string r')
            | None => None
            end
        | EmptyString => None
        end
      else if Nat.ltb n 32 then None
      else consed c (parse_string r)
  end.

Definition literal (word : string) (v : pyval) (s : string)
  : parsed pyval :=
  if String.prefix word s then Parsed v (Text.drop (String.length word) s)
  else Invalid.

Fixpoint parse_value (fuel : nat) (s : string) {struct fuel}
  : parsed pyval :=
  match fuel with
  | O => Invalid
  | S fuel' =>
      match skip_ws s with
      | EmptyString => Invalid
      | String c r =>
          let n := nat_of_ascii c in
          if Nat.eqb n 91 then                       (* [ *)
            match skip_ws r with
            | String c' r' =>
                if Nat.eqb (nat_of_ascii c') 93 then Parsed (PList []) r'
                else
                  and_then (parse_elements fuel' r)
                    (fun vs rest => Parsed (PList vs) rest)
            | EmptyString => Invalid
            end
          else if Nat.eqb n 123 then                 (* { *)
            match skip_ws r with
            | String c' r' =>
                if Nat.eqb (nat_of_ascii c') 125 then Parsed (PDict []) r'
                else
                  and_then (parse_members fuel' r)
                    (fun kvs rest =>
                       Parsed (PDict (fold_left
                                        (fun d kv => Py.set (fst kv) (snd kv) d)
                                        kvs [])) rest)
            | EmptyString => Invalid
            end
          else if Nat.eqb n 34 then                  (* quote *)
            and_then (of_option (parse_string r))
              (fun t rest => Parsed (PStr t) rest)
          else if Nat.eqb n 45 then                  (* - *)
            and_then (parse_natural r)
              (fun z rest => Parsed (PInt (- z)) rest)
          else if is_digit c then
            and_then (parse_natural (String c r))
              (fun z rest => Parsed (PInt z) rest)
          else if Nat.eqb n 116 then literal "true" (PBool true) (String c r)
          else if Nat.eqb n 102 then literal "false" (PBool false) (String c r)
          else if Nat.eqb n 110 then literal "null" PNone (String c r)
          else Invalid
      end
  end
with parse_elements (fuel : nat) (s : string) {struct fuel}
  : parsed (list pyval) :=
  match fuel with
  | O => Invalid
  | S fuel' =>
      and_then (parse_value fuel' s) (fun v rest =>
        match skip_ws rest with
        | String c r =>
            if Nat.eqb (nat_of_ascii c) 44 then     (* , *)
              and_then (parse_elements fuel' r)
                (fun vs rest' => Parsed (v :: vs) rest')
            else if Nat.eqb (nat_of_ascii c) 93 then Parsed [v] r
            else Invalid
        | EmptyString => Invalid
        end)
  end
with parse_members (fuel : nat) (s : string) {struct fuel}
  : parsed (list (string * pyval)) :=
  match fuel with
  | O => Invalid
  | S fuel' =>
      match skip_ws s with
      | String q r =>
          if Nat.eqb (nat_of_ascii q) 34 then
            and_then (of_option (parse_string r)) (fun k rest =>
              match skip_ws rest with
              | String colon r' =>
                  if Nat.eqb (nat_of_ascii colon) 58 then
                    and_then (parse_value fuel' r') (fun v rest' =>
                      match skip_ws rest' with
                      | String c r'' =>
                          if Nat.eqb (nat_of_ascii c) 44 then
                            and_then (parse_members fuel' r'')
                              (fun kvs rest'' => Parsed ((k, v) :: kvs) rest'')
                          else if Nat.eqb (nat_of_ascii c) 125
                          then Parsed [(k, v)] r''
                          else Invalid
                      | EmptyString => Invalid
                      end)
                  else Invalid
              | EmptyString => Invalid
              end)
          else Invalid
      | EmptyString => Invalid
      end
  end.

(** A whole text: one value, and nothing but white space after it. *)
Definition parse (s : string) : parsed pyval :=
  and_then (parse_value (2 * String.length s + 2) s) (fun v rest =>
    match skip_ws rest with
    | EmptyString => Parsed v EmptyString
    | _ => Invalid
    end).

Definition loads (s : string) : option pyval :=
  match parse s with
  | Parsed v _ => Some v
  | _ => None
  end.

Definition decimal (z : Z) : string := NilZero.string_of_int (Z.to_int z).

Fixpoint repr (v : pyval) : string :=
  match v with
  | PNone => "None"
  | PBool true => "True"
  | PBool false => "False"
  | PInt z => decimal z
  | PFloat f =>
      match f with
      | S754_zero false => "0.0"
      | S754_zero true => "-0.0"
      | S754_infinity false => "inf"
      | S754_infinity true => "-inf"
      | S754_nan => "nan"
      | S754_finite _ _ _ => "<float>"
      end
  | PStr s => "'" ++ s ++ "'"
  | PList l => "[" ++ String.concat ", " (map repr l) ++ "]"
  | PDict d =>
      "{" ++ String.concat ", "
               (map (fun kv => "'" ++ fst kv ++ "': " ++ repr (snd kv)) d)
      ++ "}"
  end%string.

(** The exception of [json.loads(s)] when it raises. *)
Definition loads_error (s : string) : exn :=
  match parse s with
  | Overlong n =>
      mkExn ValueError
        ("Exceeds the limit (4300 digits) for integer string conversion: "
         ++ "value has " ++ decimal (Z.of_nat n)
         ++ " digits; use sys.set_int_max_str_digits() to increase the limit")
  | _ => mkExn JSONDecodeError "Expecting value"
  end.

#[export] Instance runtime : PyRuntime := {|
  json_loads := loads;
  json_loads_error := loads_error;
  py_repr := repr
|}.

(** A transport that answers every call with the same response. *)
Definition answering (r : response) : Transport := {|
  requests_post := fun _ => Ok r
|}.

(** A transport on which every call fails with the same exception. *)
Definition failing (e : exn) : Transport := {|
  requests_post := fun _ => Raise e
|}.

(** A [200 OK] response with the given body, parsed, and the given lines. *)
Definition ok_response (body : string) (lines : list line_event) : response :=
  {| status_code := 200;
     reason := "OK";
     text := body;
     json :=
       match loads body with
       | Some v => Ok v
       | None =>
           if is_JSONDecodeError (loads_error body)
           then Raise (mkExn RequestsJSONDecodeError "Expecting value")
           else Raise (loads_error body)
       end;
     iter_lines := lines |}.

(** A response with an error status and no usable body. *)
Definition error_response (code : Z) (why : string) : response :=
  {| status_code := code;
     reason := why;
     text := why;
     json := Raise (mkExn RequestsJSONDecodeError "Expecting value");
     iter_lines := [] |}.

End Reference.

(** ** The specification's side

    Definitions that follow the words of the specification, to be compared
    with the functions above. *)

Module Spec.

Local Open Scope string_scope.

(** "ChatMessage: {role, content: text}". *)
Record ChatMessage : Type := mkMessage {
  role : string;
  content : string
}.

(** The dict the host sends for a message. *)
Definition message_dict (m : ChatMessage) : pyval :=
  PDict [("role", PStr (role m)); ("content", PStr (content m))].

(** "capitalized role label for system/assistant/user". *)
Definition role_label (r : string) : option string :=
  if String.eqb r "system" then Some "System"
  else if String.eqb r "user" then Some "User"
  else if String.eqb r "assistant" then Some "Assistant"
  else None.

(** "<Role>: <content>", "raw content otherwise". *)
Definition labelled (m : ChatMessage) : string :=
  match role_label (role m) with
  | Some label => label ++ ": " ++ content m
  | None => content m
  end.

(** "if exactly one message, use its content verbatim; otherwise, join every
    message [...] with blank-line separators, preserving original order". *)
Definition flatten (ms : list ChatMessage) : string :=
  match ms with
  | [m] => content m
  | _ => String.concat (Text.nl ++ Text.nl) (map labelled ms)
  end.





(** What a [choices] element contributes: the [content] of its [delta],
    when it is there and not empty. *)
Definition choice_fragment (choice : pyval) : list pyval :=
  match choice with
  | PDict c =>
      match Py.lookup "delta" c with
      | Some (PDict delta) =>
          match Py.lookup "content" delta with
          | Some v => if Py.truthy v then [v] else []
          | None => []
          end
      | _ => []
      end
  | _ => []
  end.

(** A [choices] element of the expected form: an object whose [delta], when
    present, is an object. *)
Definition choice_shaped (choice : pyval) : Prop :=
  exists c,
    choice = PDict c
    /\ (Py.lookup "delta" c = None
        \/ exists delta, Py.lookup "delta" c = Some (PDict delta)).


(** "the caller must be informed the response will not be incremental".
    The value a pipe returns is its only channel to the caller, so a caller
    that is informed gets, for a request that asks for streaming, another
    value than for the same request that does not. *)
Definition caller_is_informed (streaming plain : pipe_result) : Prop :=
  streaming <> plain.

(** "terminates the sequence with a decode error as the final fragment":
    the run has a last fragment, and it is a text. *)
Definition ends_with_notice (r : run) : Prop :=
  exists before notice, yielded r = (before ++ [PStr notice])%list.

Section Sse.

Context {RT : PyRuntime}.

(** How a decoder reads the lines: whether the payload is trimmed before it
    is compared with the end marker ("after trimming surrounding whitespace
    where the provider requires it"), whether a payload that is no JSON is
    taken as raw text ("treat it as raw text and emit it verbatim") or
    passed over, and which chunks a parsed event carries. *)
Variable trims : bool.
Variable lenient : bool.
Variable carries : pyval -> list string -> Prop.




End Sse.



End Spec.

(** ** Concrete inputs *)

Module Inputs.

Import Text.
Local Open Scope string_scope.

(** [{"choices": [{"delta": {"content": <c>}}]}] *)
Definition delta_json (c : string) : string :=
  "{" ++ quoted "choices" ++ ": [{" ++ quoted "delta" ++ ": {"
  ++ quoted "content" ++ ": " ++ quoted c ++ "}}]}".

(** [{"choices": [{"delta": {"content": <a>}}, {"delta": {"content": <b>}}]}] *)
Definition two_deltas_json (a b : string) : string :=
  "{" ++ quoted "choices" ++ ": [{" ++ quoted "delta" ++ ": {"
  ++ quoted "content" ++ ": " ++ quoted a ++ "}}, {" ++ quoted "delta"
  ++ ": {" ++ quoted "content" ++ ": " ++ quoted b ++ "}}]}".

(** [{"choices": [{"message": {"role": "assistant", "content": <x>}}]}] *)
Definition completion_json (x : string) : string :=
  "{" ++ quoted "choices" ++ ": [{" ++ quoted "message" ++ ": {"
  ++ quoted "role" ++ ": " ++ quoted "assistant" ++ ", "
  ++ quoted "content" ++ ": " ++ quoted x ++ "}}]}".

(** [{"response": <c>}] *)
Definition response_json (c : string) : string :=
  "{" ++ quoted "response" ++ ": " ++ quoted c ++ "}".

(** [{"result": {"response": <x>}, "success": true}] *)
Definition result_json (x : string) : string :=
  "{" ++ quoted "result" ++ ": {" ++ quoted "response" ++ ": " ++ quoted x
  ++ "}, " ++ quoted "success" ++ ": true}".

(** The event [{"choices": [{"delta": {"content": "a"}},
    {"delta": {"content": ""}}, {"index": 2}, {"delta": {"content": "b"}}]}],
    parsed. *)
Definition mixed_choices : list pyval :=
  [PDict [("delta", PDict [("content", PStr "a")])];
   PDict [("delta", PDict [("content", PStr "")])];
   PDict [("index", PInt 2)];
   PDict [("delta", PDict [("content", PStr "b")])]].

Definition mixed_event : dict := [("choices", PList mixed_choices)].

(** [{"output": [{"type": "reasoning", "summary": []},
    {"type": "message", "content": [{"type": "refusal"},
    {"type": "output_text", "text": "4"}]}]}] *)
Definition responses_json : string :=
  "{" ++ quoted "output" ++ ": [{" ++ quoted "type" ++ ": "
  ++ quoted "reasoning" ++ ", " ++ quoted "summary" ++ ": []}, {"
  ++ quoted "type" ++ ": " ++ quoted "message" ++ ", " ++ quoted "content"
  ++ ": [{" ++ quoted "type" ++ ": " ++ quoted "refusal" ++ "}, {"
  ++ quoted "type" ++ ": " ++ quoted "output_text" ++ ", " ++ quoted "text"
  ++ ": " ++ quoted "4" ++ "}]}]}".

Definition responses_body : dict :=
  [("output",
    PList
      [PDict [("type", PStr "reasoning"); ("summary", PList [])];
       PDict [("type", PStr "message");
              ("content",
               PList [PDict [("type", PStr "refusal")];
                      PDict [("type", PStr "output_text");
                             ("text", PStr "4")]])]])].



(** [{"choices": [], "usage": {"total_tokens": 7}}] *)
Definition usage_json : string :=
  "{" ++ quoted "choices" ++ ": [], " ++ quoted "usage" ++ ": {"
  ++ quoted "total_tokens" ++ ": 7}}".

(** An event that holds every field [stream_response] knows:
    [{"response": "", "result": {"status": "ok"}, "choices": [...],
    "content": "c"}]. *)
Definition crowded_event : dict :=
  [("response", PStr "");
   ("result", PDict [("status", PStr "ok")]);
   ("choices", PList mixed_choices);
   ("content", PStr "c")].

Definition data_line (payload : string) : line_event :=
  Line ("data: " ++ payload).

(** ["9" * n] *)
Fixpoint nines (n : nat) : string :=
  match n with
  | O => ""
  | S n' => String "9" (nines n')
  end.

(** A payload that is no JSON and on which [json.loads] raises a
    [ValueError] that is no [JSONDecodeError]: 4301 digits, a blank and an
    [x]. *)
Definition overlong_payload : string := nines 4301 ++ " x".

(** What [str(e)] is for that [ValueError]. *)
Definition overlong_message : string :=
  "Exceeds the limit (4300 digits) for integer string conversion: value has 4301 digits; use sys.set_int_max_str_digits() to increase the limit".










Definition user_says (t : string) : pyval :=
  PList [PDict [("role", PStr "user"); ("content", PStr t)]].

(** [{model: "providerX.modelA", messages: [{role: "user", content: "hi"}]}] *)
Definition qualified_request : dict :=
  [("model", PStr "providerX.modelA"); ("messages", user_says "hi")].

(** A request as the host qualifies it: pipe id, dot, model id. *)
Definition hosted_request : dict :=
  [("model", PStr "cloudflare_pipe.cf-llama-3.1-8b-instruct")].

(** A request to the Cloudflare pipe that asks for streaming, and the same
    request without the [stream] entry. *)
Definition cloudflare_plain_request : dict :=
  [("model", PStr "cloudflare_pipe.cf-llama-3.1-8b-instruct");
   ("messages", user_says "2+2?")].

Definition cloudflare_streaming_request : dict :=
  Py.set "stream" (PBool true) cloudflare_plain_request.

(** A request without [model]. *)
Definition request_without_model : dict :=
  [("messages", user_says "hi"); ("temperature", PInt 1)].

(** A request that asks for streaming, and the same request that does
    not. *)
Definition streaming_request : dict :=
  [("model", PStr "deepseek-chat"); ("messages", user_says "hi");
   ("stream", PBool true)].

Definition plain_request : dict :=
  [("model", PStr "deepseek-chat"); ("messages", user_says "hi")].

(** A request with sampling parameters, one of them ([stop]) not among the
    parameters the Perplexity and the Cloudflare pipe pass on. *)
Definition tuned_request : dict :=
  [("messages", user_says "hi"); ("temperature", PInt 0);
   ("top_k", PInt 40); ("stop", PStr "END")].

(** The call the Cloudflare pipe prepares for [cloudflare_plain_request]
    under [cloudflare_valves]. *)
Definition llama_run_url : string :=
  "https://api.cloudflare.com/client/v4/accounts/account/ai/run/@cf/meta/llama-3.1-8b-instruct".

Definition token_headers : list (string * string) :=
  [("Authorization", "Bearer token"); ("Content-Type", "application/json")].

Definition plain_payload : dict := [("messages", user_says "2+2?")].

(** The payload an OpenAI-style pipe builds for [streaming_request] and
    for [plain_request]. *)
Definition streaming_payload : dict :=
  [("model", PStr "deepseek-chat"); ("messages", user_says "hi");
   ("stream", PBool true)].

Definition plain_payload_openai : dict :=
  [("model", PStr "deepseek-chat"); ("messages", user_says "hi");
   ("stream", PBool false)].

Definition bearer_key : list (string * string) :=
  [("Authorization", "Bearer key"); ("Content-Type", "application/json")].

(** A conversation for a GPT-OSS model of the Cloudflare pipe. *)
Definition gpt_oss_request : dict :=
  [("model", PStr "cloudflare_pipe.cf-gpt-oss-20b");
   ("messages",
    PList [PDict [("role", PStr "system"); ("content", PStr "be terse")];
           PDict [("role", PStr "user"); ("content", PStr "2+2?")]])].

Definition cloudflare_valves : Cloudflare.Valves :=
  Cloudflare.mkValves "token" "account" Cloudflare.default_base_url.

Definition openai_valves (p : OpenAI.provider) : OpenAI.Valves :=
  OpenAI.mkValves "key" (OpenAI.default_base_url p).

(** A chat-completions endpoint that answers ["4"]. *)
Definition completion_transport : Transport :=
  Reference.answering (Reference.ok_response (completion_json "4") []).

(** A Workers AI endpoint that answers ["4"]. *)
Definition cloudflare_transport : Transport :=
  Reference.answering (Reference.ok_response (result_json "4") []).

Definition refused : exn := mkExn ConnectionError "Connection refused".

(** No connection can be made. *)
Definition unreachable : Transport := Reference.failing refused.

(** The key is rejected. *)
Definition unauthorized : Transport :=
  Reference.answering (Reference.error_response 401 "Unauthorized").

Definition broken : exn := mkExn ConnectionError "Connection broken".

(** The connection drops after the first event. *)
Definition dropping : Transport :=
  Reference.answering
    (Reference.ok_response ""
       [data_line (delta_json "Hi"); ReadError broken]).

End Inputs.

(** * Properties *)

(** ** Texts and dicts *)

Lemma prefix_empty (s : string) : String.prefix "" s = true.
Proof. destruct s; reflexivity. Qed.

Lemma startswith_data (payload : string) :
  Text.startswith ("data: " ++ payload)%string "data: " = true.
Proof. unfold Text.startswith. simpl. apply prefix_empty. Qed.

Lemma strip_done : Text.strip "[DONE]" = "[DONE]"%string.
Proof. reflexivity. Qed.

Lemma lookup_set_other (k k' : string) (v : pyval) (d : dict) :
  k <> k' -> Py.lookup k (Py.set k' v d) = Py.lookup k d.
Proof.
  intros Hne. induction d as [| [k0 v0] d IH]; simpl.
  - destruct (String.eqb_spec k k'); [contradiction | reflexivity].
  - destruct (String.eqb_spec k' k0) as [-> | Hk0]; simpl.
    + destruct (String.eqb_spec k k0); [contradiction | reflexivity].
    + destruct (String.eqb_spec k k0); [reflexivity | exact IH].
Qed.

Lemma lookup_set_same (k : string) (v : pyval) (d : dict) :
  Py.lookup k (Py.set k v d) = Some v.
Proof.
  induction d as [| [k0 v0] d IH]; simpl.
  - rewrite String.eqb_refl. reflexivity.
  - destruct (String.eqb_spec k k0) as [-> | Hk0]; simpl.
    + rewrite String.eqb_refl. reflexivity.
    + destruct (String.eqb_spec k k0); [contradiction | exact IH].
Qed.

Lemma lookup_copy_param_other (body payload : dict) (k k' : string) :
  k <> k' ->
  Py.lookup k (OpenAI.copy_param body payload k') = Py.lookup k payload.
Proof.
  intros Hne. unfold OpenAI.copy_param.
  destruct (Py.lookup k' body); [apply lookup_set_other; exact Hne | reflexivity].
Qed.

Lemma lookup_copy_params (body : dict) (k : string) (ks : list string) :
  ~ In k ks ->
  forall payload,
    Py.lookup k (fold_left (OpenAI.copy_param body) ks payload)
    = Py.lookup k payload.
Proof.
  induction ks as [| k' ks IH]; intros Hnot payload; simpl.
  - reflexivity.
  - rewrite IH.
    + apply lookup_copy_param_other. intros ->. apply Hnot. left. reflexivity.
    + intros Hin. apply Hnot. right. exact Hin.
Qed.

(** ** The reference runtime on the inputs *)

Example loads_delta :
  Reference.loads (Inputs.delta_json "Hi")
  = Some (PDict [("choices",
                  PList [PDict [("delta", PDict [("content", PStr "Hi")])]])]).
Proof. reflexivity. Qed.

Example loads_result :
  Reference.loads (Inputs.result_json "4")
  = Some (PDict [("result", PDict [("response", PStr "4")]);
                 ("success", PBool true)]).
Proof. reflexivity. Qed.

Example loads_rejects :
  map Reference.loads ["oops"; ""; "[DONE]"; "{"; "[1,]"; "01"]%string
  = [None; None; None; None; None; None].
Proof. reflexivity. Qed.

(** ** The loop over the lines *)

Lemma for_lines_break (handle : line_event -> list pyval * step)
  (ev : line_event) (pre post : list line_event) :
  handle ev = ([], Break) ->
  for_lines handle (pre ++ ev :: post) = for_lines handle pre.
Proof.
  intros Hev. induction pre as [| l pre IH]; simpl.
  - rewrite Hev. reflexivity.
  - destruct (handle l) as [out [| | e]]; [rewrite IH |..]; reflexivity.
Qed.

Lemma for_lines_next (handle : line_event -> list pyval * step)
  (ev : line_event) (out : list pyval) (rest : list line_event) :
  handle ev = (out, Next) ->
  for_lines handle (ev :: rest)
  = mkRun (out ++ yielded (for_lines handle rest))
          (raised (for_lines handle rest)).
Proof. intros Hev. simpl. rewrite Hev. reflexivity. Qed.

Section Decoders.

Context {RT : PyRuntime}.

Lemma openai_done_line (payload : string) :
  Text.strip payload = "[DONE]"%string ->
  OpenAI.handle_line (Line ("data: " ++ payload)) = ([], Break).
Proof.
  intros Hdone. unfold OpenAI.handle_line.
  rewrite startswith_data. simpl. rewrite Hdone. reflexivity.
Qed.

Lemma cloudflare_done_line :
  Cloudflare.handle_line (Line "data: [DONE]") = ([], Break).
Proof. reflexivity. Qed.

(** C4.  A line whose payload after the [data: ] prefix is [[DONE]] ends the
    decoding: the run over a stream that holds such a line is the run over
    the lines before it, whatever follows.  For [stream_response] of the
    Cloudflare pipe the payload is compared as it is; the loop of
    [_handle_stream] of the OpenAI-style pipes trims it first. *)
Theorem done_terminates_decoding :
  (forall code why body parsed pre post,
      Cloudflare.stream_response
        (mkResponse code why body parsed (pre ++ Line "data: [DONE]" :: post))
      = Cloudflare.stream_response (mkResponse code why body parsed pre))
  /\ (forall payload pre post,
         Text.strip payload = "[DONE]"%string ->
         for_lines OpenAI.handle_line
           (pre ++ Line ("data: " ++ payload) :: post)
         = for_lines OpenAI.handle_line pre).
Proof.
  split.
  - intros code why body parsed pre post. unfold Cloudflare.stream_response.
    simpl. rewrite (for_lines_break _ _ pre post cloudflare_done_line).
    reflexivity.
  - intros payload pre post Hdone.
    apply for_lines_break. apply openai_done_line. exact Hdone.
Qed.

End Decoders.

Lemma done_terminates_decoding_witness :
  Text.strip " [DONE] " = "[DONE]"%string
  /\ for_lines (OpenAI.handle_line (RT := Reference.runtime))
       ([Inputs.data_line (Inputs.delta_json "Hi")]
        ++ Line ("data: " ++ " [DONE] ")
        :: [Inputs.data_line (Inputs.delta_json "late")])
     = for_lines (OpenAI.handle_line (RT := Reference.runtime))
         [Inputs.data_line (Inputs.delta_json "Hi")].
Proof.
  split.
  - reflexivity.
  - apply (proj2 (done_terminates_decoding (RT := Reference.runtime))).
    reflexivity.
Defined.

Example done_ends_both_decoders :
  yielded (Cloudflare.stream_response (RT := Reference.runtime)
             (Reference.ok_response ""
                [Inputs.data_line (Inputs.response_json "Hi");
                 Line "data: [DONE]";
                 Inputs.data_line (Inputs.response_json "late")]))
  = [PStr "Hi"]
  /\ for_lines (OpenAI.handle_line (RT := Reference.runtime))
       [Inputs.data_line (Inputs.delta_json "Hi");
        Line "data: [DONE]";
        Inputs.data_line (Inputs.delta_json "late")]
     = mkRun [PStr "Hi"] None.
Proof. split; reflexivity. Qed.

(** ** Flattening the conversation *)

Section Flattening.

Context {RT : PyRuntime}.

Lemma input_part_labelled (m : Spec.ChatMessage) :
  Cloudflare.input_part (Spec.message_dict m) = Ok (PStr (Spec.labelled m)).
Proof.
  destruct m as [r c].
  unfold Cloudflare.input_part, Spec.message_dict, Spec.labelled,
    Spec.role_label. simpl.
  destruct (String.eqb_spec r "system") as [-> | _]; [reflexivity |].
  destruct (String.eqb_spec r "assistant") as [-> | _]; [reflexivity |].
  destruct (String.eqb_spec r "user"); reflexivity.
Qed.

Lemma input_parts_labelled (ms : list Spec.ChatMessage) :
  Cloudflare.map_result Cloudflare.input_part (map Spec.message_dict ms)
  = Ok (map (fun m => PStr (Spec.labelled m)) ms).
Proof.
  induction ms as [| m ms IH]; simpl.
  - reflexivity.
  - rewrite input_part_labelled. simpl. rewrite IH. reflexivity.
Qed.

Lemma as_text_labelled (ms : list Spec.ChatMessage) :
  Cloudflare.map_result Cloudflare.as_text
    (map (fun m => PStr (Spec.labelled m)) ms)
  = Ok (map Spec.labelled ms).
Proof.
  induction ms as [| m ms IH]; simpl.
  - reflexivity.
  - rewrite IH. reflexivity.
Qed.

(** C7.  [messages_to_input] on a list of messages with text role and text
    content gives the flattening of the specification: the content of a
    single message, else the messages labelled ["System: "], ["User: "],
    ["Assistant: "] (no label for another role) and joined by blank lines
    in their order; the three-message example flattens as stated. *)
Theorem messages_to_input_flattens :
  (forall ms : list Spec.ChatMessage,
      Cloudflare.messages_to_input (PList (map Spec.message_dict ms))
      = Ok (PStr (Spec.flatten ms)))
  /\ Cloudflare.messages_to_input
       (PList (map Spec.message_dict
                 [Spec.mkMessage "system" "be terse";
                  Spec.mkMessage "user" "2+2?";
                  Spec.mkMessage "assistant" "4"]))
     = Ok (PStr ("System: be terse" ++ Text.nl ++ Text.nl ++ "User: 2+2?"
                 ++ Text.nl ++ Text.nl ++ "Assistant: 4")).
Proof.
  split; [| reflexivity].
  intros [| m [| m' ms]].
  - reflexivity.
  - destruct m as [r c]. reflexivity.
  - unfold Cloudflare.messages_to_input.
    cbn [map Py.truthy negb Py.len bind List.length Nat.eqb Py.iter].
    change (Spec.message_dict m :: Spec.message_dict m'
            :: map Spec.message_dict ms)
      with (map Spec.message_dict (m :: m' :: ms)).
    rewrite input_parts_labelled. cbn [bind].
    rewrite as_text_labelled. reflexivity.
Qed.

End Flattening.

(** ** The configuration check *)

Section Configuration.

Context {RT : PyRuntime} {TR : Transport}.

Lemma cloudflare_missing_key (account base : string) (body : dict)
  (log : list request) :
  Cloudflare.pipe (Cloudflare.mkValves "" account base) body log
  = (Returned (PStr
       "Error: Cloudflare API Key is not set. Please configure it in the valve settings."),
     log).
Proof. reflexivity. Qed.

Lemma openai_missing_key (p : OpenAI.provider) (base : string) (body : dict)
  (log : list request) :
  OpenAI.pipe p (OpenAI.mkValves "" base) body log
  = (Returned (PStr ("Error: " ++ OpenAI.api_key_name p
       ++ " is not set. Please configure it in the pipe settings.")),
     log).
Proof. reflexivity. Qed.

(** C8, as the code has it.  With an empty API key every pipe returns a text
    and leaves the log of network calls as it was.  The text of the
    Cloudflare pipe holds ["API Key"]; the text of an OpenAI-style pipe
    names the valve (["DEEPSEEK_API_KEY"], ...), so it holds ["API_KEY"]
    and neither ["API Key"] nor ["API key"]. *)
Theorem missing_api_key_is_reported_before_any_call :
  (forall account base body log,
      exists msg,
        Cloudflare.pipe (Cloudflare.mkValves "" account base) body log
        = (Returned (PStr msg), log)
        /\ Text.contains "API Key" msg = true)
  /\ (forall p base body log,
         exists msg,
           OpenAI.pipe p (OpenAI.mkValves "" base) body log
           = (Returned (PStr msg), log)
           /\ Text.contains (OpenAI.api_key_name p ++ " is not set") msg = true
           /\ Text.contains "API_KEY" msg = true
           /\ Text.contains "API Key" msg = false
           /\ Text.contains "API key" msg = false).
Proof.
  split.
  - intros account base body log. eexists. split.
    + apply cloudflare_missing_key.
    + reflexivity.
  - intros p base body log. eexists. split.
    + apply openai_missing_key.
    + destruct p; repeat split; vm_compute; reflexivity.
Qed.

End Configuration.

(** C8, as stated, fails on the DeepSeek pipe: the text it returns for an
    empty key holds neither ["API Key"] nor ["API key"]. *)
Lemma deepseek_missing_key_text_has_no_API_Key :
  ~ (exists msg,
       fst (OpenAI.pipe (RT := Reference.runtime)
              (TR := Inputs.completion_transport) OpenAI.DeepSeek
              (OpenAI.mkValves "" (OpenAI.default_base_url OpenAI.DeepSeek))
              Inputs.streaming_request [])
       = Returned (PStr msg)
       /\ (Text.contains "API Key" msg = true
           \/ Text.contains "API key" msg = true)).
Proof.
  intros [msg [Hres Hsub]]. simpl in Hres.
  injection Hres as <-. vm_compute in Hsub.
  destruct Hsub; discriminate.
Qed.

(** ** The model id of the outbound call *)

Lemma model_not_optional (p : OpenAI.provider) :
  ~ In "model"%string (OpenAI.optional_params p).
Proof.
  destruct p; simpl; intros Hin;
    repeat (destruct Hin as [Hin | Hin]; [discriminate Hin |]);
    exact Hin.
Qed.

Lemma build_payload_model (p : OpenAI.provider) (body : dict) (m : pyval) :
  OpenAI.model_id_of p body = Ok m ->
  exists payload,
    OpenAI.build_payload p body = Ok payload
    /\ Py.lookup "model" payload = Some m.
Proof.
  intros Hm. unfold OpenAI.build_payload. rewrite Hm. simpl.
  eexists. split; [reflexivity |].
  rewrite lookup_set_other by discriminate.
  rewrite lookup_copy_params by apply model_not_optional.
  reflexivity.
Qed.

(** The [stream] field of the payload is the body's, [False] when the body
    has none. *)
Lemma build_payload_stream (p : OpenAI.provider) (body payload : dict) :
  OpenAI.build_payload p body = Ok payload ->
  Py.lookup "stream" payload = Some (Py.dget body "stream" (PBool false)).
Proof.
  unfold OpenAI.build_payload.
  destruct (OpenAI.model_id_of p body) as [m | e]; cbn [bind];
    [| discriminate].
  intros Heq. injection Heq as <-. apply lookup_set_same.
Qed.

Lemma model_id_of_missing (p : OpenAI.provider) (body : dict) :
  Py.lookup "model" body = None ->
  OpenAI.model_id_of p body = Ok (PStr (OpenAI.default_model p)).
Proof.
  intros Hnone. unfold OpenAI.model_id_of, Py.dget. rewrite Hnone.
  destruct p; reflexivity.
Qed.

Section DefaultModel.

Context {RT : PyRuntime} {TR : Transport}.

Lemma openai_pipe_calls (p : OpenAI.provider) (valves : OpenAI.Valves)
  (body payload : dict) (log : list request) (r : request) :
  OpenAI.build_payload p body = Ok payload ->
  In r (calls_made (OpenAI.pipe p valves body log)) ->
  In r log \/ req_json r = payload.
Proof.
  intros Hpayload. unfold OpenAI.pipe, calls_made.
  destruct (String.eqb (OpenAI.API_KEY valves) ""); simpl.
  - intros Hin. left. exact Hin.
  - rewrite Hpayload.
    destruct (Py.truthy (Py.dget body "stream" (PBool false))); simpl;
      [| destruct (bind _ _); simpl];
      intros Hin; apply in_app_or in Hin;
      (destruct Hin as [Hin | [<- | []]]; [left; exact Hin | right; reflexivity]).
Qed.

Lemma openai_pipe_does_not_raise (p : OpenAI.provider)
  (valves : OpenAI.Valves) (body payload : dict) (log : list request) :
  OpenAI.build_payload p body = Ok payload ->
  forall e, fst (OpenAI.pipe p valves body log) <> Raised e.
Proof.
  intros Hpayload e. unfold OpenAI.pipe.
  destruct (String.eqb (OpenAI.API_KEY valves) ""); simpl; [discriminate |].
  rewrite Hpayload.
  destruct (Py.truthy (Py.dget body "stream" (PBool false))); simpl;
    [discriminate |].
  destruct (bind _ _); discriminate.
Qed.

(** C10.  For a body without ["model"] an OpenAI-style pipe builds its
    payload with the default model of its provider (["deepseek-chat"],
    ["mistral-large-latest"], ["sonar"], ["grok-3"]); the call raises
    nothing, and every network call it makes, in the pipe or in the
    generator it returns, carries that model. *)
Theorem missing_model_defaults (p : OpenAI.provider) (valves : OpenAI.Valves)
  (body : dict) (log : list request) :
  Py.lookup "model" body = None ->
  (exists payload,
      OpenAI.build_payload p body = Ok payload
      /\ Py.lookup "model" payload = Some (PStr (OpenAI.default_model p)))
  /\ (forall e, fst (OpenAI.pipe p valves body log) <> Raised e)
  /\ (forall r,
         In r (calls_made (OpenAI.pipe p valves body log)) ->
         In r log
         \/ Py.lookup "model" (req_json r)
            = Some (PStr (OpenAI.default_model p)))
  /\ map OpenAI.default_model OpenAI.providers
     = ["deepseek-chat"; "mistral-large-latest"; "sonar"; "grok-3"]%string.
Proof.
  intros Hnone.
  destruct (build_payload_model p body _ (model_id_of_missing p body Hnone))
    as [payload [Hpayload Hmodel]].
  repeat split.
  - exists payload. split; assumption.
  - apply (openai_pipe_does_not_raise p valves body payload log Hpayload).
  - intros r Hin.
    destruct (openai_pipe_calls p valves body payload log r Hpayload Hin)
      as [Hold | ->]; [left; exact Hold | right; exact Hmodel].
Qed.

End DefaultModel.

Lemma missing_model_defaults_witness :
  Py.lookup "model" Inputs.request_without_model = None
  /\ calls_made
       (OpenAI.pipe (RT := Reference.runtime)
          (TR := Inputs.completion_transport) OpenAI.XAI
          (Inputs.openai_valves OpenAI.XAI) Inputs.request_without_model [])
     = [mkRequest "https://api.x.ai/v1/chat/completions"
          [("Authorization", "Bearer key");
           ("Content-Type", "application/json")]
          [("model", PStr "grok-3"); ("messages", Inputs.user_says "hi");
           ("temperature", PInt 1); ("stream", PBool false)]
          false None]
  /\ forall r,
       In r (calls_made
               (OpenAI.pipe (RT := Reference.runtime)
                  (TR := Inputs.completion_transport) OpenAI.XAI
                  (Inputs.openai_valves OpenAI.XAI)
                  Inputs.request_without_model [])) ->
       In r []
       \/ Py.lookup "model" (req_json r)
          = Some (PStr (OpenAI.default_model OpenAI.XAI)).
Proof.
  split; [reflexivity |]. split; [reflexivity |].
  apply (missing_model_defaults (RT := Reference.runtime)
           (TR := Inputs.completion_transport) OpenAI.XAI
           (Inputs.openai_valves OpenAI.XAI) Inputs.request_without_model []).
  reflexivity.
Defined.

Lemma contains_dot_cons (c : ascii) (s : string) :
  Text.contains "." (String c s) = Ascii.eqb c "." || Text.contains "." s.
Proof.
  change (Text.contains "." (String c s))
    with ((if ascii_dec "." c then String.prefix "" s else false)
          || Text.contains "." s).
  destruct (ascii_dec "." c) as [<- | Hne].
  - rewrite prefix_empty. reflexivity.
  - destruct (Ascii.eqb_spec c "."); [subst; contradiction | reflexivity].
Qed.

Lemma contains_dot_app (pre suffix : string) :
  Text.contains "." (pre ++ "." ++ suffix) = true.
Proof.
  induction pre as [| c pre IH].
  - change (("" ++ "." ++ suffix)%string) with (String "." suffix).
    rewrite contains_dot_cons. reflexivity.
  - change ((String c pre ++ "." ++ suffix)%string)
      with (String c (pre ++ "." ++ suffix)).
    rewrite contains_dot_cons, IH. apply orb_true_r.
Qed.

Lemma after_first_dot_app (pre suffix : string) :
  Text.contains "." pre = false ->
  Text.after_first "." (pre ++ "." ++ suffix) = Some suffix.
Proof.
  induction pre as [| c pre IH]; intros Hpre.
  - reflexivity.
  - rewrite contains_dot_cons in Hpre. apply orb_false_elim in Hpre.
    destruct Hpre as [Hc Hpre]. simpl. rewrite Hc. apply IH. exact Hpre.
Qed.

Lemma strip_pipe_prefix_dotted (pre suffix : string) :
  Text.contains "." pre = false ->
  Cloudflare.strip_pipe_prefix (PStr (pre ++ "." ++ suffix))
  = Ok (PStr suffix).
Proof.
  intros Hpre. unfold Cloudflare.strip_pipe_prefix. cbn [Py.contains bind].
  rewrite contains_dot_app. cbn [Cloudflare.split_suffix].
  rewrite (after_first_dot_app pre suffix Hpre). reflexivity.
Qed.

(** [str.replace] on a text that starts with what is replaced. *)

Lemma prefix_append (p s : string) : String.prefix p (p ++ s) = true.
Proof.
  induction p as [| a p IH]; simpl.
  - apply prefix_empty.
  - destruct (ascii_dec a a); [exact IH | contradiction].
Qed.

Lemma replace_absent (old new s : string) :
  Text.contains old s = false -> Text.replace old new s = s.
Proof.
  unfold Text.replace. induction s as [| c s IH]; intros Habsent.
  - reflexivity.
  - change (Text.contains old (String c s))
      with (String.prefix old (String c s) || Text.contains old s) in Habsent.
    apply orb_false_elim in Habsent. destruct Habsent as [Hhere Hlater].
    cbn [Text.replace_from]. rewrite Hhere, (IH Hlater). reflexivity.
Qed.

Lemma replace_skips (old new x s : string) :
  Text.replace_from old new (String.length x) (x ++ s)
  = Text.replace_from old new 0 s.
Proof. induction x as [| c x IH]; [destruct s |]; simpl; auto. Qed.

Lemma replace_leading (c : ascii) (x new s : string) :
  Text.replace (String c x) new (String c x ++ s)
  = (new ++ Text.replace (String c x) new s)%string.
Proof.
  unfold Text.replace.
  change ((String c x ++ s)%string) with (String c (x ++ s)).
  cbn [Text.replace_from].
  change (String c (x ++ s)) with ((String c x ++ s)%string).
  rewrite prefix_append.
  replace (String.length (String c x) - 1) with (String.length x)
    by (simpl; lia).
  rewrite replace_skips. reflexivity.
Qed.

Lemma own_prefix_removed (p : OpenAI.provider) (m : string) :
  Text.contains (OpenAI.pipe_prefix p) m = false ->
  Text.replace (OpenAI.pipe_prefix p) "" (OpenAI.pipe_prefix p ++ m) = m.
Proof.
  intros Habsent.
  destruct p; cbn [OpenAI.pipe_prefix] in *;
    rewrite replace_leading, (replace_absent _ _ _ Habsent); reflexivity.
Qed.

Section ModelId.

Context {RT : PyRuntime}.

(** C6, as the code has it.  The Cloudflare pipe cuts a text model id at its
    first dot and looks up what follows, and nothing else, in its catalog.
    When the name that comes out does not hold ["openai/gpt-oss"], the call
    goes to [/ai/run/<name>] and its payload has no model field; when it
    does, the call goes to [/ai/v1/responses] and the model field of the
    payload is that name.  An OpenAI-style pipe removes its own prefix
    (["deepseek."], ["mistral."], ["perplexity."], ["xai."]) from an id
    that starts with it and does not hold it again; an id that does not
    start with the pipe's own prefix, ["providerX.modelA"] included, is
    sent unchanged. *)
Theorem model_prefix_is_stripped :
  (forall valves body pre suffix name,
      Py.lookup "model" body = Some (PStr (pre ++ "." ++ suffix)) ->
      Text.contains "." pre = false ->
      Cloudflare.get_cloudflare_model_name (PStr suffix) = Ok (PStr name) ->
      Text.contains "openai/gpt-oss" name = false ->
      exists payload,
        Cloudflare.prepare valves body
        = Ok ((Cloudflare.BASE_URL valves ++ "/"
               ++ Cloudflare.CLOUDFLARE_ACCOUNT_ID valves
               ++ "/ai/run/" ++ name)%string,
              [("Authorization",
                ("Bearer " ++ Cloudflare.CLOUDFLARE_API_KEY valves)%string);
               ("Content-Type", "application/json"%string)],
              payload)
        /\ Py.has_key "model" payload = false
        /\ Py.lookup "messages" payload
           = Some (Py.dget body "messages" (PList [])))
  /\ (forall valves body pre suffix name input_text,
         Py.lookup "model" body = Some (PStr (pre ++ "." ++ suffix)) ->
         Text.contains "." pre = false ->
         Cloudflare.get_cloudflare_model_name (PStr suffix)
         = Ok (PStr name) ->
         Text.contains "openai/gpt-oss" name = true ->
         Cloudflare.messages_to_input (Py.dget body "messages" (PList []))
         = Ok input_text ->
         exists payload,
           Cloudflare.prepare valves body
           = Ok ((Cloudflare.BASE_URL valves ++ "/"
                  ++ Cloudflare.CLOUDFLARE_ACCOUNT_ID valves
                  ++ "/ai/v1/responses")%string,
                 [("Authorization",
                   ("Bearer " ++ Cloudflare.CLOUDFLARE_API_KEY valves)%string);
                  ("Content-Type", "application/json"%string)],
                 payload)
           /\ Py.lookup "model" payload = Some (PStr name)
           /\ Py.lookup "input" payload = Some input_text)
  /\ (forall p body m,
         Py.lookup "model" body = Some (PStr (OpenAI.pipe_prefix p ++ m)) ->
         Text.contains (OpenAI.pipe_prefix p) m = false ->
         exists payload,
           OpenAI.build_payload p body = Ok payload
           /\ Py.lookup "model" payload = Some (PStr m))
  /\ (forall p body s,
         Py.lookup "model" body = Some (PStr s) ->
         Text.startswith s (OpenAI.pipe_prefix p) = false ->
         exists payload,
           OpenAI.build_payload p body = Ok payload
           /\ Py.lookup "model" payload = Some (PStr s))
  /\ Cloudflare.prepare Inputs.cloudflare_valves Inputs.qualified_request
     = Ok ("https://api.cloudflare.com/client/v4/accounts/account/ai/run/modelA"%string,
           [("Authorization", "Bearer token");
            ("Content-Type", "application/json")]%string,
           [("messages", Inputs.user_says "hi")]%string)
  /\ Cloudflare.prepare Inputs.cloudflare_valves Inputs.gpt_oss_request
     = Ok ("https://api.cloudflare.com/client/v4/accounts/account/ai/v1/responses"%string,
           [("Authorization", "Bearer token");
            ("Content-Type", "application/json")]%string,
           [("model", PStr "@cf/openai/gpt-oss-20b");
            ("input", PStr ("System: be terse" ++ Text.nl ++ Text.nl
                            ++ "User: 2+2?"))]%string)
  /\ (forall p,
         OpenAI.build_payload p
           [("model", PStr (OpenAI.pipe_prefix p ++ "modelA"))]%string
         = Ok [("model", PStr "modelA"); ("messages", PList []);
               ("stream", PBool false)]%string
         /\ OpenAI.build_payload p Inputs.qualified_request
            = Ok [("model", PStr "providerX.modelA");
                  ("messages", Inputs.user_says "hi");
                  ("stream", PBool false)]%string).
Proof.
  repeat match goal with |- _ /\ _ => split end.
  - intros valves body pre suffix name Hmodel Hpre Hname Hrun.
    unfold Cloudflare.prepare. unfold Py.dget at 1. rewrite Hmodel.
    rewrite (strip_pipe_prefix_dotted pre suffix Hpre). cbn [bind].
    rewrite Hname. cbn [bind].
    unfold Cloudflare.call_for, Cloudflare.uses_responses_endpoint.
    cbn [Py.contains bind py_str fst snd]. rewrite Hrun. cbn [bind fst snd].
    eexists. split; [reflexivity |]. unfold Py.has_key.
    rewrite !lookup_copy_params
      by (cbn; intros [H | [H | [H | []]]]; discriminate H).
    split; reflexivity.
  - intros valves body pre suffix name input_text
      Hmodel Hpre Hname Hresponses Hinput.
    unfold Cloudflare.prepare. unfold Py.dget at 1. rewrite Hmodel.
    rewrite (strip_pipe_prefix_dotted pre suffix Hpre). cbn [bind].
    rewrite Hname. cbn [bind].
    unfold Cloudflare.call_for, Cloudflare.uses_responses_endpoint.
    cbn [Py.contains bind]. rewrite Hresponses, Hinput. cbn [bind fst snd].
    eexists. split; [reflexivity |].
    rewrite !lookup_copy_params
      by (cbn; intros [H | [H | [H | []]]]; discriminate H).
    split; reflexivity.
  - intros p body m Hmodel Habsent. apply build_payload_model.
    unfold OpenAI.model_id_of, Py.dget. rewrite Hmodel.
    unfold Text.startswith. rewrite prefix_append.
    rewrite (own_prefix_removed p m Habsent). reflexivity.
  - intros p body s0 Hmodel Hforeign. apply build_payload_model.
    unfold OpenAI.model_id_of, Py.dget. rewrite Hmodel, Hforeign.
    reflexivity.
  - reflexivity.
  - reflexivity.
  - intros p. destruct p; split; reflexivity.
Qed.

End ModelId.

Lemma model_prefix_is_stripped_witness :
  (Py.lookup "model" Inputs.hosted_request
   = Some (PStr ("cloudflare_pipe" ++ "." ++ "cf-llama-3.1-8b-instruct"))
   /\ Text.contains "." "cloudflare_pipe" = false
   /\ Cloudflare.get_cloudflare_model_name (PStr "cf-llama-3.1-8b-instruct")
      = Ok (PStr "@cf/meta/llama-3.1-8b-instruct")
   /\ Text.contains "openai/gpt-oss" "@cf/meta/llama-3.1-8b-instruct" = false)
  /\ (Py.lookup "model" Inputs.gpt_oss_request
      = Some (PStr ("cloudflare_pipe" ++ "." ++ "cf-gpt-oss-20b"))
      /\ Cloudflare.get_cloudflare_model_name (PStr "cf-gpt-oss-20b")
         = Ok (PStr "@cf/openai/gpt-oss-20b")
      /\ Text.contains "openai/gpt-oss" "@cf/openai/gpt-oss-20b" = true
      /\ Cloudflare.messages_to_input (RT := Reference.runtime)
           (Py.dget Inputs.gpt_oss_request "messages" (PList []))
         = Ok (PStr ("System: be terse" ++ Text.nl ++ Text.nl
                     ++ "User: 2+2?")))
  /\ (Py.lookup "model" [("model", PStr "mistral.mistral-small-latest")]%string
      = Some (PStr (OpenAI.pipe_prefix OpenAI.Mistral
                    ++ "mistral-small-latest"))
      /\ Text.contains (OpenAI.pipe_prefix OpenAI.Mistral)
           "mistral-small-latest" = false
      /\ Text.startswith "providerX.modelA"
           (OpenAI.pipe_prefix OpenAI.Mistral) = false)
  /\ (exists payload,
        Cloudflare.prepare (RT := Reference.runtime) Inputs.cloudflare_valves
          Inputs.hosted_request
        = Ok (Inputs.llama_run_url, Inputs.token_headers, payload)
        /\ Py.has_key "model" payload = false
        /\ Py.lookup "messages" payload = Some (PList []))
  /\ (exists payload,
        Cloudflare.prepare (RT := Reference.runtime) Inputs.cloudflare_valves
          Inputs.gpt_oss_request
        = Ok ("https://api.cloudflare.com/client/v4/accounts/account/ai/v1/responses"%string,
              Inputs.token_headers, payload)
        /\ Py.lookup "model" payload = Some (PStr "@cf/openai/gpt-oss-20b")
        /\ Py.lookup "input" payload
           = Some (PStr ("System: be terse" ++ Text.nl ++ Text.nl
                         ++ "User: 2+2?")))
  /\ (exists payload,
        OpenAI.build_payload OpenAI.Mistral
          [("model", PStr "mistral.mistral-small-latest")]%string
        = Ok payload
        /\ Py.lookup "model" payload = Some (PStr "mistral-small-latest"))
  /\ (exists payload,
        OpenAI.build_payload OpenAI.Mistral Inputs.qualified_request
        = Ok payload
        /\ Py.lookup "model" payload = Some (PStr "providerX.modelA")).
Proof.
  split; [repeat split; reflexivity |].
  split; [repeat split; reflexivity |].
  split; [repeat split; reflexivity |].
  pose proof (model_prefix_is_stripped (RT := Reference.runtime))
    as [Hrun [Hresponses [Hown [Hforeign _]]]].
  split; [| split; [| split]].
  - exact (Hrun Inputs.cloudflare_valves Inputs.hosted_request
             "cloudflare_pipe"%string "cf-llama-3.1-8b-instruct"%string
             "@cf/meta/llama-3.1-8b-instruct"%string
             eq_refl eq_refl eq_refl eq_refl).
  - exact (Hresponses Inputs.cloudflare_valves Inputs.gpt_oss_request
             "cloudflare_pipe"%string "cf-gpt-oss-20b"%string
             "@cf/openai/gpt-oss-20b"%string
             (PStr ("System: be terse" ++ Text.nl ++ Text.nl ++ "User: 2+2?"))
             eq_refl eq_refl eq_refl eq_refl eq_refl).
  - exact (Hown OpenAI.Mistral
             [("model", PStr "mistral.mistral-small-latest")]%string
             "mistral-small-latest"%string eq_refl eq_refl).
  - exact (Hforeign OpenAI.Mistral Inputs.qualified_request
             "providerX.modelA"%string eq_refl eq_refl).
Defined.

(** C6, as stated, fails on the DeepSeek pipe: for the request with model
    ["providerX.modelA"] the model field of the payload is not ["modelA"]. *)
Lemma deepseek_sends_foreign_prefix :
  ~ (exists payload,
       OpenAI.build_payload OpenAI.DeepSeek Inputs.qualified_request
       = Ok payload
       /\ Py.lookup "model" payload = Some (PStr "modelA")).
Proof.
  intros [payload [Hpayload Hmodel]].
  vm_compute in Hpayload. injection Hpayload as <-.
  vm_compute in Hmodel. discriminate Hmodel.
Qed.

(** ** Streaming is switched off in the Cloudflare pipe *)

Section NoStreaming.

Context {RT : PyRuntime} {TR : Transport}.

Lemma call_for_has_no_stream (valves : Cloudflare.Valves) (body : dict)
  (cf_model_name : pyval) (url : string) (headers : list (string * string))
  (payload : dict) :
  Cloudflare.call_for valves body cf_model_name = Ok (url, headers, payload) ->
  Py.has_key "stream" payload = false.
Proof.
  unfold Cloudflare.call_for.
  destruct (Cloudflare.uses_responses_endpoint cf_model_name) as [[|] | e];
    cbn [bind]; [| | discriminate].
  - destruct (Cloudflare.messages_to_input _) as [input_text | e];
      cbn [bind]; [| discriminate].
    intros Heq. injection Heq as _ _ <-. unfold Py.has_key.
    rewrite !lookup_copy_param_other by discriminate. reflexivity.
  - intros Heq. injection Heq as _ _ <-. unfold Py.has_key.
    rewrite !lookup_copy_param_other by discriminate. reflexivity.
Qed.

Lemma prepare_has_no_stream (valves : Cloudflare.Valves) (body : dict)
  (url : string) (headers : list (string * string)) (payload : dict) :
  Cloudflare.prepare valves body = Ok (url, headers, payload) ->
  Py.has_key "stream" payload = false.
Proof.
  unfold Cloudflare.prepare.
  destruct (Cloudflare.strip_pipe_prefix _) as [model_id | e];
    cbn [bind]; [| discriminate].
  destruct (Cloudflare.get_cloudflare_model_name model_id) as [name | e];
    cbn [bind]; [| discriminate].
  apply call_for_has_no_stream.
Qed.

Lemma dget_set_other (body : dict) (k k' : string) (v default : pyval) :
  k <> k' -> Py.dget (Py.set k' v body) k default = Py.dget body k default.
Proof.
  intros Hne. unfold Py.dget. rewrite lookup_set_other by exact Hne.
  reflexivity.
Qed.

Lemma prepare_ignores_stream (valves : Cloudflare.Valves) (body : dict)
  (v : pyval) :
  Cloudflare.prepare valves (Py.set "stream" v body)
  = Cloudflare.prepare valves body.
Proof.
  unfold Cloudflare.prepare, Cloudflare.call_for, OpenAI.copy_param.
  cbn [fold_left].
  rewrite !dget_set_other by discriminate.
  rewrite !lookup_set_other by discriminate.
  reflexivity.
Qed.

(** The outcome of [pipe] once the call has been prepared. *)
Lemma cloudflare_pipe_prepared (valves : Cloudflare.Valves) (body : dict)
  (url : string) (headers : list (string * string)) (payload : dict)
  (log : list request) :
  Cloudflare.CLOUDFLARE_API_KEY valves <> ""%string ->
  Cloudflare.CLOUDFLARE_ACCOUNT_ID valves <> ""%string ->
  Cloudflare.prepare valves body = Ok (url, headers, payload) ->
  Cloudflare.pipe valves body log
  = (match requests_post (mkRequest url headers payload false (Some 120%Z)) with
     | Raise e => Returned (Cloudflare.on_exception e)
     | Ok response =>
         if negb (Z.eqb (status_code response) 200)
         then Returned (Cloudflare.bad_status response)
         else
           match (result_ <- json response ;; Cloudflare.extract result_)%py with
           | Ok v => Returned v
           | Raise e => Returned (Cloudflare.on_exception e)
           end
     end,
     log ++ [mkRequest url headers payload false (Some 120%Z)]).
Proof.
  intros Hkey Hacct Hprep. unfold Cloudflare.pipe.
  destruct (String.eqb_spec (Cloudflare.CLOUDFLARE_API_KEY valves) "");
    [contradiction |].
  destruct (String.eqb_spec (Cloudflare.CLOUDFLARE_ACCOUNT_ID valves) "");
    [contradiction |].
  rewrite Hprep. reflexivity.
Qed.

(** C9, as the code has it.  Whatever the body says about [stream], the
    Cloudflare pipe never hands back a generator; every call it makes is a
    plain (non-streaming) post whose payload has no [stream] field; a
    [200] answer is turned into the result by the non-streaming extraction;
    and the outcome is the same as for the body without the caller's
    [stream] entry, so nothing in it tells the caller that streaming was
    switched off. *)
Theorem cloudflare_never_streams (valves : Cloudflare.Valves) (body : dict)
  (log : list request) :
  (forall g, fst (Cloudflare.pipe valves body log) <> Generator g)
  /\ (forall r,
         In r (snd (Cloudflare.pipe valves body log)) ->
         In r log
         \/ (req_stream r = false /\ Py.has_key "stream" (req_json r) = false))
  /\ (forall url headers payload response,
         Cloudflare.CLOUDFLARE_API_KEY valves <> ""%string ->
         Cloudflare.CLOUDFLARE_ACCOUNT_ID valves <> ""%string ->
         Cloudflare.prepare valves body = Ok (url, headers, payload) ->
         requests_post (mkRequest url headers payload false (Some 120%Z))
         = Ok response ->
         status_code response = 200%Z ->
         fst (Cloudflare.pipe valves body log)
         = match (result_ <- json response ;; Cloudflare.extract result_)%py with
           | Ok v => Returned v
           | Raise e => Returned (Cloudflare.on_exception e)
           end)
  /\ (forall v,
         Cloudflare.pipe valves (Py.set "stream" v body) log
         = Cloudflare.pipe valves body log).
Proof.
  split; [| split; [| split]].
  - intros g. unfold Cloudflare.pipe.
    destruct (String.eqb _ ""); [discriminate |].
    destruct (String.eqb _ ""); [discriminate |].
    destruct (Cloudflare.prepare valves body) as [[[url headers] payload] | e];
      [| discriminate].
    cbn. destruct (requests_post _) as [response | e]; [| discriminate].
    destruct (negb _); [discriminate |].
    destruct (bind _ _); discriminate.
  - intros r. unfold Cloudflare.pipe.
    destruct (String.eqb _ ""); [intros Hin; left; exact Hin |].
    destruct (String.eqb _ ""); [intros Hin; left; exact Hin |].
    destruct (Cloudflare.prepare valves body)
      as [[[url headers] payload] | e] eqn:Hprep;
      [| intros Hin; left; exact Hin].
    cbn. intros Hin. apply in_app_or in Hin.
    destruct Hin as [Hin | [<- | []]]; [left; exact Hin | right].
    split; [reflexivity |].
    apply (prepare_has_no_stream valves body url headers payload Hprep).
  - intros url headers payload response Hkey Hacct Hprep Hpost Hstatus.
    rewrite (cloudflare_pipe_prepared valves body url headers payload log
               Hkey Hacct Hprep).
    cbn [fst]. rewrite Hpost, Hstatus. reflexivity.
  - intros v. unfold Cloudflare.pipe. rewrite prepare_ignores_stream.
    reflexivity.
Qed.

End NoStreaming.

Lemma cloudflare_never_streams_witness :
  In (mkRequest
        "https://api.cloudflare.com/client/v4/accounts/account/ai/run/@cf/meta/llama-3.1-8b-instruct"
        [("Authorization", "Bearer token");
         ("Content-Type", "application/json")]%string
        [("messages", Inputs.user_says "2+2?")]%string
        false (Some 120%Z))
     (snd (Cloudflare.pipe (RT := Reference.runtime)
             (TR := Inputs.cloudflare_transport) Inputs.cloudflare_valves
             Inputs.cloudflare_streaming_request []))
  /\ fst (Cloudflare.pipe (RT := Reference.runtime)
            (TR := Inputs.cloudflare_transport) Inputs.cloudflare_valves
            Inputs.cloudflare_streaming_request [])
     = Returned (PStr "4")
  /\ (In (mkRequest
            "https://api.cloudflare.com/client/v4/accounts/account/ai/run/@cf/meta/llama-3.1-8b-instruct"
            [("Authorization", "Bearer token");
             ("Content-Type", "application/json")]%string
            [("messages", Inputs.user_says "2+2?")]%string
            false (Some 120%Z)) []
      \/ (false = false
          /\ Py.has_key "stream" [("messages", Inputs.user_says "2+2?")]%string
             = false)).
Proof.
  split; [left; reflexivity |]. split; [reflexivity |].
  apply (proj1 (proj2 (cloudflare_never_streams (RT := Reference.runtime)
                         (TR := Inputs.cloudflare_transport)
                         Inputs.cloudflare_valves
                         Inputs.cloudflare_streaming_request []))
           (mkRequest
              "https://api.cloudflare.com/client/v4/accounts/account/ai/run/@cf/meta/llama-3.1-8b-instruct"
              [("Authorization", "Bearer token");
               ("Content-Type", "application/json")]%string
              [("messages", Inputs.user_says "2+2?")]%string
              false (Some 120%Z))).
  left. reflexivity.
Defined.

(** C9, as stated, fails on its last part: for a request that asks for
    streaming the pipe hands back the bare text of the model, the very
    value it hands back for the request that does not ask for it; the
    caller is told nothing about the response not being incremental. *)
Lemma cloudflare_gives_no_notice :
  fst (Cloudflare.pipe (RT := Reference.runtime)
         (TR := Inputs.cloudflare_transport) Inputs.cloudflare_valves
         Inputs.cloudflare_streaming_request [])
  = Returned (PStr "4")
  /\ ~ Spec.caller_is_informed
        (fst (Cloudflare.pipe (RT := Reference.runtime)
                (TR := Inputs.cloudflare_transport) Inputs.cloudflare_valves
                Inputs.cloudflare_streaming_request []))
        (fst (Cloudflare.pipe (RT := Reference.runtime)
                (TR := Inputs.cloudflare_transport) Inputs.cloudflare_valves
                Inputs.cloudflare_plain_request [])).
Proof.
  split; [reflexivity |].
  intros Hdiff. apply Hdiff. reflexivity.
Qed.

(** ** Lines that carry data *)

Section DataLines.

Context {RT : PyRuntime}.

Lemma cloudflare_data_line (payload : string) :
  Cloudflare.handle_line (Line ("data: " ++ payload))
  = if String.eqb payload "[DONE]" then ([], Break)
    else
      step_of
        (try_except
           match json_loads payload with
           | Some json_data => Cloudflare.event_content json_data
           | None => glift (Raise (json_loads_error payload))
           end
           is_JSONDecodeError
           (if negb (String.eqb payload "") && negb (String.eqb payload "[DONE]")
            then gyield (PStr payload) else gret tt)).
Proof.
  unfold Cloudflare.handle_line. rewrite startswith_data. reflexivity.
Qed.

Lemma openai_data_line (payload : string) :
  OpenAI.handle_line (Line ("data: " ++ payload))
  = if String.eqb (Text.strip payload) "[DONE]" then ([], Break)
    else
      step_of
        (try_except
           match json_loads payload with
           | Some data => OpenAI.delta_content data
           | None => glift (Raise (json_loads_error payload))
           end
           is_JSONDecodeError
           (gret tt)).
Proof.
  unfold OpenAI.handle_line. rewrite startswith_data. reflexivity.
Qed.

Lemma run_eta (r : run) : mkRun (yielded r) (raised r) = r.
Proof. destruct r; reflexivity. Qed.

(** C2, as the code has it.  Take a [data: ] line whose payload is not the
    end marker and on which [json.loads] raises [json.JSONDecodeError].
    [stream_response] of the Cloudflare pipe yields the payload as one
    fragment, unless the payload is empty, in which case nothing is
    yielded; the loop of [_handle_stream] of the OpenAI-style pipes yields
    nothing for it.  Both decoders go on with the next line. *)
Theorem malformed_data_line :
  (forall payload rest,
      json_loads payload = None ->
      is_JSONDecodeError (json_loads_error payload) = true ->
      payload <> ""%string ->
      payload <> "[DONE]"%string ->
      for_lines Cloudflare.handle_line (Line ("data: " ++ payload) :: rest)
      = mkRun (PStr payload :: yielded (for_lines Cloudflare.handle_line rest))
              (raised (for_lines Cloudflare.handle_line rest)))
  /\ (forall rest,
         json_loads "" = None ->
         is_JSONDecodeError (json_loads_error "") = true ->
         for_lines Cloudflare.handle_line (Line "data: " :: rest)
         = for_lines Cloudflare.handle_line rest)
  /\ (forall payload rest,
         json_loads payload = None ->
         is_JSONDecodeError (json_loads_error payload) = true ->
         Text.strip payload <> "[DONE]"%string ->
         for_lines OpenAI.handle_line (Line ("data: " ++ payload) :: rest)
         = for_lines OpenAI.handle_line rest).
Proof.
  split; [| split].
  - intros payload rest Hloads Hdecode Hempty Hdone.
    apply (for_lines_next _ _ [PStr payload]).
    rewrite cloudflare_data_line, Hloads.
    destruct (String.eqb_spec payload "[DONE]"); [contradiction |].
    destruct (String.eqb_spec payload ""); [contradiction |].
    unfold try_except, glift. rewrite Hdecode. reflexivity.
  - intros rest Hloads Hdecode.
    rewrite (for_lines_next _ _ [] rest); [apply run_eta |].
    change (Line "data: ") with (Line ("data: " ++ "")).
    rewrite cloudflare_data_line, Hloads.
    unfold try_except, glift. rewrite Hdecode. reflexivity.
  - intros payload rest Hloads Hdecode Hdone.
    rewrite (for_lines_next _ _ [] rest); [apply run_eta |].
    rewrite openai_data_line, Hloads.
    destruct (String.eqb_spec (Text.strip payload) "[DONE]");
      [contradiction |].
    unfold try_except, glift. rewrite Hdecode. reflexivity.
Qed.

End DataLines.

Lemma malformed_data_line_witness :
  (json_loads (PyRuntime := Reference.runtime) "oops" = None
   /\ is_JSONDecodeError
        (json_loads_error (PyRuntime := Reference.runtime) "oops") = true
   /\ "oops"%string <> ""%string
   /\ "oops"%string <> "[DONE]"%string
   /\ Text.strip "oops" <> "[DONE]"%string)
  /\ for_lines (Cloudflare.handle_line (RT := Reference.runtime))
       [Line ("data: " ++ "oops"); Inputs.data_line (Inputs.response_json "Hi")]
     = mkRun [PStr "oops"; PStr "Hi"] None
  /\ for_lines (OpenAI.handle_line (RT := Reference.runtime))
       [Line ("data: " ++ "oops"); Inputs.data_line (Inputs.delta_json "Hi")]
     = mkRun [PStr "Hi"] None.
Proof.
  split; [repeat split; (reflexivity || discriminate) |]. split.
  - rewrite (proj1 (malformed_data_line (RT := Reference.runtime)) "oops"
               [Inputs.data_line (Inputs.response_json "Hi")]
               eq_refl eq_refl ltac:(discriminate) ltac:(discriminate)).
    reflexivity.
  - rewrite (proj2 (proj2 (malformed_data_line (RT := Reference.runtime)))
               "oops" [Inputs.data_line (Inputs.delta_json "Hi")]
               eq_refl eq_refl ltac:(discriminate)).
    reflexivity.
Defined.

(** C2, as stated, fails on its second half: on the DeepSeek pipe (and its
    three siblings) a [data: ] line that is not JSON does not end the
    sequence with a notice; the run over such a line has no fragment at
    all, and the lines after it are still decoded.  The first half fails
    for the empty payload, for which the Cloudflare pipe yields nothing,
    and for a payload that is no JSON but on which [json.loads] raises
    another exception than [json.JSONDecodeError]: for 4301 digits, a blank
    and an [x] it raises a [ValueError], [stream_response] of the
    Cloudflare pipe does not yield the payload but a notice and stops, and
    the exception leaves the loop of the DeepSeek pipe. *)
Lemma malformed_line_is_skipped_not_reported :
  ~ Spec.ends_with_notice
      (for_lines (OpenAI.handle_line (RT := Reference.runtime))
         [Line "data: oops"])
  /\ for_lines (OpenAI.handle_line (RT := Reference.runtime))
       [Line "data: oops"; Inputs.data_line (Inputs.delta_json "Hi")]
     = mkRun [PStr "Hi"] None
  /\ Reference.loads "" = None
  /\ for_lines (Cloudflare.handle_line (RT := Reference.runtime))
       [Line "data: "]
     = mkRun [] None
  /\ Reference.loads Inputs.overlong_payload = None
  /\ Reference.loads_error Inputs.overlong_payload
     = mkExn ValueError Inputs.overlong_message
  /\ Cloudflare.stream_response (RT := Reference.runtime)
       (Reference.ok_response ""
          [Inputs.data_line Inputs.overlong_payload;
           Inputs.data_line (Inputs.response_json "Hi")])
     = mkRun [PStr (Text.nl ++ Text.nl ++ "Error during streaming: "
                    ++ Inputs.overlong_message)] None
  /\ for_lines (OpenAI.handle_line (RT := Reference.runtime))
       [Inputs.data_line Inputs.overlong_payload;
        Inputs.data_line (Inputs.delta_json "Hi")]
     = mkRun [] (Some (mkExn ValueError Inputs.overlong_message)).
Proof.
  split; [| repeat split; vm_compute; reflexivity].
  intros [before [notice Hlast]]. vm_compute in Hlast.
  destruct before; discriminate Hlast.
Qed.

(** ** The [choices] shape of a streaming event *)

Lemma gbind_yielded {A B : Type} (g : gen A) (k : A -> gen B) :
  fst (gbind g k)
  = fst g ++ match snd g with
             | Ok a => fst (k a)
             | Raise _ => []
             end.
Proof.
  destruct g as [out [a | e]]; simpl.
  - destruct (k a); reflexivity.
  - rewrite app_nil_r. reflexivity.
Qed.

Lemma gbind_lift_ok {A B : Type} (a : A) (k : A -> gen B) :
  gbind (glift (Ok a)) k = k a.
Proof. unfold gbind, glift. destruct (k a); reflexivity. Qed.

Lemma choice_content_shaped (choice : pyval) :
  Spec.choice_shaped choice ->
  Cloudflare.choice_content choice = (Spec.choice_fragment choice, Ok tt).
Proof.
  intros [c [-> [Hdelta | [delta Hdelta]]]];
    unfold Cloudflare.choice_content, Spec.choice_fragment;
    cbn [Py.contains glift gbind]; unfold Py.has_key; rewrite Hdelta.
  - reflexivity.
  - cbn [Py.getitem]. rewrite Hdelta. cbn [glift gbind Py.get].
    destruct (Py.lookup "content" delta) as [v |].
    + cbn. destruct (Py.truthy v); reflexivity.
    + reflexivity.
Qed.

Lemma for_each_shaped (items : list pyval) :
  Forall Spec.choice_shaped items ->
  for_each items Cloudflare.choice_content
  = (flat_map Spec.choice_fragment items, Ok tt).
Proof.
  induction 1 as [| choice items Hchoice _ IH]; simpl.
  - reflexivity.
  - rewrite (choice_content_shaped choice Hchoice). simpl. rewrite IH.
    reflexivity.
Qed.

Lemma choice_content_truthy (choice v : pyval) :
  In v (fst (Cloudflare.choice_content choice)) -> Py.truthy v = true.
Proof.
  unfold Cloudflare.choice_content.
  destruct (Py.contains "delta" choice) as [[|] | e]; cbn [glift gbind];
    [| intros [] | intros []].
  destruct (Py.getitem choice "delta") as [delta | e]; cbn [glift gbind];
    [| intros []].
  destruct (Py.get delta "content" (PStr "")) as [content | e];
    cbn [glift gbind]; [| intros []].
  destruct (Py.truthy content) eqn:Htruthy; simpl.
  - intros [<- | []]. exact Htruthy.
  - intros [].
Qed.

Lemma for_each_truthy (items : list pyval) (v : pyval) :
  In v (fst (for_each items Cloudflare.choice_content)) -> Py.truthy v = true.
Proof.
  induction items as [| choice items IH]; simpl.
  - intros [].
  - rewrite gbind_yielded. intros Hin. apply in_app_or in Hin.
    destruct Hin as [Hin | Hin].
    + apply (choice_content_truthy choice v Hin).
    + destruct (snd (Cloudflare.choice_content choice)); [apply IH; exact Hin |].
      destruct Hin.
Qed.

(** The [choices] branch of [stream_response] is reached by an object that
    has neither [response] nor [result]. *)
Lemma event_content_choices (d : dict) (choices : pyval) :
  Py.lookup "response" d = None ->
  Py.lookup "result" d = None ->
  Py.lookup "choices" d = Some choices ->
  Cloudflare.event_content (PDict d)
  = (items <~ glift (Py.iter choices) ;;
     for_each items Cloudflare.choice_content)%gen.
Proof.
  intros Hresponse Hresult Hchoices. unfold Cloudflare.event_content.
  cbn [Py.contains Py.getitem]. unfold Py.has_key.
  rewrite Hresponse, Hresult, Hchoices.
  repeat (rewrite gbind_lift_ok; cbv iota). reflexivity.
Qed.

Lemma has_choices_first (d : dict) (first : pyval) (rest : list pyval) :
  Py.lookup "choices" d = Some (PList (first :: rest)) ->
  OpenAI.has_choices (PDict d) = Ok true.
Proof.
  intros Hchoices. unfold OpenAI.has_choices.
  cbn [Py.contains Py.getitem]. unfold Py.has_key.
  rewrite Hchoices. reflexivity.
Qed.

(** What the loop of [_handle_stream] takes from an event: the [content]
    of the [delta] of the first element of [choices]. *)
Lemma delta_content_first (d first : dict) (rest : list pyval) (delta : dict) :
  Py.lookup "choices" d = Some (PList (PDict first :: rest)) ->
  Py.dget first "delta" (PDict []) = PDict delta ->
  OpenAI.delta_content (PDict d)
  = (match Py.lookup "content" delta with
     | Some v => [v]
     | None => []
     end, Ok tt).
Proof.
  intros Hchoices Hdelta.
  assert (Hget : Py.get (PDict first) "delta" (PDict []) = Ok (PDict delta)).
  { unfold Py.get. unfold Py.dget in Hdelta.
    destruct (Py.lookup "delta" first); rewrite Hdelta; reflexivity. }
  unfold OpenAI.delta_content.
  rewrite (has_choices_first d _ rest Hchoices), gbind_lift_ok.
  cbn [Py.getitem]. rewrite Hchoices, gbind_lift_ok.
  cbn [Py.getitem0]. rewrite gbind_lift_ok, Hget, gbind_lift_ok.
  cbn [Py.contains Py.getitem]. unfold Py.has_key.
  destruct (Py.lookup "content" delta); reflexivity.
Qed.

(** C5, as the code has it.  In [stream_response] of the Cloudflare pipe an
    event without [response] and [result] whose [choices] is a list of
    objects (each [delta], when present, an object) yields the non-empty
    [content] of every [delta], one fragment each, in the order of the
    list, and whatever [choices] holds no fragment of that branch is empty.
    The loop of [_handle_stream] of the OpenAI-style pipes looks at the
    first element only and yields the [content] of its [delta] when the key
    is there, the empty text included. *)
Theorem choices_fragments :
  (forall d items,
      Py.lookup "response" d = None ->
      Py.lookup "result" d = None ->
      Py.lookup "choices" d = Some (PList items) ->
      Forall Spec.choice_shaped items ->
      Cloudflare.event_content (PDict d)
      = (flat_map Spec.choice_fragment items, Ok tt))
  /\ (forall d choices v,
         Py.lookup "response" d = None ->
         Py.lookup "result" d = None ->
         Py.lookup "choices" d = Some choices ->
         In v (fst (Cloudflare.event_content (PDict d))) ->
         Py.truthy v = true /\ v <> PStr "")
  /\ (forall d first rest delta,
         Py.lookup "choices" d = Some (PList (PDict first :: rest)) ->
         Py.dget first "delta" (PDict []) = PDict delta ->
         OpenAI.delta_content (PDict d)
         = (match Py.lookup "content" delta with
            | Some v => [v]
            | None => []
            end, Ok tt)).
Proof.
  split; [| split].
  - intros d items Hresponse Hresult Hchoices Hshaped.
    rewrite (event_content_choices d _ Hresponse Hresult Hchoices).
    cbn [Py.iter glift gbind]. rewrite (for_each_shaped items Hshaped).
    reflexivity.
  - intros d choices v Hresponse Hresult Hchoices Hin.
    rewrite (event_content_choices d _ Hresponse Hresult Hchoices) in Hin.
    assert (Htruthy : Py.truthy v = true).
    { destruct (Py.iter choices) as [items | e]; cbn [glift gbind] in Hin.
      - destruct (for_each items Cloudflare.choice_content) as [out r] eqn:Hrun.
        cbn in Hin. apply (for_each_truthy items v). rewrite Hrun. exact Hin.
      - destruct Hin. }
    split; [exact Htruthy |].
    intros ->. discriminate Htruthy.
  - intros d first rest delta. apply delta_content_first.
Qed.

Lemma choices_fragments_witness :
  Forall Spec.choice_shaped Inputs.mixed_choices
  /\ Cloudflare.event_content (PDict Inputs.mixed_event)
     = ([PStr "a"; PStr "b"], Ok tt)
  /\ OpenAI.delta_content (PDict Inputs.mixed_event) = ([PStr "a"], Ok tt).
Proof.
  assert (Hshaped : Forall Spec.choice_shaped Inputs.mixed_choices).
  { repeat constructor; eexists; (split; [reflexivity |]);
      solve [left; reflexivity | right; eexists; reflexivity]. }
  split; [exact Hshaped |]. split.
  - apply (proj1 choices_fragments
             Inputs.mixed_event Inputs.mixed_choices
             eq_refl eq_refl eq_refl Hshaped).
  - apply (proj2 (proj2 choices_fragments)
             Inputs.mixed_event
             [("delta", PDict [("content", PStr "a")])]%string
             (tl Inputs.mixed_choices)
             [("content", PStr "a")]%string
             eq_refl eq_refl).
Defined.

(** C5, as stated, fails on the OpenAI-style pipes: the loop of
    [_handle_stream] yields the empty text when the first [delta] holds it,
    and for an event with two elements that both carry text it yields the
    first text only. *)
Lemma openai_decoder_reads_first_choice_only :
  In (PStr "")
     (fst (OpenAI.handle_line (RT := Reference.runtime)
             (Inputs.data_line (Inputs.delta_json ""))))
  /\ (exists items,
        Reference.loads (Inputs.two_deltas_json "a" "b")
        = Some (PDict [("choices", PList items)])
        /\ flat_map Spec.choice_fragment items = [PStr "a"; PStr "b"]
        /\ fst (OpenAI.handle_line (RT := Reference.runtime)
                  (Inputs.data_line (Inputs.two_deltas_json "a" "b")))
           <> flat_map Spec.choice_fragment items).
Proof.
  split.
  - left. reflexivity.
  - eexists. split; [reflexivity |]. split; [reflexivity |].
    vm_compute. discriminate.
Qed.

(** ** Streamed chunks against the complete response *)




Lemma other_line_is_ignored {RT : PyRuntime} (l : string) :
  Text.startswith l "data: " = false ->
  OpenAI.handle_line (Line l) = ([], Next)
  /\ Cloudflare.handle_line (Line l) = ([], Next).
Proof.
  intros Hother. unfold OpenAI.handle_line, Cloudflare.handle_line.
  rewrite Hother. destruct (String.eqb l ""); split; reflexivity.
Qed.





Section Equivalence.

Context {RT : PyRuntime}.



Lemma strip_not_done (payload : string) :
  Text.strip payload <> "[DONE]"%string -> payload <> "[DONE]"%string.
Proof. intros Hstrip ->. apply Hstrip. reflexivity. Qed.



End Equivalence.







(** ** Errors on their way to the host *)

Section Errors.

Context {RT : PyRuntime}.

(** [stream_response] catches every exception of its loop. *)
Lemma cloudflare_stream_never_raises (response : response) :
  raised (Cloudflare.stream_response response) = None.
Proof.
  unfold Cloudflare.stream_response.
  destruct (raised (for_lines Cloudflare.handle_line (iter_lines response)))
    eqn:Hraised; [reflexivity | exact Hraised].
Qed.

(** An exception of the loop of [stream_response] becomes the last
    fragment, after the fragments already yielded. *)
Lemma cloudflare_stream_error_is_last_fragment (response : response)
  (e : exn) :
  raised (for_lines Cloudflare.handle_line (iter_lines response)) = Some e ->
  yielded (Cloudflare.stream_response response)
  = yielded (for_lines Cloudflare.handle_line (iter_lines response))
    ++ [PStr (Text.nl ++ Text.nl ++ "Error during streaming: " ++ exn_msg e)].
Proof.
  intros Hraised. unfold Cloudflare.stream_response. rewrite Hraised.
  reflexivity.
Qed.

(** The generator of [_handle_stream], once the host runs it: the call is
    made then, and an exception of the call, an error status or an
    exception of the loop leaves the generator. *)
Lemma openai_stream_call_fails {TR : Transport} (url : string)
  (headers : list (string * string)) (payload : dict) (log : list request)
  (e : exn) :
  requests_post (mkRequest url headers payload true None) = Raise e ->
  OpenAI._handle_stream url headers payload log
  = (mkRun [] (Some e), log ++ [mkRequest url headers payload true None]).
Proof.
  intros Hpost. unfold OpenAI._handle_stream, net_bind, net_ret, post.
  rewrite Hpost. reflexivity.
Qed.

Lemma openai_stream_runs_loop {TR : Transport} (url : string)
  (headers : list (string * string)) (payload : dict) (log : list request)
  (response : response) :
  requests_post (mkRequest url headers payload true None) = Ok response ->
  raise_for_status url response = Ok tt ->
  OpenAI._handle_stream url headers payload log
  = (for_lines OpenAI.handle_line (iter_lines response),
     log ++ [mkRequest url headers payload true None]).
Proof.
  intros Hpost Hstatus. unfold OpenAI._handle_stream, net_bind, net_ret, post.
  rewrite Hpost. cbn [bind]. rewrite Hstatus. reflexivity.
Qed.

(** With streaming an OpenAI-style pipe returns the generator without
    having called the network. *)
Lemma openai_stream_is_lazy {TR : Transport} (p : OpenAI.provider)
  (valves : OpenAI.Valves) (body payload : dict) (log : list request) :
  OpenAI.API_KEY valves <> ""%string ->
  OpenAI.build_payload p body = Ok payload ->
  Py.truthy (Py.dget body "stream" (PBool false)) = true ->
  exists g, OpenAI.pipe p valves body log = (Generator g, log).
Proof.
  intros Hkey Hpayload Hstream. unfold OpenAI.pipe.
  destruct (String.eqb_spec (OpenAI.API_KEY valves) ""); [contradiction |].
  rewrite Hpayload, Hstream. eexists. reflexivity.
Qed.

(** Without streaming an OpenAI-style pipe turns every exception of the
    call into a text. *)
Lemma openai_plain_errors_are_text {TR : Transport} (p : OpenAI.provider)
  (valves : OpenAI.Valves) (body payload : dict) (log : list request) :
  OpenAI.build_payload p body = Ok payload ->
  Py.truthy (Py.dget body "stream" (PBool false)) = false ->
  exists v, fst (OpenAI.pipe p valves body log) = Returned v.
Proof.
  intros Hpayload Hstream. unfold OpenAI.pipe.
  destruct (String.eqb _ ""); [eexists; reflexivity |].
  rewrite Hpayload, Hstream. cbn.
  destruct (bind _ _); eexists; reflexivity.
Qed.

End Errors.

(** C3 on the streaming path of the DeepSeek pipe (its three siblings have
    the same code).  [pipe] returns the generator of [_handle_stream]
    before any of its code has run, so the [try] of [pipe] is left when the
    host starts to pull: a refused connection, an error status and a
    connection that drops after the first event all leave the generator as
    exceptions, the last one after the fragment already yielded.  The same
    refused connection without streaming is returned as a text. *)
Lemma deepseek_stream_errors_reach_the_host :
  (exists g,
      fst (OpenAI.pipe (RT := Reference.runtime) (TR := Inputs.unreachable)
             OpenAI.DeepSeek (Inputs.openai_valves OpenAI.DeepSeek)
             Inputs.streaming_request [])
      = Generator g
      /\ fst (g []) = mkRun [] (Some Inputs.refused))
  /\ (exists g,
         fst (OpenAI.pipe (RT := Reference.runtime) (TR := Inputs.unauthorized)
                OpenAI.DeepSeek (Inputs.openai_valves OpenAI.DeepSeek)
                Inputs.streaming_request [])
         = Generator g
         /\ fst (g [])
            = mkRun []
                (Some (mkExn HTTPError
                   "401 Client Error: Unauthorized for url: https://api.deepseek.com/v1/chat/completions")))
  /\ (exists g,
         fst (OpenAI.pipe (RT := Reference.runtime) (TR := Inputs.dropping)
                OpenAI.DeepSeek (Inputs.openai_valves OpenAI.DeepSeek)
                Inputs.streaming_request [])
         = Generator g
         /\ fst (g []) = mkRun [PStr "Hi"] (Some Inputs.broken))
  /\ fst (OpenAI.pipe (RT := Reference.runtime) (TR := Inputs.unreachable)
            OpenAI.DeepSeek (Inputs.openai_valves OpenAI.DeepSeek)
            Inputs.plain_request [])
     = Returned
         (PStr "Error: Failed to connect to DeepSeek API - Connection refused").
Proof.
  split; [| split; [| split]];
    [eexists; split; reflexivity .. | reflexivity].
Qed.

(** On the same dropped connection [stream_response] of the Cloudflare pipe
    ends the sequence with a notice. *)
Example cloudflare_stream_reports_dropped_connection :
  Cloudflare.stream_response (RT := Reference.runtime)
    (Reference.ok_response ""
       [Inputs.data_line (Inputs.response_json "Hi");
        ReadError Inputs.broken])
  = mkRun
      [PStr "Hi";
       PStr (Text.nl ++ Text.nl
             ++ "Error during streaming: Connection broken")]
      None.
Proof. reflexivity. Qed.

(** * Further properties of the pipes *)

(** ** Removing the pipe's own prefix *)

Lemma pipe_prefix_is_id_dot (p : OpenAI.provider) :
  OpenAI.pipe_prefix p = (OpenAI.pipe_id p ++ ".")%string.
Proof. destruct p; reflexivity. Qed.

(** X1.  An OpenAI-style pipe sends a model id that is qualified with the
    pipe's own id ([self.id], a dot, the id) without the qualification,
    provided the rest does not hold the prefix again; an id that does not
    start with the prefix, a foreign qualification included, is sent as it
    is. *)
Theorem own_qualification_is_removed (p : OpenAI.provider) (body : dict)
  (m : string) :
  (Py.lookup "model" body = Some (PStr (OpenAI.pipe_id p ++ "." ++ m)) ->
   Text.contains (OpenAI.pipe_prefix p) m = false ->
   exists payload,
     OpenAI.build_payload p body = Ok payload
     /\ Py.lookup "model" payload = Some (PStr m))
  /\ (Py.lookup "model" body = Some (PStr m) ->
      Text.startswith m (OpenAI.pipe_prefix p) = false ->
      exists payload,
        OpenAI.build_payload p body = Ok payload
        /\ Py.lookup "model" payload = Some (PStr m)).
Proof.
  split.
  - intros Hmodel Habsent. apply build_payload_model.
    unfold OpenAI.model_id_of, Py.dget. rewrite Hmodel.
    replace ((OpenAI.pipe_id p ++ "." ++ m)%string)
      with ((OpenAI.pipe_prefix p ++ m)%string)
      by (destruct p; reflexivity).
    unfold Text.startswith. rewrite prefix_append.
    rewrite (own_prefix_removed p m Habsent). reflexivity.
  - intros Hmodel Hforeign. apply build_payload_model.
    unfold OpenAI.model_id_of, Py.dget. rewrite Hmodel, Hforeign.
    reflexivity.
Qed.

Lemma own_qualification_is_removed_witness :
  (exists payload,
      OpenAI.build_payload OpenAI.XAI
        [("model", PStr ("xai" ++ "." ++ "grok-3-mini"));
         ("messages", Inputs.user_says "hi")]%string
      = Ok payload
      /\ Py.lookup "model" payload = Some (PStr "grok-3-mini"))
  /\ (exists payload,
         OpenAI.build_payload OpenAI.XAI
           [("model", PStr "openrouter.grok-3-mini")]%string
         = Ok payload
         /\ Py.lookup "model" payload = Some (PStr "openrouter.grok-3-mini")).
Proof.
  split.
  - apply (proj1 (own_qualification_is_removed OpenAI.XAI
                    [("model", PStr ("xai" ++ "." ++ "grok-3-mini"));
                     ("messages", Inputs.user_says "hi")]%string
                    "grok-3-mini"));
      reflexivity.
  - apply (proj2 (own_qualification_is_removed OpenAI.XAI
                    [("model", PStr "openrouter.grok-3-mini")]%string
                    "openrouter.grok-3-mini"));
      reflexivity.
Defined.

(** X2.  Every model an OpenAI-style pipe offers in [pipes] reaches the
    provider under its bare id, whether the host sends the bare id or the id
    qualified with [self.id]; the default model of the pipe is one of the
    models it offers. *)
Theorem offered_models_are_sent_bare (p : OpenAI.provider) (id : string)
  (body : dict) :
  In id (entry_ids (OpenAI.pipes p)) ->
  Py.lookup "model" body = Some (PStr id)
  \/ Py.lookup "model" body = Some (PStr (OpenAI.pipe_id p ++ "." ++ id)) ->
  (exists payload,
      OpenAI.build_payload p body = Ok payload
      /\ Py.lookup "model" payload = Some (PStr id))
  /\ In (OpenAI.default_model p) (entry_ids (OpenAI.pipes p)).
Proof.
  intros Hoffered Hmodel. split.
  - apply build_payload_model. unfold OpenAI.model_id_of, Py.dget.
    destruct Hmodel as [-> | ->];
      destruct p; cbn in Hoffered;
      repeat (destruct Hoffered as [<- | Hoffered]; [reflexivity |]);
      destruct Hoffered.
  - destruct p; cbn; tauto.
Qed.

Lemma offered_models_are_sent_bare_witness :
  In "sonar-reasoning-pro"%string (entry_ids (OpenAI.pipes OpenAI.Perplexity))
  /\ exists payload,
       OpenAI.build_payload OpenAI.Perplexity
         [("model", PStr "perplexity.sonar-reasoning-pro")]%string
       = Ok payload
       /\ Py.lookup "model" payload = Some (PStr "sonar-reasoning-pro").
Proof.
  assert (Hin : In "sonar-reasoning-pro"%string
                  (entry_ids (OpenAI.pipes OpenAI.Perplexity))).
  { cbn. tauto. }
  split; [exact Hin |].
  apply (proj1 (offered_models_are_sent_bare OpenAI.Perplexity
                  "sonar-reasoning-pro"
                  [("model", PStr "perplexity.sonar-reasoning-pro")]%string
                  Hin (or_intror eq_refl))).
Defined.

(** ** The catalog of the Cloudflare pipe *)

Lemma no_dot_no_suffix (s : string) :
  Text.contains "." s = false -> Text.after_first "." s = None.
Proof.
  induction s as [| c s IH]; intros Hdot.
  - reflexivity.
  - rewrite contains_dot_cons in Hdot. apply orb_false_elim in Hdot.
    destruct Hdot as [Hc Hs]. simpl. rewrite Hc. apply IH. exact Hs.
Qed.

Lemma dot_has_suffix (s : string) :
  Text.contains "." s = true -> exists t, Text.after_first "." s = Some t.
Proof.
  induction s as [| c s IH]; intros Hdot.
  - discriminate Hdot.
  - rewrite contains_dot_cons in Hdot. simpl.
    destruct (Ascii.eqb c ".").
    + exists s. reflexivity.
    + apply IH. exact Hdot.
Qed.

(** X3.  The cut at the first dot never fails on a text: a model id without
    a dot is kept, one with a dot is replaced by what follows its first dot.
    So of the ids offered in [pipes] the ones that hold a dot themselves
    (a version number) resolve to their catalog name only when the host
    sends them qualified; sent bare, what is left of them is no key of the
    catalog and is passed on as the model name. *)
Theorem cut_at_first_dot :
  (forall s,
      Text.contains "." s = false ->
      Cloudflare.strip_pipe_prefix (PStr s) = Ok (PStr s))
  /\ (forall s,
         Text.contains "." s = true ->
         exists t,
           Text.after_first "." s = Some t
           /\ Cloudflare.strip_pipe_prefix (PStr s) = Ok (PStr t))
  /\ (forall id,
         In id (entry_ids Cloudflare.pipes) ->
         Text.contains "." id = true ->
         exists t,
           (model_id <- Cloudflare.strip_pipe_prefix (PStr id) ;;
            Cloudflare.get_cloudflare_model_name model_id)%py = Ok (PStr t)
           /\ Text.after_first "." id = Some t
           /\ Cloudflare.mapping_get id Cloudflare.model_mapping <> Some t).
Proof.
  split; [| split].
  - intros s Hdot. unfold Cloudflare.strip_pipe_prefix.
    cbn [Py.contains bind]. rewrite Hdot. reflexivity.
  - intros s Hdot. destruct (dot_has_suffix s Hdot) as [t Ht].
    exists t. split; [exact Ht |].
    unfold Cloudflare.strip_pipe_prefix. cbn [Py.contains bind].
    rewrite Hdot. cbn [Cloudflare.split_suffix]. rewrite Ht. reflexivity.
  - intros id Hin Hdot. cbn in Hin.
    repeat (destruct Hin as [<- | Hin];
            [first [discriminate Hdot
                   | eexists; split; [reflexivity |];
                     split; [reflexivity | discriminate]] |]).
    destruct Hin.
Qed.

Lemma cut_at_first_dot_witness :
  Text.contains "." "cf-llama-3.1-8b-instruct" = true
  /\ In "cf-llama-3.1-8b-instruct"%string (entry_ids Cloudflare.pipes)
  /\ Cloudflare.strip_pipe_prefix (PStr "cf-gemma-3-12b-it")
     = Ok (PStr "cf-gemma-3-12b-it")
  /\ exists t,
       (model_id <- Cloudflare.strip_pipe_prefix
                      (PStr "cf-llama-3.1-8b-instruct") ;;
        Cloudflare.get_cloudflare_model_name model_id)%py = Ok (PStr t)
       /\ Text.after_first "." "cf-llama-3.1-8b-instruct" = Some t
       /\ Cloudflare.mapping_get "cf-llama-3.1-8b-instruct"
            Cloudflare.model_mapping <> Some t.
Proof.
  assert (Hin : In "cf-llama-3.1-8b-instruct"%string
                  (entry_ids Cloudflare.pipes)).
  { cbn. tauto. }
  split; [reflexivity |]. split; [exact Hin |]. split.
  - apply (proj1 cut_at_first_dot). reflexivity.
  - apply (proj2 (proj2 cut_at_first_dot) _ Hin). reflexivity.
Defined.

(** X4.  Every model the Cloudflare pipe offers in [pipes], qualified by
    the host with a prefix that holds no dot, resolves to a name of the
    catalog, and that name is ["@cf/"], a vendor, a slash and the name shown
    in [pipes]. *)
Theorem offered_models_resolve (qualifier : string) (entry : dict)
  (id name : string) :
  In entry Cloudflare.pipes ->
  Py.lookup "id" entry = Some (PStr id) ->
  Py.lookup "name" entry = Some (PStr name) ->
  Text.contains "." qualifier = false ->
  exists vendor,
    (model_id <- Cloudflare.strip_pipe_prefix
                   (PStr (qualifier ++ "." ++ id)) ;;
     Cloudflare.get_cloudflare_model_name model_id)%py
    = Ok (PStr ("@cf/" ++ vendor ++ "/" ++ name)).
Proof.
  intros Hin Hid Hname Hqualifier.
  rewrite (strip_pipe_prefix_dotted qualifier id Hqualifier). cbn [bind].
  cbn in Hin.
  repeat (destruct Hin as [<- | Hin];
          [cbn in Hid, Hname; injection Hid as <-; injection Hname as <-;
           first [exists "openai"%string; reflexivity
                 | exists "meta"%string; reflexivity
                 | exists "mistral"%string; reflexivity
                 | exists "qwen"%string; reflexivity
                 | exists "google"%string; reflexivity] |]).
  destruct Hin.
Qed.

Lemma offered_models_resolve_witness :
  In (model_entry "cf-qwen2.5-coder-32b-instruct" "qwen2.5-coder-32b-instruct")
     Cloudflare.pipes
  /\ Text.contains "." "cloudflare_workers_ai" = false
  /\ exists vendor,
       (model_id <- Cloudflare.strip_pipe_prefix
                      (PStr ("cloudflare_workers_ai" ++ "."
                             ++ "cf-qwen2.5-coder-32b-instruct")) ;;
        Cloudflare.get_cloudflare_model_name model_id)%py
       = Ok (PStr ("@cf/" ++ vendor ++ "/" ++ "qwen2.5-coder-32b-instruct")).
Proof.
  assert (Hin : In (model_entry "cf-qwen2.5-coder-32b-instruct"
                      "qwen2.5-coder-32b-instruct") Cloudflare.pipes).
  { cbn. tauto. }
  split; [exact Hin |]. split; [reflexivity |].
  apply (offered_models_resolve "cloudflare_workers_ai" _
           "cf-qwen2.5-coder-32b-instruct" "qwen2.5-coder-32b-instruct"
           Hin eq_refl eq_refl eq_refl).
Defined.

Lemma catalog_names_are_no_keys (s name : string) :
  Cloudflare.mapping_get s Cloudflare.model_mapping = Some name ->
  Cloudflare.mapping_get name Cloudflare.model_mapping = None.
Proof.
  unfold Cloudflare.model_mapping. cbn [Cloudflare.mapping_get].
  repeat (destruct (String.eqb s _);
          [intros Heq; injection Heq as <-; reflexivity |]).
  discriminate.
Qed.

(** X5.  [get_cloudflare_model_name] leaves every text that is no key of
    its catalog as it is, and no name of the catalog is a key: applied to
    its own result it changes nothing, so a caller may pass a Cloudflare
    name such as ["@cf/meta/llama-3.1-8b-instruct"] directly. *)
Theorem catalog_lookup_is_idempotent (s : string) :
  (exists name, Cloudflare.get_cloudflare_model_name (PStr s) = Ok (PStr name))
  /\ (Cloudflare.mapping_get s Cloudflare.model_mapping = None ->
      Cloudflare.get_cloudflare_model_name (PStr s) = Ok (PStr s))
  /\ (model_name <- Cloudflare.get_cloudflare_model_name (PStr s) ;;
      Cloudflare.get_cloudflare_model_name model_name)%py
     = Cloudflare.get_cloudflare_model_name (PStr s).
Proof.
  unfold Cloudflare.get_cloudflare_model_name.
  destruct (Cloudflare.mapping_get s Cloudflare.model_mapping) as [name |]
    eqn:Hget.
  - split; [exists name; reflexivity |]. split; [discriminate |].
    cbn [bind]. rewrite (catalog_names_are_no_keys s name Hget). reflexivity.
  - split; [exists s; reflexivity |]. split; [reflexivity |].
    cbn [bind]. rewrite Hget. reflexivity.
Qed.

Lemma catalog_lookup_is_idempotent_witness :
  Cloudflare.mapping_get "@cf/meta/llama-3.1-8b-instruct"
    Cloudflare.model_mapping = None
  /\ Cloudflare.get_cloudflare_model_name
       (PStr "@cf/meta/llama-3.1-8b-instruct")
     = Ok (PStr "@cf/meta/llama-3.1-8b-instruct").
Proof.
  split; [reflexivity |].
  apply (proj1 (proj2 (catalog_lookup_is_idempotent
                         "@cf/meta/llama-3.1-8b-instruct"))).
  reflexivity.
Defined.

(** ** What goes into the payload *)

Lemma copy_param_keeps_copied (body payload : dict) (k k' : string) :
  Py.lookup k payload = Py.lookup k body ->
  Py.lookup k (OpenAI.copy_param body payload k') = Py.lookup k body.
Proof.
  intros Hcopied. unfold OpenAI.copy_param.
  destruct (String.eqb_spec k k') as [<- | Hne].
  - destruct (Py.lookup k body) as [v |] eqn:Hbody;
      [apply lookup_set_same | exact Hcopied].
  - destruct (Py.lookup k' body);
      [rewrite lookup_set_other by exact Hne |]; exact Hcopied.
Qed.

Lemma copy_params_keep_copied (body : dict) (k : string) (ks : list string) :
  forall payload,
    Py.lookup k payload = Py.lookup k body ->
    Py.lookup k (fold_left (OpenAI.copy_param body) ks payload)
    = Py.lookup k body.
Proof.
  induction ks as [| k' ks IH]; intros payload Hcopied; simpl.
  - exact Hcopied.
  - apply IH. apply copy_param_keeps_copied. exact Hcopied.
Qed.

Lemma copy_params_copy (body : dict) (k : string) (ks : list string) :
  In k ks ->
  forall payload,
    Py.lookup k payload = None ->
    Py.lookup k (fold_left (OpenAI.copy_param body) ks payload)
    = Py.lookup k body.
Proof.
  induction ks as [| k' ks IH]; intros Hin payload Hfresh; simpl.
  - destruct Hin.
  - destruct (String.eqb_spec k k') as [<- | Hne].
    + apply copy_params_keep_copied. unfold OpenAI.copy_param.
      destruct (Py.lookup k body) as [v |] eqn:Hbody;
        [apply lookup_set_same | exact Hfresh].
    + apply IH.
      * destruct Hin as [Heq | Hin]; [symmetry in Heq; contradiction |].
        exact Hin.
      * rewrite lookup_copy_param_other by exact Hne. exact Hfresh.
Qed.

(** X6.  The payload of an OpenAI-style pipe holds [model], [messages]
    (the body's, an empty list when the body has none), [stream] (the
    body's, [False] when it has none), and of the optional parameters of
    the provider exactly the ones the body holds, with the body's values;
    no other entry of the body is passed on. *)
Theorem openai_payload_fields (p : OpenAI.provider) (body payload : dict) :
  OpenAI.build_payload p body = Ok payload ->
  Py.lookup "messages" payload = Some (Py.dget body "messages" (PList []))
  /\ Py.lookup "stream" payload = Some (Py.dget body "stream" (PBool false))
  /\ (forall k,
         In k (OpenAI.optional_params p) ->
         Py.lookup k payload = Py.lookup k body)
  /\ (forall k,
         ~ In k ("model" :: "messages" :: "stream"
                 :: OpenAI.optional_params p)%string ->
         Py.lookup k payload = None).
Proof.
  unfold OpenAI.build_payload.
  destruct (OpenAI.model_id_of p body) as [m | e]; cbn [bind];
    [| discriminate].
  intros Heq. injection Heq as <-.
  assert (Hparams : forall k, In k (OpenAI.optional_params p) ->
                              k <> "model"%string /\ k <> "messages"%string
                              /\ k <> "stream"%string).
  { intros k Hin. destruct p; cbn in Hin;
      repeat (destruct Hin as [<- | Hin];
              [repeat split; discriminate |]);
      destruct Hin. }
  split; [| split; [| split]].
  - rewrite lookup_set_other by discriminate.
    rewrite lookup_copy_params; [reflexivity |].
    intros Hin. destruct (Hparams _ Hin) as [_ [Hne _]]. apply Hne.
    reflexivity.
  - apply lookup_set_same.
  - intros k Hin. destruct (Hparams k Hin) as [Hmodel [Hmessages Hstream]].
    rewrite lookup_set_other by exact Hstream.
    apply copy_params_copy; [exact Hin |].
    cbn [Py.lookup].
    destruct (String.eqb_spec k "model"); [contradiction |].
    destruct (String.eqb_spec k "messages"); [contradiction |].
    reflexivity.
  - intros k Hother.
    rewrite lookup_set_other
      by (intros ->; apply Hother; right; right; left; reflexivity).
    rewrite lookup_copy_params
      by (intros Hin; apply Hother; right; right; right; exact Hin).
    cbn [Py.lookup].
    destruct (String.eqb_spec k "model") as [-> | _];
      [exfalso; apply Hother; left; reflexivity |].
    destruct (String.eqb_spec k "messages") as [-> | _];
      [exfalso; apply Hother; right; left; reflexivity |].
    reflexivity.
Qed.

Lemma openai_payload_fields_witness :
  OpenAI.build_payload OpenAI.Perplexity Inputs.tuned_request
  = Ok [("model", PStr "sonar"); ("messages", Inputs.user_says "hi");
        ("temperature", PInt 0); ("top_k", PInt 40);
        ("stream", PBool false)]%string
  /\ Py.lookup "top_k" Inputs.tuned_request = Some (PInt 40)
  /\ Py.lookup "stop" Inputs.tuned_request = Some (PStr "END")
  /\ (forall k,
         ~ In k ("model" :: "messages" :: "stream"
                 :: OpenAI.optional_params OpenAI.Perplexity)%string ->
         Py.lookup k
           [("model", PStr "sonar"); ("messages", Inputs.user_says "hi");
            ("temperature", PInt 0); ("top_k", PInt 40);
            ("stream", PBool false)]%string
         = None).
Proof.
  split; [reflexivity |]. split; [reflexivity |]. split; [reflexivity |].
  apply (openai_payload_fields OpenAI.Perplexity Inputs.tuned_request).
  reflexivity.
Defined.

Section CloudflarePayload.

Context {RT : PyRuntime}.

(** X7.  The call the Cloudflare pipe prepares has one of two forms.  For a
    model name that holds ["openai/gpt-oss"] it goes to [/ai/v1/responses]
    with the name in [model] and the flattened conversation in [input], and
    without [messages]; for any other name it goes to [/ai/run/<name>] with
    the body's [messages], and without [model] and [input].  In both forms
    [temperature], [max_tokens] and [top_p] are copied when the body holds
    them, no other entry of the body is passed on, and the key is sent as a
    bearer token. *)
Theorem cloudflare_call_forms (valves : Cloudflare.Valves) (body : dict)
  (cf_model_name : pyval) (url : string) (headers : list (string * string))
  (payload : dict) :
  Cloudflare.call_for valves body cf_model_name = Ok (url, headers, payload) ->
  ((Cloudflare.uses_responses_endpoint cf_model_name = Ok true
    /\ url = (Cloudflare.BASE_URL valves ++ "/"
              ++ Cloudflare.CLOUDFLARE_ACCOUNT_ID valves
              ++ "/ai/v1/responses")%string
    /\ Py.lookup "model" payload = Some cf_model_name
    /\ (exists input_text,
          Cloudflare.messages_to_input (Py.dget body "messages" (PList []))
          = Ok input_text
          /\ Py.lookup "input" payload = Some input_text)
    /\ Py.has_key "messages" payload = false)
   \/ (Cloudflare.uses_responses_endpoint cf_model_name = Ok false
       /\ url = (Cloudflare.BASE_URL valves ++ "/"
                 ++ Cloudflare.CLOUDFLARE_ACCOUNT_ID valves
                 ++ "/ai/run/" ++ py_str cf_model_name)%string
       /\ Py.lookup "messages" payload
          = Some (Py.dget body "messages" (PList []))
       /\ Py.has_key "model" payload = false
       /\ Py.has_key "input" payload = false))
  /\ headers
     = [("Authorization",
         ("Bearer " ++ Cloudflare.CLOUDFLARE_API_KEY valves)%string);
        ("Content-Type", "application/json"%string)]
  /\ (forall k,
         In k ["temperature"; "max_tokens"; "top_p"]%string ->
         Py.lookup k payload = Py.lookup k body)
  /\ (forall k,
         ~ In k ["model"; "input"; "messages"; "temperature"; "max_tokens";
                 "top_p"]%string ->
         Py.lookup k payload = None).
Proof.
  unfold Cloudflare.call_for.
  destruct (Cloudflare.uses_responses_endpoint cf_model_name)
    as [[|] | e] eqn:Huses; cbn [bind]; [| | discriminate].
  - destruct (Cloudflare.messages_to_input _) as [input_text | e] eqn:Hinput;
      cbn [bind]; [| discriminate].
    cbn [fst snd]. remember (fold_left _ _ _) as copied eqn:Hcopied.
    intros Heq. injection Heq as <- <- <-. rewrite Hcopied. clear Hcopied.
    split; [left | split; [reflexivity | split]].
    + unfold Py.has_key.
      rewrite !lookup_copy_params
        by (cbn; intros [H | [H | [H | []]]]; discriminate H).
      split; [reflexivity |]. split; [reflexivity |].
      split; [reflexivity |]. split; [| reflexivity].
      exists input_text. split; reflexivity.
    + intros k Hin. apply copy_params_copy; [exact Hin |].
      cbn in Hin. destruct Hin as [<- | [<- | [<- | []]]]; reflexivity.
    + intros k Hother. rewrite lookup_copy_params.
      * cbn [Py.lookup].
        destruct (String.eqb_spec k "model") as [-> | _];
          [exfalso; apply Hother; cbn; tauto |].
        destruct (String.eqb_spec k "input") as [-> | _];
          [exfalso; apply Hother; cbn; tauto |].
        reflexivity.
      * intros Hin. apply Hother. cbn in Hin |- *. tauto.
  - cbn [fst snd]. remember (fold_left _ _ _) as copied eqn:Hcopied.
    intros Heq. injection Heq as <- <- <-. rewrite Hcopied. clear Hcopied.
    split; [right | split; [reflexivity | split]].
    + unfold Py.has_key.
      rewrite !lookup_copy_params
        by (cbn; intros [H | [H | [H | []]]]; discriminate H).
      repeat split; reflexivity.
    + intros k Hin. apply copy_params_copy; [exact Hin |].
      cbn in Hin. destruct Hin as [<- | [<- | [<- | []]]]; reflexivity.
    + intros k Hother. rewrite lookup_copy_params.
      * cbn [Py.lookup].
        destruct (String.eqb_spec k "messages") as [-> | _];
          [exfalso; apply Hother; cbn; tauto |].
        reflexivity.
      * intros Hin. apply Hother. cbn in Hin |- *. tauto.
Qed.

End CloudflarePayload.

Lemma cloudflare_call_forms_witness :
  Cloudflare.call_for (RT := Reference.runtime) Inputs.cloudflare_valves
    Inputs.tuned_request (PStr "@cf/openai/gpt-oss-20b")
  = Ok ("https://api.cloudflare.com/client/v4/accounts/account/ai/v1/responses"%string,
        [("Authorization", "Bearer token");
         ("Content-Type", "application/json")]%string,
        [("model", PStr "@cf/openai/gpt-oss-20b"); ("input", PStr "hi");
         ("temperature", PInt 0)]%string)
  /\ (forall k,
         ~ In k ["model"; "input"; "messages"; "temperature"; "max_tokens";
                 "top_p"]%string ->
         Py.lookup k
           [("model", PStr "@cf/openai/gpt-oss-20b"); ("input", PStr "hi");
            ("temperature", PInt 0)]%string
         = None).
Proof.
  split; [reflexivity |].
  apply (cloudflare_call_forms (RT := Reference.runtime)
           Inputs.cloudflare_valves Inputs.tuned_request
           (PStr "@cf/openai/gpt-oss-20b") _ _ _ eq_refl).
Defined.

(** ** The Cloudflare pipe from configuration to result *)

Section CloudflarePipe.

Context {RT : PyRuntime} {TR : Transport}.

(** X8.  With an API key but without an account id the Cloudflare pipe
    returns the text about the account id and calls nothing; the body is
    not looked at, so not even a body that could not be prepared raises. *)
Theorem missing_account_id_is_reported (key base : string) (body : dict)
  (log : list request) :
  key <> ""%string ->
  Cloudflare.pipe (Cloudflare.mkValves key "" base) body log
  = (Returned (PStr
       "Error: Cloudflare Account ID is not set. Please configure it in the valve settings."),
     log).
Proof.
  intros Hkey. unfold Cloudflare.pipe. cbn [Cloudflare.CLOUDFLARE_API_KEY].
  destruct (String.eqb_spec key ""); [contradiction | reflexivity].
Qed.

Lemma prepared_headers (valves : Cloudflare.Valves) (body : dict)
  (url : string) (headers : list (string * string)) (payload : dict) :
  Cloudflare.prepare valves body = Ok (url, headers, payload) ->
  headers
  = [("Authorization",
      ("Bearer " ++ Cloudflare.CLOUDFLARE_API_KEY valves)%string);
     ("Content-Type", "application/json"%string)].
Proof.
  unfold Cloudflare.prepare.
  destruct (Cloudflare.strip_pipe_prefix _) as [model_id | e];
    cbn [bind]; [| discriminate].
  destruct (Cloudflare.get_cloudflare_model_name model_id) as [name | e];
    cbn [bind]; [| discriminate].
  unfold Cloudflare.call_for.
  destruct (Cloudflare.uses_responses_endpoint name) as [[|] | e];
    cbn [bind]; [| | discriminate].
  - destruct (Cloudflare.messages_to_input _) as [input_text | e];
      cbn [bind]; [| discriminate].
    intros Heq. injection Heq as _ <- _. reflexivity.
  - intros Heq. injection Heq as _ <- _. reflexivity.
Qed.

(** X9.  Once key and account id are set and the call could be prepared,
    the Cloudflare pipe makes exactly one network call, a plain post with a
    timeout of 120 seconds that carries the key as bearer token, and hands
    back a value: nothing that happens from the call on, neither an
    exception of the transport nor an error status nor a body of any form,
    raises. *)
Theorem cloudflare_calls_once_and_returns (valves : Cloudflare.Valves)
  (body : dict) (url : string) (headers : list (string * string))
  (payload : dict) (log : list request) :
  Cloudflare.CLOUDFLARE_API_KEY valves <> ""%string ->
  Cloudflare.CLOUDFLARE_ACCOUNT_ID valves <> ""%string ->
  Cloudflare.prepare valves body = Ok (url, headers, payload) ->
  snd (Cloudflare.pipe valves body log)
  = log ++ [mkRequest url
              [("Authorization",
                ("Bearer " ++ Cloudflare.CLOUDFLARE_API_KEY valves)%string);
               ("Content-Type", "application/json"%string)]
              payload false (Some 120%Z)]
  /\ exists v, fst (Cloudflare.pipe valves body log) = Returned v.
Proof.
  intros Hkey Haccount Hprepare.
  rewrite (cloudflare_pipe_prepared valves body url headers payload log
             Hkey Haccount Hprepare).
  rewrite <- (prepared_headers valves body url headers payload Hprepare).
  split; [reflexivity |]. cbn [fst].
  destruct (requests_post _) as [response | e]; [| eexists; reflexivity].
  destruct (negb _); [eexists; reflexivity |].
  destruct (bind _ _); eexists; reflexivity.
Qed.

(** X10.  The Cloudflare pipe takes every status other than 200 for an
    error, the other success codes included: the result is the text with
    the status and the raw body, and the body is not parsed. *)
Theorem cloudflare_status_not_200 (valves : Cloudflare.Valves) (body : dict)
  (url : string) (headers : list (string * string)) (payload : dict)
  (log : list request) (response : response) :
  Cloudflare.CLOUDFLARE_API_KEY valves <> ""%string ->
  Cloudflare.CLOUDFLARE_ACCOUNT_ID valves <> ""%string ->
  Cloudflare.prepare valves body = Ok (url, headers, payload) ->
  requests_post (mkRequest url headers payload false (Some 120%Z))
  = Ok response ->
  status_code response <> 200%Z ->
  fst (Cloudflare.pipe valves body log)
  = Returned (PStr ("Error: Cloudflare API returned status "
                    ++ py_str (PInt (status_code response)) ++ ": "
                    ++ text response)).
Proof.
  intros Hkey Haccount Hprepare Hpost Hstatus.
  rewrite (cloudflare_pipe_prepared valves body url headers payload log
             Hkey Haccount Hprepare).
  cbn [fst]. rewrite Hpost.
  destruct (Z.eqb_spec (status_code response) 200); [contradiction |].
  reflexivity.
Qed.

(** X11.  An exception of the call, or of reading the body of a [200]
    answer as JSON, becomes a text that depends on its class: a timeout
    gives a fixed text without the exception's own, any other exception of
    [requests] (a body that is no JSON included) gives ["Error: Failed to
    connect to Cloudflare Workers AI: "] and its text, anything else
    ["Error: "] and its text. *)
Theorem cloudflare_exceptions_become_text (valves : Cloudflare.Valves)
  (body : dict) (url : string) (headers : list (string * string))
  (payload : dict) (log : list request) (e : exn) :
  Cloudflare.CLOUDFLARE_API_KEY valves <> ""%string ->
  Cloudflare.CLOUDFLARE_ACCOUNT_ID valves <> ""%string ->
  Cloudflare.prepare valves body = Ok (url, headers, payload) ->
  requests_post (mkRequest url headers payload false (Some 120%Z)) = Raise e
  \/ (exists response,
        requests_post (mkRequest url headers payload false (Some 120%Z))
        = Ok response
        /\ status_code response = 200%Z
        /\ json response = Raise e) ->
  fst (Cloudflare.pipe valves body log)
  = Returned (PStr
      match exn_cls e with
      | Timeout => "Error: Request to Cloudflare Workers AI timed out."
      | ConnectionError | HTTPError | RequestsJSONDecodeError =>
          "Error: Failed to connect to Cloudflare Workers AI: " ++ exn_msg e
      | _ => "Error: " ++ exn_msg e
      end).
Proof.
  intros Hkey Haccount Hprepare Hfails.
  rewrite (cloudflare_pipe_prepared valves body url headers payload log
             Hkey Haccount Hprepare).
  cbn [fst].
  assert (Htext : Cloudflare.on_exception e
                  = PStr
                      match exn_cls e with
                      | Timeout =>
                          "Error: Request to Cloudflare Workers AI timed out."
                      | ConnectionError | HTTPError
                      | RequestsJSONDecodeError =>
                          "Error: Failed to connect to Cloudflare Workers AI: "
                          ++ exn_msg e
                      | _ => "Error: " ++ exn_msg e
                      end).
  { unfold Cloudflare.on_exception, is_Timeout, is_RequestException.
    destruct (exn_cls e); reflexivity. }
  destruct Hfails as [Hpost | [response [Hpost [Hstatus Hjson]]]];
    rewrite Hpost.
  - rewrite Htext. reflexivity.
  - rewrite Hstatus, Hjson. cbn. rewrite Htext. reflexivity.
Qed.

End CloudflarePipe.

Lemma missing_account_id_is_reported_witness :
  "token"%string <> ""%string
  /\ Cloudflare.pipe (RT := Reference.runtime)
       (TR := Inputs.cloudflare_transport)
       (Cloudflare.mkValves "token" "" Cloudflare.default_base_url)
       [("model", PNone)]%string []
     = (Returned (PStr
          "Error: Cloudflare Account ID is not set. Please configure it in the valve settings."),
        []).
Proof.
  split; [discriminate |].
  apply (missing_account_id_is_reported (RT := Reference.runtime)
           (TR := Inputs.cloudflare_transport)).
  discriminate.
Defined.

Lemma cloudflare_calls_once_and_returns_witness :
  Cloudflare.prepare (RT := Reference.runtime) Inputs.cloudflare_valves
    Inputs.cloudflare_plain_request
  = Ok (Inputs.llama_run_url, Inputs.token_headers, Inputs.plain_payload)
  /\ snd (Cloudflare.pipe (RT := Reference.runtime)
            (TR := Inputs.unreachable) Inputs.cloudflare_valves
            Inputs.cloudflare_plain_request [])
     = [] ++ [mkRequest Inputs.llama_run_url Inputs.token_headers
                Inputs.plain_payload false (Some 120%Z)]
  /\ exists v,
       fst (Cloudflare.pipe (RT := Reference.runtime)
              (TR := Inputs.unreachable) Inputs.cloudflare_valves
              Inputs.cloudflare_plain_request [])
       = Returned v.
Proof.
  split; [reflexivity |].
  apply (cloudflare_calls_once_and_returns (RT := Reference.runtime)
           (TR := Inputs.unreachable) Inputs.cloudflare_valves
           Inputs.cloudflare_plain_request Inputs.llama_run_url
           Inputs.token_headers Inputs.plain_payload []);
    [discriminate | discriminate | reflexivity].
Defined.

Lemma cloudflare_status_not_200_witness :
  status_code (Reference.error_response 201 "Created") <> 200%Z
  /\ fst (Cloudflare.pipe (RT := Reference.runtime)
            (TR := Reference.answering
                     (Reference.error_response 201 "Created"))
            Inputs.cloudflare_valves Inputs.cloudflare_plain_request [])
     = Returned (PStr "Error: Cloudflare API returned status 201: Created").
Proof.
  split; [discriminate |].
  apply (cloudflare_status_not_200 (RT := Reference.runtime)
           (TR := Reference.answering
                    (Reference.error_response 201 "Created"))
           Inputs.cloudflare_valves Inputs.cloudflare_plain_request
           Inputs.llama_run_url Inputs.token_headers Inputs.plain_payload []
           (Reference.error_response 201 "Created"));
    [discriminate | discriminate | reflexivity | reflexivity | discriminate].
Defined.

Lemma cloudflare_exceptions_become_text_witness :
  json (Reference.ok_response "<html>" [])
  = Raise (mkExn RequestsJSONDecodeError "Expecting value")
  /\ fst (Cloudflare.pipe (RT := Reference.runtime)
            (TR := Reference.answering (Reference.ok_response "<html>" []))
            Inputs.cloudflare_valves Inputs.cloudflare_plain_request [])
     = Returned (PStr
         "Error: Failed to connect to Cloudflare Workers AI: Expecting value").
Proof.
  split; [reflexivity |].
  apply (cloudflare_exceptions_become_text (RT := Reference.runtime)
           (TR := Reference.answering (Reference.ok_response "<html>" []))
           Inputs.cloudflare_valves Inputs.cloudflare_plain_request
           Inputs.llama_run_url Inputs.token_headers Inputs.plain_payload []
           (mkExn RequestsJSONDecodeError "Expecting value"));
    [discriminate | discriminate | reflexivity |].
  right. eexists. repeat split; reflexivity.
Defined.

(** ** Extracting the text of a complete Cloudflare response *)

Lemma other_type_is_no_match (item : dict) (wanted : string) :
  Py.lookup "type" item <> Some (PStr wanted) ->
  Py.eq_str (Py.dget item "type" PNone) wanted = false.
Proof.
  intros Hother. unfold Py.dget, Py.eq_str.
  destruct (Py.lookup "type" item) as [[| | | | s | |] |]; try reflexivity.
  destruct (String.eqb_spec s wanted) as [-> | _]; [| reflexivity].
  exfalso. apply Hother. reflexivity.
Qed.

Lemma find_output_text_skips (skipped : list pyval) (rest : list pyval) :
  Forall (fun x => forall it,
            x = PDict it -> Py.lookup "type" it <> Some (PStr "output_text"))
         skipped ->
  Cloudflare.find_output_text (skipped ++ rest)
  = Cloudflare.find_output_text rest.
Proof.
  induction 1 as [| x skipped Hx _ IH]; [reflexivity |].
  cbn [app Cloudflare.find_output_text].
  destruct x as [| | | | | | it]; try exact IH.
  rewrite (other_type_is_no_match it "output_text" (Hx it eq_refl)).
  exact IH.
Qed.

Lemma find_message_text_skips (skipped : list pyval) (rest : list pyval) :
  Forall (fun x => forall it,
            x = PDict it -> Py.lookup "type" it <> Some (PStr "message"))
         skipped ->
  Cloudflare.find_message_text (skipped ++ rest)
  = Cloudflare.find_message_text rest.
Proof.
  induction 1 as [| x skipped Hx _ IH]; [reflexivity |].
  cbn [app Cloudflare.find_message_text].
  destruct x as [| | | | | | it]; try exact IH.
  rewrite (other_type_is_no_match it "message" (Hx it eq_refl)).
  exact IH.
Qed.

Section Extraction.

Context {RT : PyRuntime}.

(** X12.  For a body with an [output] array (no [response] field, with or
    without [result] envelope) the extraction passes over the items that
    are no object of type ["message"] (reasoning and tool-call items), and
    within the first message over the parts that are no object of type
    ["output_text"]; it returns the [text] of the first such part, the
    empty text when the part has none. *)
Theorem output_array_is_scanned (d working : dict)
  (skipped rest parts_skipped parts_rest : list pyval) (item part : dict) :
  (Py.lookup "result" d = None /\ working = d)
  \/ Py.lookup "result" d = Some (PDict working) ->
  Py.lookup "response" working = None ->
  Py.lookup "output" working = Some (PList (skipped ++ PDict item :: rest)) ->
  Forall (fun x => forall it,
            x = PDict it -> Py.lookup "type" it <> Some (PStr "message"))
         skipped ->
  Py.lookup "type" item = Some (PStr "message") ->
  Py.lookup "content" item
  = Some (PList (parts_skipped ++ PDict part :: parts_rest)) ->
  Forall (fun x => forall it,
            x = PDict it -> Py.lookup "type" it <> Some (PStr "output_text"))
         parts_skipped ->
  Py.lookup "type" part = Some (PStr "output_text") ->
  Cloudflare.extract (PDict d) = Ok (Py.dget part "text" (PStr "")).
Proof.
  intros Hworking Hresponse Houtput Hskipped Htype Hcontent Hparts Hpart.
  assert (Hdata : Py.get (PDict d) "result" (PDict d) = Ok (PDict working)).
  { unfold Py.get. destruct Hworking as [[Hnone ->] | Hsome];
      [rewrite Hnone | rewrite Hsome]; reflexivity. }
  unfold Cloudflare.extract. rewrite Hdata. cbn [bind].
  unfold Py.has_key, Py.dget. rewrite Hresponse, Houtput.
  rewrite (find_message_text_skips skipped _ Hskipped).
  cbn [Cloudflare.find_message_text]. unfold Py.dget.
  rewrite Htype, Hcontent. cbn [Py.eq_str String.eqb].
  assert (Hfound : Cloudflare.find_output_text
                     (parts_skipped ++ PDict part :: parts_rest)
                   = Some (Py.dget part "text" (PStr ""))).
  { rewrite (find_output_text_skips parts_skipped _ Hparts).
    cbn [Cloudflare.find_output_text]. unfold Py.dget at 1.
    rewrite Hpart. reflexivity. }
  replace (String.eqb "message" "message") with true by reflexivity.
  rewrite Hfound. reflexivity.
Qed.


End Extraction.

Lemma output_array_is_scanned_witness :
  Reference.loads Inputs.responses_json = Some (PDict Inputs.responses_body)
  /\ Cloudflare.extract (RT := Reference.runtime)
       (PDict Inputs.responses_body)
     = Ok (PStr "4").
Proof.
  split; [reflexivity |].
  apply (output_array_is_scanned (RT := Reference.runtime)
           Inputs.responses_body Inputs.responses_body
           [PDict [("type", PStr "reasoning"); ("summary", PList [])]]%string
           []
           [PDict [("type", PStr "refusal")]]%string
           []
           [("type", PStr "message");
            ("content",
             PList [PDict [("type", PStr "refusal")];
                    PDict [("type", PStr "output_text");
                           ("text", PStr "4")]])]%string
           [("type", PStr "output_text"); ("text", PStr "4")]%string).
  - left. split; reflexivity.
  - reflexivity.
  - reflexivity.
  - repeat constructor. intros it Heq. injection Heq as <-. discriminate.
  - reflexivity.
  - reflexivity.
  - repeat constructor. intros it Heq. injection Heq as <-. discriminate.
  - reflexivity.
Defined.


(** ** More on the streaming decoders *)

Section StreamEdges.

Context {RT : PyRuntime}.

(** X14.  Both decoders pass over every line that does not start with
    ["data: "] (blank lines, comments, [event:] and [id:] fields, and a
    [data:] field without the space): removing such lines from the stream
    changes neither the fragments nor the way the run ends. *)
Theorem other_lines_do_not_count (lines : list line_event) :
  let counts ev :=
    match ev with
    | Line l => Text.startswith l "data: "
    | _ => true
    end in
  for_lines OpenAI.handle_line (filter counts lines)
  = for_lines OpenAI.handle_line lines
  /\ for_lines Cloudflare.handle_line (filter counts lines)
     = for_lines Cloudflare.handle_line lines.
Proof.
  intros counts. induction lines as [| ev lines [IHo IHc]].
  - split; reflexivity.
  - cbn [filter]. destruct (counts ev) eqn:Hcounts.
    + cbn [for_lines]. rewrite IHo, IHc. split; reflexivity.
    + destruct ev as [l | msg | e]; try discriminate Hcounts.
      cbn in Hcounts. destruct (other_line_is_ignored l Hcounts) as [Ho Hc].
      rewrite (for_lines_next _ _ [] lines Ho),
              (for_lines_next _ _ [] lines Hc).
      cbn [app]. rewrite !run_eta. split; assumption.
Qed.

(** X15.  An event without [choices], or with an empty [choices] list (the
    closing events that carry only usage or a finish reason), makes the
    loop of [_handle_stream] yield nothing and go on with the next line. *)
Theorem event_without_choices_is_skipped (payload : string) (d : dict)
  (rest : list line_event) :
  Text.strip payload <> "[DONE]"%string ->
  json_loads payload = Some (PDict d) ->
  Py.lookup "choices" d = None \/ Py.lookup "choices" d = Some (PList []) ->
  for_lines OpenAI.handle_line (Line ("data: " ++ payload) :: rest)
  = for_lines OpenAI.handle_line rest.
Proof.
  intros Hdone Hloads Hchoices.
  rewrite (for_lines_next _ _ [] rest); [apply run_eta |].
  rewrite openai_data_line, Hloads.
  destruct (String.eqb_spec (Text.strip payload) "[DONE]"); [contradiction |].
  unfold OpenAI.delta_content, OpenAI.has_choices.
  cbn [Py.contains Py.getitem]. unfold Py.has_key.
  destruct Hchoices as [Hchoices | Hchoices]; rewrite Hchoices; reflexivity.
Qed.

(** X16.  A [data: ] line whose payload is JSON but no container ([null],
    a boolean, a number) ends both decoders, since the membership tests on
    it raise [TypeError]: out of the loop of [_handle_stream] the exception
    goes on to the host, while [stream_response] of the Cloudflare pipe
    yields one notice and stops; the lines after it are not read. *)
Theorem scalar_event_ends_the_stream (payload : string) (v : pyval)
  (rest : list line_event) (code : Z) (why raw : string)
  (parsed : result pyval) :
  Text.strip payload <> "[DONE]"%string ->
  json_loads payload = Some v ->
  v = PNone \/ (exists b, v = PBool b) \/ (exists z, v = PInt z)
  \/ (exists f, v = PFloat f) ->
  exists e,
    exn_cls e = TypeError
    /\ for_lines OpenAI.handle_line (Line ("data: " ++ payload) :: rest)
       = mkRun [] (Some e)
    /\ Cloudflare.stream_response
         (mkResponse code why raw parsed (Line ("data: " ++ payload) :: rest))
       = mkRun
           [PStr (Text.nl ++ Text.nl ++ "Error during streaming: "
                  ++ exn_msg e)]
           None.
Proof.
  intros Hdone Hloads Hscalar.
  assert (Hplain : payload <> "[DONE]"%string)
    by (apply strip_not_done; exact Hdone).
  unfold Cloudflare.stream_response. cbn [iter_lines for_lines].
  rewrite openai_data_line, cloudflare_data_line, Hloads.
  destruct (String.eqb_spec (Text.strip payload) "[DONE]"); [contradiction |].
  destruct (String.eqb_spec payload "[DONE]"); [contradiction |].
  exists (Py.type_error
            ("argument of type '" ++ Py.type_name v ++ "' is not iterable")).
  destruct Hscalar as [-> | [[b ->] | [[z ->] | [f ->]]]];
    (split; [| split]); reflexivity.
Qed.

Lemma for_lines_through (handle : line_event -> list pyval * step)
  (pre rest : list line_event) :
  Forall (fun ev => snd (handle ev) = Next) pre ->
  for_lines handle (pre ++ rest)
  = mkRun (yielded (for_lines handle pre) ++ yielded (for_lines handle rest))
          (raised (for_lines handle rest)).
Proof.
  induction 1 as [| ev pre Hev _ IH]; cbn [app for_lines].
  - cbn [yielded app]. symmetry. apply run_eta.
  - destruct (handle ev) as [out st]. cbn [snd] in Hev. subst st.
    rewrite IH. cbn [yielded raised]. rewrite app_assoc. reflexivity.
Qed.

(** X17.  [stream_response] of the Cloudflare pipe never lets an exception
    out.  When its loop ends regularly the run is the run of the loop; when
    the loop is left by an exception everything yielded before is kept and
    one more fragment follows, two line feeds, ["Error during streaming: "]
    and the text of the exception.  So after lines that were decoded in
    full, a failure of the transport while reading or a line that is no
    UTF-8 ends the sequence with the fragments of those lines and the
    notice, and the lines after it are not read. *)
Theorem stream_response_contains_errors :
  (forall response,
      raised (Cloudflare.stream_response response) = None
      /\ (raised (for_lines Cloudflare.handle_line (iter_lines response))
          = None ->
          Cloudflare.stream_response response
          = for_lines Cloudflare.handle_line (iter_lines response))
      /\ (forall e,
             raised (for_lines Cloudflare.handle_line (iter_lines response))
             = Some e ->
             yielded (Cloudflare.stream_response response)
             = yielded (for_lines Cloudflare.handle_line
                          (iter_lines response))
               ++ [PStr (Text.nl ++ Text.nl ++ "Error during streaming: "
                         ++ exn_msg e)]))
  /\ (forall code why raw parsed pre failing post e,
         Forall (fun ev => snd (Cloudflare.handle_line ev) = Next) pre ->
         failing = ReadError e
         \/ (exn_cls e = UnicodeDecodeError
             /\ failing = Undecodable (exn_msg e)) ->
         Cloudflare.stream_response
           (mkResponse code why raw parsed (pre ++ failing :: post))
         = mkRun
             (yielded (for_lines Cloudflare.handle_line pre)
              ++ [PStr (Text.nl ++ Text.nl ++ "Error during streaming: "
                        ++ exn_msg e)])
             None).
Proof.
  split.
  - intros response. unfold Cloudflare.stream_response.
    destruct (raised (for_lines Cloudflare.handle_line (iter_lines response)))
      as [e |] eqn:Hraised.
    + split; [reflexivity |]. split; [discriminate |].
      intros e' Heq. injection Heq as <-. reflexivity.
    + split; [exact Hraised |]. split; [reflexivity | discriminate].
  - intros code why raw parsed pre failing post e Hpre Hfailing.
    unfold Cloudflare.stream_response. cbn [iter_lines].
    rewrite (for_lines_through _ pre (failing :: post) Hpre).
    destruct Hfailing as [-> | [Hcls ->]]; cbn [for_lines
      Cloudflare.handle_line raised yielded]; rewrite app_nil_r;
      reflexivity.
Qed.

(** X18.  In [stream_response] a top-level [response] field decides alone:
    its value is the one fragment of the event, the empty text included,
    and [result], [choices] and [content] are not looked at.  Without
    [response], a [result] field decides alone: a text is yielded, from an
    object its [response] field when it has one, and nothing otherwise,
    again whatever [choices] and [content] hold. *)
Theorem response_and_result_come_first (d : dict) :
  (forall v,
      Py.lookup "response" d = Some v ->
      Cloudflare.event_content (PDict d) = ([v], Ok tt))
  /\ (forall envelope,
         Py.lookup "response" d = None ->
         Py.lookup "result" d = Some envelope ->
         Cloudflare.event_content (PDict d)
         = (match envelope with
            | PStr _ => [envelope]
            | PDict r =>
                match Py.lookup "response" r with
                | Some v => [v]
                | None => []
                end
            | _ => []
            end, Ok tt)).
Proof.
  split.
  - intros v Hresponse. unfold Cloudflare.event_content.
    cbn [Py.contains Py.getitem]. unfold Py.has_key. rewrite Hresponse.
    reflexivity.
  - intros envelope Hresponse Hresult. unfold Cloudflare.event_content.
    cbn [Py.contains Py.getitem]. unfold Py.has_key.
    rewrite Hresponse, Hresult, !gbind_lift_ok.
    destruct envelope as [| | | | s | l | r]; try reflexivity.
    cbn [Py.getitem].
    destruct (Py.lookup "response" r); reflexivity.
Qed.

End StreamEdges.

Lemma event_without_choices_is_skipped_witness :
  Text.strip Inputs.usage_json <> "[DONE]"%string
  /\ Reference.loads Inputs.usage_json
     = Some (PDict [("choices", PList []);
                    ("usage", PDict [("total_tokens", PInt 7)])])
  /\ for_lines (OpenAI.handle_line (RT := Reference.runtime))
       (Line ("data: " ++ Inputs.usage_json)
        :: [Inputs.data_line (Inputs.delta_json "Hi")])
     = for_lines (OpenAI.handle_line (RT := Reference.runtime))
         [Inputs.data_line (Inputs.delta_json "Hi")].
Proof.
  assert (Hdone : Text.strip Inputs.usage_json <> "[DONE]"%string)
    by (vm_compute; discriminate).
  split; [exact Hdone |]. split; [reflexivity |].
  apply (event_without_choices_is_skipped (RT := Reference.runtime)
           Inputs.usage_json
           [("choices", PList []);
            ("usage", PDict [("total_tokens", PInt 7)])]%string
           [Inputs.data_line (Inputs.delta_json "Hi")] Hdone eq_refl).
  right. reflexivity.
Defined.

Lemma scalar_event_ends_the_stream_witness :
  Reference.loads "null" = Some PNone
  /\ exists e,
       exn_cls e = TypeError
       /\ for_lines (OpenAI.handle_line (RT := Reference.runtime))
            (Line ("data: " ++ "null")
             :: [Inputs.data_line (Inputs.delta_json "Hi")])
          = mkRun [] (Some e)
       /\ Cloudflare.stream_response (RT := Reference.runtime)
            (mkResponse 200 "OK" "" (Ok PNone)
               (Line ("data: " ++ "null")
                :: [Inputs.data_line (Inputs.delta_json "Hi")]))
          = mkRun
              [PStr (Text.nl ++ Text.nl ++ "Error during streaming: "
                     ++ exn_msg e)]
              None.
Proof.
  split; [reflexivity |].
  apply (scalar_event_ends_the_stream (RT := Reference.runtime)
           "null" PNone [Inputs.data_line (Inputs.delta_json "Hi")]
           200%Z "OK"%string ""%string (Ok PNone)).
  - vm_compute. discriminate.
  - reflexivity.
  - left. reflexivity.
Defined.

Lemma stream_response_contains_errors_witness :
  Forall (fun ev =>
            snd (Cloudflare.handle_line (RT := Reference.runtime) ev) = Next)
         [Inputs.data_line (Inputs.response_json "Hi")]
  /\ raised (for_lines (Cloudflare.handle_line (RT := Reference.runtime))
               [Inputs.data_line (Inputs.response_json "Hi");
                Undecodable "invalid start byte"])
     = Some (mkExn UnicodeDecodeError "invalid start byte")
  /\ Cloudflare.stream_response (RT := Reference.runtime)
       (mkResponse 200 "OK" "" (Ok PNone)
          ([Inputs.data_line (Inputs.response_json "Hi")]
           ++ Undecodable "invalid start byte"
           :: [Inputs.data_line (Inputs.response_json "late")]))
     = mkRun
         ([PStr "Hi"]
          ++ [PStr (Text.nl ++ Text.nl ++ "Error during streaming: "
                    ++ "invalid start byte")])
         None.
Proof.
  assert (Hpre : Forall
                   (fun ev =>
                      snd (Cloudflare.handle_line (RT := Reference.runtime) ev)
                      = Next)
                   [Inputs.data_line (Inputs.response_json "Hi")]).
  { apply Forall_cons; [reflexivity | apply Forall_nil]. }
  split; [exact Hpre |]. split; [reflexivity |].
  apply (proj2 (stream_response_contains_errors (RT := Reference.runtime))
           200%Z "OK"%string ""%string (Ok PNone)
           [Inputs.data_line (Inputs.response_json "Hi")]
           (Undecodable "invalid start byte")
           [Inputs.data_line (Inputs.response_json "late")]
           (mkExn UnicodeDecodeError "invalid start byte") Hpre).
  right. split; reflexivity.
Defined.

Lemma response_and_result_come_first_witness :
  Py.lookup "response" Inputs.crowded_event = Some (PStr "")
  /\ Cloudflare.event_content (PDict Inputs.crowded_event)
     = ([PStr ""], Ok tt)
  /\ Cloudflare.event_content (PDict (tl Inputs.crowded_event))
     = ([], Ok tt).
Proof.
  split; [reflexivity |]. split.
  - apply (proj1 (response_and_result_come_first Inputs.crowded_event)
             (PStr "") eq_refl).
  - apply (proj2 (response_and_result_come_first (tl Inputs.crowded_event))
             (PDict [("status", PStr "ok")]%string) eq_refl eq_refl).
Defined.

(** ** An OpenAI-style pipe from configuration to result *)

Section OpenAIPipe.

Context {RT : PyRuntime} {TR : Transport}.

(** X19.  With the key set and the payload built, an OpenAI-style pipe
    makes exactly one network call per invocation, to
    [<base>/chat/completions] with the key as bearer token and the payload
    as JSON body.  Without streaming the call is made inside [pipe] and a
    value comes back; with streaming [pipe] comes back with a generator
    and without having called, and the one call, with [stream=True], is
    made when the host runs the generator. *)
Theorem openai_calls_once (p : OpenAI.provider) (valves : OpenAI.Valves)
  (body payload : dict) (log : list request) :
  OpenAI.API_KEY valves <> ""%string ->
  OpenAI.build_payload p body = Ok payload ->
  let url := (OpenAI.API_BASE_URL valves ++ "/chat/completions")%string in
  let headers :=
    [("Authorization", ("Bearer " ++ OpenAI.API_KEY valves)%string);
     ("Content-Type", "application/json"%string)] in
  if Py.truthy (Py.dget body "stream" (PBool false)) then
    exists g,
      OpenAI.pipe p valves body log = (Generator g, log)
      /\ forall log',
           snd (g log') = log' ++ [mkRequest url headers payload true None]
  else
    snd (OpenAI.pipe p valves body log)
    = log ++ [mkRequest url headers payload false None]
    /\ exists v, fst (OpenAI.pipe p valves body log) = Returned v.
Proof.
  intros Hkey Hpayload url headers. unfold OpenAI.pipe.
  destruct (String.eqb_spec (OpenAI.API_KEY valves) ""); [contradiction |].
  rewrite Hpayload.
  destruct (Py.truthy (Py.dget body "stream" (PBool false))).
  - eexists. split; [reflexivity |]. intros log'. reflexivity.
  - split; [reflexivity |]. cbn.
    destruct (bind _ _); eexists; reflexivity.
Qed.

Lemma openai_plain_outcome (p : OpenAI.provider) (valves : OpenAI.Valves)
  (body payload : dict) (log : list request) :
  OpenAI.API_KEY valves <> ""%string ->
  OpenAI.build_payload p body = Ok payload ->
  Py.truthy (Py.dget body "stream" (PBool false)) = false ->
  fst (OpenAI.pipe p valves body log)
  = match
      (response <-
         requests_post
           (mkRequest (OpenAI.API_BASE_URL valves ++ "/chat/completions")
              [("Authorization", ("Bearer " ++ OpenAI.API_KEY valves)%string);
               ("Content-Type", "application/json"%string)]
              payload false None) ;;
       _ <- raise_for_status
              (OpenAI.API_BASE_URL valves ++ "/chat/completions") response ;;
       data <- json response ;;
       OpenAI.message_content p data)%py
    with
    | Ok v => Returned v
    | Raise e => Returned (OpenAI.on_exception p e)
    end.
Proof.
  intros Hkey Hpayload Hstream. unfold OpenAI.pipe.
  destruct (String.eqb_spec (OpenAI.API_KEY valves) ""); [contradiction |].
  rewrite Hpayload, Hstream. cbn.
  destruct (bind _ _); reflexivity.
Qed.

(** X20.  Without streaming, an answer with an error status (400 to 599)
    is returned by an OpenAI-style pipe as a text that speaks of a failed
    connection: ["Error: Failed to connect to <API> API - "] and the text
    of the [HTTPError] that [raise_for_status] raises.  The body of the
    answer is not read. *)
Theorem openai_error_status_is_text (p : OpenAI.provider)
  (valves : OpenAI.Valves) (body payload : dict) (log : list request)
  (response : response) :
  OpenAI.API_KEY valves <> ""%string ->
  OpenAI.build_payload p body = Ok payload ->
  Py.truthy (Py.dget body "stream" (PBool false)) = false ->
  requests_post
    (mkRequest (OpenAI.API_BASE_URL valves ++ "/chat/completions")
       [("Authorization", ("Bearer " ++ OpenAI.API_KEY valves)%string);
        ("Content-Type", "application/json"%string)]
       payload false None)
  = Ok response ->
  (400 <= status_code response < 600)%Z ->
  exists e,
    raise_for_status (OpenAI.API_BASE_URL valves ++ "/chat/completions")
      response = Raise e
    /\ exn_cls e = HTTPError
    /\ fst (OpenAI.pipe p valves body log)
       = Returned (PStr ("Error: Failed to connect to " ++ OpenAI.api_name p
                         ++ " API - " ++ exn_msg e)).
Proof.
  intros Hkey Hpayload Hstream Hpost Hstatus.
  rewrite (openai_plain_outcome p valves body payload log Hkey Hpayload
             Hstream).
  rewrite Hpost. cbn [bind]. unfold raise_for_status.
  destruct (Z.leb_spec 400 (status_code response)); [| lia].
  destruct (Z.ltb_spec (status_code response) 500); cbn [andb bind].
  - eexists. repeat split; reflexivity.
  - destruct (Z.leb_spec 500 (status_code response)); [| lia].
    destruct (Z.ltb_spec (status_code response) 600); [| lia].
    eexists. repeat split; reflexivity.
Qed.

(** X21.  Without streaming, a good answer whose JSON object has no
    [choices] or an empty [choices] list is returned as the text
    ["Error: No response from <API> API"]; an answer whose first element
    of [choices] lacks the [message] is returned as ["Error: 'message'"],
    the text of the [KeyError]. *)
Theorem openai_answer_without_text (p : OpenAI.provider)
  (valves : OpenAI.Valves) (body payload : dict) (log : list request)
  (response : response) (d : dict) :
  OpenAI.API_KEY valves <> ""%string ->
  OpenAI.build_payload p body = Ok payload ->
  Py.truthy (Py.dget body "stream" (PBool false)) = false ->
  requests_post
    (mkRequest (OpenAI.API_BASE_URL valves ++ "/chat/completions")
       [("Authorization", ("Bearer " ++ OpenAI.API_KEY valves)%string);
        ("Content-Type", "application/json"%string)]
       payload false None)
  = Ok response ->
  (status_code response < 400 \/ 600 <= status_code response)%Z ->
  json response = Ok (PDict d) ->
  (Py.lookup "choices" d = None \/ Py.lookup "choices" d = Some (PList []) ->
   fst (OpenAI.pipe p valves body log)
   = Returned (PStr ("Error: No response from " ++ OpenAI.api_name p
                     ++ " API")))
  /\ (forall first rest,
         Py.lookup "choices" d = Some (PList (PDict first :: rest)) ->
         Py.lookup "message" first = None ->
         fst (OpenAI.pipe p valves body log)
         = Returned (PStr "Error: 'message'")).
Proof.
  intros Hkey Hpayload Hstream Hpost Hstatus Hjson.
  rewrite (openai_plain_outcome p valves body payload log Hkey Hpayload
             Hstream).
  rewrite Hpost. cbn [bind].
  assert (Hgood : raise_for_status
                    (OpenAI.API_BASE_URL valves ++ "/chat/completions")
                    response = Ok tt).
  { unfold raise_for_status.
    destruct (Z.leb_spec 400 (status_code response));
      destruct (Z.ltb_spec (status_code response) 500);
      destruct (Z.leb_spec 500 (status_code response));
      destruct (Z.ltb_spec (status_code response) 600);
      try reflexivity; lia. }
  rewrite Hgood. cbn [bind]. rewrite Hjson. cbn [bind]. split.
  - intros Hchoices. unfold OpenAI.message_content, OpenAI.has_choices.
    cbn [Py.contains Py.getitem]. unfold Py.has_key.
    destruct Hchoices as [Hchoices | Hchoices]; rewrite Hchoices; reflexivity.
  - intros first rest Hchoices Hmessage. unfold OpenAI.message_content.
    rewrite (has_choices_first d _ rest Hchoices).
    cbn [bind Py.getitem]. rewrite Hchoices.
    cbn [bind Py.getitem0 Py.getitem]. rewrite Hmessage. reflexivity.
Qed.

End OpenAIPipe.

Lemma openai_calls_once_witness :
  OpenAI.build_payload OpenAI.DeepSeek Inputs.streaming_request
  = Ok Inputs.streaming_payload
  /\ exists g,
       OpenAI.pipe (RT := Reference.runtime) (TR := Inputs.completion_transport)
         OpenAI.DeepSeek (Inputs.openai_valves OpenAI.DeepSeek)
         Inputs.streaming_request []
       = (Generator g, [])
       /\ forall log',
            snd (g log')
            = log' ++ [mkRequest
                         "https://api.deepseek.com/v1/chat/completions"
                         Inputs.bearer_key Inputs.streaming_payload
                         true None].
Proof.
  split; [reflexivity |].
  apply (openai_calls_once (RT := Reference.runtime)
           (TR := Inputs.completion_transport) OpenAI.DeepSeek
           (Inputs.openai_valves OpenAI.DeepSeek) Inputs.streaming_request
           Inputs.streaming_payload []);
    [discriminate | reflexivity].
Defined.

Lemma openai_error_status_is_text_witness :
  (400 <= status_code (Reference.error_response 401 "Unauthorized") < 600)%Z
  /\ fst (OpenAI.pipe (RT := Reference.runtime) (TR := Inputs.unauthorized)
            OpenAI.DeepSeek (Inputs.openai_valves OpenAI.DeepSeek)
            Inputs.plain_request [])
     = Returned (PStr
         "Error: Failed to connect to DeepSeek API - 401 Client Error: Unauthorized for url: https://api.deepseek.com/v1/chat/completions")
  /\ exists e,
       raise_for_status (RT := Reference.runtime)
         "https://api.deepseek.com/v1/chat/completions"
         (Reference.error_response 401 "Unauthorized") = Raise e
       /\ exn_cls e = HTTPError
       /\ fst (OpenAI.pipe (RT := Reference.runtime)
                 (TR := Inputs.unauthorized)
                 OpenAI.DeepSeek (Inputs.openai_valves OpenAI.DeepSeek)
                 Inputs.plain_request [])
          = Returned (PStr ("Error: Failed to connect to DeepSeek API - "
                            ++ exn_msg e)).
Proof.
  assert (Hstatus : (400 <= status_code
                               (Reference.error_response 401 "Unauthorized")
                     < 600)%Z) by (cbn; lia).
  split; [exact Hstatus |]. split; [reflexivity |].
  apply (openai_error_status_is_text (RT := Reference.runtime)
           (TR := Inputs.unauthorized) OpenAI.DeepSeek
           (Inputs.openai_valves OpenAI.DeepSeek) Inputs.plain_request
           Inputs.plain_payload_openai []
           (Reference.error_response 401 "Unauthorized"));
    [discriminate | reflexivity | reflexivity | reflexivity | exact Hstatus].
Defined.

Lemma openai_answer_without_text_witness :
  json (Reference.ok_response Inputs.usage_json [])
  = Ok (PDict [("choices", PList []);
               ("usage", PDict [("total_tokens", PInt 7)])])
  /\ fst (OpenAI.pipe (RT := Reference.runtime)
            (TR := Reference.answering
                     (Reference.ok_response Inputs.usage_json []))
            OpenAI.Mistral (Inputs.openai_valves OpenAI.Mistral)
            Inputs.plain_request [])
     = Returned (PStr "Error: No response from Mistral API").
Proof.
  split; [reflexivity |].
  apply (proj1 (openai_answer_without_text (RT := Reference.runtime)
                  (TR := Reference.answering
                           (Reference.ok_response Inputs.usage_json []))
                  OpenAI.Mistral (Inputs.openai_valves OpenAI.Mistral)
                  Inputs.plain_request Inputs.plain_payload_openai []
                  (Reference.ok_response Inputs.usage_json [])
                  [("choices", PList []);
                   ("usage", PDict [("total_tokens", PInt 7)])]%string
                  ltac:(discriminate) eq_refl eq_refl eq_refl
                  (or_introl eq_refl) eq_refl)).
  right. reflexivity.
Defined.

(** ** Requests that cannot raise, and requests that do *)

Lemma input_part_of_dict (d : dict) {RT : PyRuntime} :
  (Py.lookup "content" d = None
   \/ exists c, Py.lookup "content" d = Some (PStr c)) ->
  exists s, Cloudflare.input_part (PDict d) = Ok (PStr s).
Proof.
  intros Hcontent. unfold Cloudflare.input_part. cbn [Py.get].
  destruct (Py.lookup "role" d) as [role |]; cbn [bind];
    destruct Hcontent as [-> | [c ->]]; cbn [bind];
    repeat match goal with
           | |- context [if ?b then _ else _] => destruct b
           end;
    eexists; reflexivity.
Qed.

Lemma input_parts_of_dicts {RT : PyRuntime} (ds : list dict) :
  Forall (fun d => Py.lookup "content" d = None
                   \/ exists c, Py.lookup "content" d = Some (PStr c)) ds ->
  exists texts,
    Cloudflare.map_result Cloudflare.input_part (map PDict ds)
    = Ok (map PStr texts).
Proof.
  induction 1 as [| d ds Hd _ [texts IH]].
  - exists []. reflexivity.
  - destruct (input_part_of_dict d Hd) as [s Hs].
    exists (s :: texts). cbn [map Cloudflare.map_result].
    rewrite Hs. cbn [bind]. rewrite IH. reflexivity.
Qed.

Lemma as_text_of_texts (texts : list string) :
  Cloudflare.map_result Cloudflare.as_text (map PStr texts) = Ok texts.
Proof.
  induction texts as [| s texts IH]; cbn [map Cloudflare.map_result].
  - reflexivity.
  - cbn [Cloudflare.as_text bind]. rewrite IH. reflexivity.
Qed.

Lemma messages_to_input_of_dicts {RT : PyRuntime} (ds : list dict) :
  Forall (fun d => Py.lookup "content" d = None
                   \/ exists c, Py.lookup "content" d = Some (PStr c)) ds ->
  exists s, Cloudflare.messages_to_input (PList (map PDict ds)) = Ok (PStr s).
Proof.
  intros Hds. destruct ds as [| d [| d' ds]].
  - exists ""%string. reflexivity.
  - unfold Cloudflare.messages_to_input. cbn.
    apply Forall_inv in Hds. destruct Hds as [-> | [c ->]];
      eexists; reflexivity.
  - destruct (input_parts_of_dicts _ Hds) as [texts Htexts].
    unfold Cloudflare.messages_to_input.
    cbn [map Py.truthy negb Py.len bind List.length Nat.eqb Py.iter].
    change (PDict d :: PDict d' :: map PDict ds)
      with (map PDict (d :: d' :: ds)).
    rewrite Htexts. cbn [bind]. rewrite as_text_of_texts.
    eexists. reflexivity.
Qed.

Lemma input_part_of_other {RT : PyRuntime} (x : pyval) :
  (forall d, x <> PDict d) ->
  Cloudflare.input_part x = Raise (Py.no_attribute x "get").
Proof.
  intros Hother. destruct x as [| | | | | | d]; try reflexivity.
  exfalso. apply (Hother d). reflexivity.
Qed.

Lemma input_part_of_any_dict {RT : PyRuntime} (d : dict) :
  exists v, Cloudflare.input_part (PDict d) = Ok v.
Proof.
  unfold Cloudflare.input_part. cbn [Py.get].
  destruct (Py.lookup "role" d); destruct (Py.lookup "content" d);
    cbn [bind];
    repeat match goal with
           | |- context [if ?b then _ else _] => destruct b
           end;
    eexists; reflexivity.
Qed.

Lemma input_parts_with_other {RT : PyRuntime} (ms : list pyval) (x : pyval) :
  In x ms ->
  (forall d, x <> PDict d) ->
  exists e,
    Cloudflare.map_result Cloudflare.input_part ms = Raise e
    /\ exn_cls e = AttributeError.
Proof.
  intros Hin Hother. induction ms as [| m ms IH]; [destruct Hin |].
  cbn [Cloudflare.map_result].
  destruct m as [| | | | | | d];
    try (eexists; split; reflexivity).
  destruct (input_part_of_any_dict d) as [v Hv]. rewrite Hv. cbn [bind].
  destruct Hin as [Heq | Hin].
  - exfalso. apply (Hother d). symmetry. exact Heq.
  - destruct (IH Hin) as [e [He Hcls]]. rewrite He.
    exists e. split; [reflexivity | exact Hcls].
Qed.

Section Flattening2.

Context {RT : PyRuntime}.

(** X22.  [messages_to_input] returns a text for every list of message
    objects whose [content] is a text or missing, whatever their roles and
    other fields; and it raises [AttributeError] for every list that holds
    something that is no object. *)
Theorem messages_to_input_domain :
  (forall ds : list dict,
      Forall (fun d => Py.lookup "content" d = None
                       \/ exists c, Py.lookup "content" d = Some (PStr c))
             ds ->
      exists s,
        Cloudflare.messages_to_input (PList (map PDict ds)) = Ok (PStr s))
  /\ (forall ms x,
         In x ms ->
         (forall d, x <> PDict d) ->
         exists e,
           Cloudflare.messages_to_input (PList ms) = Raise e
           /\ exn_cls e = AttributeError).
Proof.
  split; [exact messages_to_input_of_dicts |].
  intros ms x Hin Hother. destruct ms as [| m [| m' ms]].
  - destruct Hin.
  - destruct Hin as [<- | []].
    unfold Cloudflare.messages_to_input. cbn.
    destruct m as [| | | | [| c s] | | d];
      try (eexists; split; reflexivity).
    exfalso. apply (Hother d). reflexivity.
  - destruct (input_parts_with_other (m :: m' :: ms) x Hin Hother)
      as [e [He Hcls]].
    exists e. split; [| exact Hcls].
    unfold Cloudflare.messages_to_input.
    cbn [Py.truthy negb Py.len bind List.length Nat.eqb Py.iter].
    rewrite He. reflexivity.
Qed.

End Flattening2.

Lemma messages_to_input_domain_witness :
  (exists s,
      Cloudflare.messages_to_input (RT := Reference.runtime)
        (PList (map PDict
                  [[("role", PStr "tool"); ("content", PStr "42")];
                   [("name", PStr "nobody")];
                   [("role", PInt 7); ("content", PStr "ok")]]%string))
      = Ok (PStr s))
  /\ (exists e,
         Cloudflare.messages_to_input (RT := Reference.runtime)
           (PList [PDict [("role", PStr "user"); ("content", PStr "hi")];
                   PStr "hello"]%string)
         = Raise e
         /\ exn_cls e = AttributeError).
Proof.
  split.
  - apply (proj1 (messages_to_input_domain (RT := Reference.runtime))).
    apply Forall_cons; [right; eexists; reflexivity |].
    apply Forall_cons; [left; reflexivity |].
    apply Forall_cons; [right; eexists; reflexivity |].
    apply Forall_nil.
  - apply (proj2 (messages_to_input_domain (RT := Reference.runtime))
             _ (PStr "hello")).
    + right. left. reflexivity.
    + discriminate.
Defined.

Lemma strip_pipe_prefix_of_text (s : string) :
  exists t, Cloudflare.strip_pipe_prefix (PStr s) = Ok (PStr t).
Proof.
  unfold Cloudflare.strip_pipe_prefix. cbn [Py.contains bind].
  destruct (Text.contains "." s) eqn:Hdot.
  - destruct (dot_has_suffix s Hdot) as [t Ht]. exists t.
    cbn [Cloudflare.split_suffix]. rewrite Ht. reflexivity.
  - exists s. reflexivity.
Qed.

Lemma model_name_of_text (s : string) :
  exists name,
    Cloudflare.get_cloudflare_model_name (PStr s) = Ok (PStr name).
Proof.
  unfold Cloudflare.get_cloudflare_model_name.
  destruct (Cloudflare.mapping_get s Cloudflare.model_mapping) as [name |];
    eexists; reflexivity.
Qed.

Section WellFormedRequests.

Context {RT : PyRuntime} {TR : Transport}.

(** X23.  For a body whose [model] is a text or missing and whose
    [messages] are a list of objects with a text or no [content] (or are
    missing), the Cloudflare pipe can always prepare its call, so for every
    configuration and every behaviour of the network it hands back a value
    and never raises. *)
Theorem cloudflare_well_formed_request_never_raises
  (valves : Cloudflare.Valves) (body : dict) (ds : list dict)
  (log : list request) :
  Py.lookup "model" body = None
  \/ (exists s, Py.lookup "model" body = Some (PStr s)) ->
  Py.dget body "messages" (PList []) = PList (map PDict ds) ->
  Forall (fun d => Py.lookup "content" d = None
                   \/ exists c, Py.lookup "content" d = Some (PStr c)) ds ->
  (exists url headers payload,
      Cloudflare.prepare valves body = Ok (url, headers, payload))
  /\ exists v, fst (Cloudflare.pipe valves body log) = Returned v.
Proof.
  intros Hmodel Hmessages Hds.
  assert (Hprepare : exists url headers payload,
             Cloudflare.prepare valves body = Ok (url, headers, payload)).
  { unfold Cloudflare.prepare.
    assert (Htext : exists s, Py.dget body "model" (PStr "") = PStr s).
    { unfold Py.dget. destruct Hmodel as [-> | [s ->]]; eexists; reflexivity. }
    destruct Htext as [s ->].
    destruct (strip_pipe_prefix_of_text s) as [t ->]. cbn [bind].
    destruct (model_name_of_text t) as [name ->]. cbn [bind].
    unfold Cloudflare.call_for, Cloudflare.uses_responses_endpoint.
    cbn [Py.contains bind]. rewrite Hmessages.
    destruct (Text.contains "openai/gpt-oss" name).
    - destruct (messages_to_input_of_dicts ds Hds) as [input ->].
      cbn [bind]. do 3 eexists. reflexivity.
    - do 3 eexists. reflexivity. }
  split; [exact Hprepare |].
  destruct Hprepare as [url [headers [payload Hprepare]]].
  unfold Cloudflare.pipe.
  destruct (String.eqb _ ""); [eexists; reflexivity |].
  destruct (String.eqb _ ""); [eexists; reflexivity |].
  rewrite Hprepare. cbn.
  destruct (requests_post _) as [response | e]; [| eexists; reflexivity].
  destruct (negb _); [eexists; reflexivity |].
  destruct (bind _ _); eexists; reflexivity.
Qed.

(** X24.  An OpenAI-style pipe with its key set raises [AttributeError],
    before any network call, exactly when the body holds a [model] that is
    no text ([null], a number, a list): for a missing or text [model] it
    hands back a value or a generator, whatever the rest of the body
    holds. *)
Theorem openai_raises_only_on_model_type (p : OpenAI.provider)
  (valves : OpenAI.Valves) (body : dict) (log : list request) :
  OpenAI.API_KEY valves <> ""%string ->
  (Py.lookup "model" body = None
   \/ (exists s, Py.lookup "model" body = Some (PStr s)) ->
   forall e, fst (OpenAI.pipe p valves body log) <> Raised e)
  /\ (forall v,
         Py.lookup "model" body = Some v ->
         (forall s, v <> PStr s) ->
         exists e,
           OpenAI.pipe p valves body log = (Raised e, log)
           /\ exn_cls e = AttributeError).
Proof.
  intros Hkey. split.
  - intros Hmodel.
    assert (Hid : exists m, OpenAI.model_id_of p body = Ok m).
    { unfold OpenAI.model_id_of, Py.dget.
      destruct Hmodel as [-> | [s ->]];
        [| destruct (Text.startswith s (OpenAI.pipe_prefix p))];
        [destruct p | |]; eexists; reflexivity. }
    destruct Hid as [m Hid].
    destruct (build_payload_model p body m Hid) as [payload [Hpayload _]].
    apply (openai_pipe_does_not_raise p valves body payload log Hpayload).
  - intros v Hmodel Hother. unfold OpenAI.pipe.
    destruct (String.eqb_spec (OpenAI.API_KEY valves) ""); [contradiction |].
    unfold OpenAI.build_payload, OpenAI.model_id_of, Py.dget.
    rewrite Hmodel.
    destruct v as [| | | | s | |]; try (eexists; split; reflexivity).
    exfalso. apply (Hother s). reflexivity.
Qed.

End WellFormedRequests.

Lemma cloudflare_well_formed_request_never_raises_witness :
  Py.dget Inputs.gpt_oss_request "messages" (PList [])
  = PList (map PDict
             [[("role", PStr "system"); ("content", PStr "be terse")];
              [("role", PStr "user"); ("content", PStr "2+2?")]]%string)
  /\ (exists url headers payload,
         Cloudflare.prepare (RT := Reference.runtime) Inputs.cloudflare_valves
           Inputs.gpt_oss_request
         = Ok (url, headers, payload))
  /\ exists v,
       fst (Cloudflare.pipe (RT := Reference.runtime)
              (TR := Inputs.unreachable) Inputs.cloudflare_valves
              Inputs.gpt_oss_request [])
       = Returned v.
Proof.
  split; [reflexivity |].
  apply (cloudflare_well_formed_request_never_raises
           (RT := Reference.runtime) (TR := Inputs.unreachable)
           Inputs.cloudflare_valves Inputs.gpt_oss_request
           [[("role", PStr "system"); ("content", PStr "be terse")];
            [("role", PStr "user"); ("content", PStr "2+2?")]]%string []).
  - right. eexists. reflexivity.
  - reflexivity.
  - apply Forall_cons; [right; eexists; reflexivity |].
    apply Forall_cons; [right; eexists; reflexivity |].
    apply Forall_nil.
Defined.

Lemma openai_raises_only_on_model_type_witness :
  Py.lookup "model" [("model", PNone); ("stream", PBool true)]%string
  = Some PNone
  /\ (exists e,
         OpenAI.pipe (RT := Reference.runtime)
           (TR := Inputs.completion_transport)
           OpenAI.XAI (Inputs.openai_valves OpenAI.XAI)
           [("model", PNone); ("stream", PBool true)]%string []
         = (Raised e, [])
         /\ exn_cls e = AttributeError)
  /\ forall e,
       fst (OpenAI.pipe (RT := Reference.runtime)
              (TR := Inputs.completion_transport)
              OpenAI.XAI (Inputs.openai_valves OpenAI.XAI)
              Inputs.streaming_request [])
       <> Raised e.
Proof.
  split; [reflexivity |]. split.
  - apply (proj2 (openai_raises_only_on_model_type (RT := Reference.runtime)
                    (TR := Inputs.completion_transport) OpenAI.XAI
                    (Inputs.openai_valves OpenAI.XAI)
                    [("model", PNone); ("stream", PBool true)]%string []
                    ltac:(discriminate))
             PNone eq_refl).
    discriminate.
  - apply (proj1 (openai_raises_only_on_model_type (RT := Reference.runtime)
                    (TR := Inputs.completion_transport) OpenAI.XAI
                    (Inputs.openai_valves OpenAI.XAI)
                    Inputs.streaming_request []
                    ltac:(discriminate))).
    right. eexists. reflexivity.
Defined.

(** ** A failure of [json.loads] that is no decode error *)

Section OtherJsonFailures.

Context {RT : PyRuntime}.

(** X25.  When [json.loads] fails on the payload of a [data: ] line with an
    exception that is no [json.JSONDecodeError] (a [ValueError] for an
    integer literal of more digits than the interpreter converts, a
    [RecursionError]), the clause [except json.JSONDecodeError] does not
    catch it and the decoding ends at that line: the exception leaves the
    loop of [_handle_stream], while [stream_response] of the Cloudflare
    pipe yields one notice with the text of the exception and stops.  The
    lines after it are not read. *)
Theorem other_json_failure_ends_the_stream (payload : string)
  (rest : list line_event) (code : Z) (why raw : string)
  (parsed : result pyval) :
  json_loads payload = None ->
  is_JSONDecodeError (json_loads_error payload) = false ->
  Text.strip payload <> "[DONE]"%string ->
  for_lines OpenAI.handle_line (Line ("data: " ++ payload) :: rest)
  = mkRun [] (Some (json_loads_error payload))
  /\ Cloudflare.stream_response
       (mkResponse code why raw parsed (Line ("data: " ++ payload) :: rest))
     = mkRun [PStr (Text.nl ++ Text.nl ++ "Error during streaming: "
                    ++ exn_msg (json_loads_error payload))] None.
Proof.
  intros Hloads Hother Hdone. split.
  - cbn [for_lines]. rewrite openai_data_line, Hloads.
    destruct (String.eqb_spec (Text.strip payload) "[DONE]");
      [contradiction |].
    unfold try_except, glift. rewrite Hother. reflexivity.
  - unfold Cloudflare.stream_response. cbn [iter_lines for_lines].
    rewrite cloudflare_data_line, Hloads.
    destruct (String.eqb_spec payload "[DONE]") as [Heq | _];
      [exfalso; exact (strip_not_done payload Hdone Heq) |].
    unfold try_except, glift. rewrite Hother. reflexivity.
Qed.

End OtherJsonFailures.

Lemma other_json_failure_ends_the_stream_witness :
  (json_loads (PyRuntime := Reference.runtime) Inputs.overlong_payload = None
   /\ is_JSONDecodeError
        (json_loads_error (PyRuntime := Reference.runtime)
           Inputs.overlong_payload) = false
   /\ Text.strip Inputs.overlong_payload <> "[DONE]"%string)
  /\ for_lines (OpenAI.handle_line (RT := Reference.runtime))
       [Line ("data: " ++ Inputs.overlong_payload);
        Inputs.data_line (Inputs.delta_json "Hi")]
     = mkRun [] (Some (json_loads_error (PyRuntime := Reference.runtime)
                         Inputs.overlong_payload))
  /\ Cloudflare.stream_response (RT := Reference.runtime)
       (mkResponse 200 "OK" "" (Ok PNone)
          [Line ("data: " ++ Inputs.overlong_payload);
           Inputs.data_line (Inputs.response_json "Hi")])
     = mkRun [PStr (Text.nl ++ Text.nl ++ "Error during streaming: "
                    ++ exn_msg (json_loads_error
                                  (PyRuntime := Reference.runtime)
                                  Inputs.overlong_payload))] None.
Proof.
  assert (Hloads : json_loads (PyRuntime := Reference.runtime)
                     Inputs.overlong_payload = None)
    by (vm_compute; reflexivity).
  assert (Hother : is_JSONDecodeError
                     (json_loads_error (PyRuntime := Reference.runtime)
                        Inputs.overlong_payload) = false)
    by (vm_compute; reflexivity).
  assert (Hdone : Text.strip Inputs.overlong_payload <> "[DONE]"%string)
    by (intros H; vm_compute in H; discriminate H).
  split; [split; [exact Hloads | split; [exact Hother | exact Hdone]] |].
  split.
  - apply (proj1 (other_json_failure_ends_the_stream
                    (RT := Reference.runtime) Inputs.overlong_payload
                    [Inputs.data_line (Inputs.delta_json "Hi")]
                    200%Z "OK"%string ""%string (Ok PNone)
                    Hloads Hother Hdone)).
  - apply (proj2 (other_json_failure_ends_the_stream
                    (RT := Reference.runtime) Inputs.overlong_payload
                    [Inputs.data_line (Inputs.response_json "Hi")]
                    200%Z "OK"%string ""%string (Ok PNone)
                    Hloads Hother Hdone)).
Defined.
